(** * CommandStation-EX: RingStream and Display

    A shallow embedding of [RingStream.cpp] and [Display.cpp] and the
    properties of the two components: the circular byte buffer with its
    overflow flag, and the row buffer / incremental renderer of the
    character display.

    Conventions.
    - C++ integers are [Z]; 8-bit unsigned fields wrap with [wrap8] where the
      source increments them.
    - Bytes and characters are [Byte.byte]; a C array is a [list] read with
      stdpp's total lookup and written with stdpp's insert.
    - Freshly allocated storage ([new byte[len]], the members of a [Display]
      without an initialiser in the constructor) holds arbitrary contents and
      is an explicit argument of the constructors.
    - A [while] loop whose termination is not structural takes a step budget
      and returns [None] when the budget is exhausted. *)

From Stdlib Require Import ZArith Lia List Strings.Byte.
From stdpp Require Import base option list.

Local Open Scope Z_scope.

#[global] Instance byte_inhabited : Inhabited byte := populate x00.

#[global] Instance byte_eq_dec : EqDecision byte := Byte.byte_eq_dec.

(** [if (b)] on a byte: non-zero is true. *)
Definition nonzero (b : byte) : bool := negb (N.eqb (Byte.to_N b) 0).

(** Value of a byte as a C [int]. *)
Definition byte_to_int (b : byte) : Z := Z.of_N (Byte.to_N b).

(** [a[i]] for an index held in an integer variable. *)
Definition at_index (l : list byte) (i : Z) : byte := l !!! Z.to_nat i.

(** [a[i] = v]. *)
Definition store_index (l : list byte) (i : Z) (v : byte) : list byte :=
  <[Z.to_nat i := v]> l.

(** An 8-bit unsigned value after an increment. *)
Definition wrap8 (z : Z) : Z := z mod 256.

(* ===================================================================== *)
(** * RingStream *)
(* ===================================================================== *)

Module RingStream.

(** The members of [class RingStream].  The cursors are integers wide
    enough for the capacity. *)
Record t := mk {
  _len : Z;
  _buffer : list byte;
  _pos_write : Z;
  _pos_read : Z;
  _overflow : bool
}.

(** [RingStream::RingStream(len)]; [mem] is the content of the storage
    returned by [new byte[len]]. *)
Definition RingStream (len : Z) (mem : list byte) : t :=
  {| _len := len;
     _buffer := store_index mem 0 x00;
     _pos_write := 0;
     _pos_read := 0;
     _overflow := false |}.

(** [RingStream::write]: the returned [size_t] and the state afterwards. *)
Definition write (s : t) (b : byte) : Z * t :=
  if _overflow s then (0, s)
  else
    let buf := store_index (_buffer s) (_pos_write s) b in
    let pw := _pos_write s + 1 in
    let pw := if pw >=? _len s then 0 else pw in
    if pw =? _pos_read s
    then (0, {| _len := _len s; _buffer := buf; _pos_write := pw;
                _pos_read := _pos_read s; _overflow := true |})
    else (1, {| _len := _len s; _buffer := buf; _pos_write := pw;
                _pos_read := _pos_read s; _overflow := _overflow s |}).

(** [RingStream::read]: the returned [int] and the state afterwards. *)
Definition read (s : t) : Z * t :=
  if _pos_read s =? _pos_write s then (-1, s)
  else
    let b := at_index (_buffer s) (_pos_read s) in
    let pr := _pos_read s + 1 in
    let pr := if pr >=? _len s then 0 else pr in
    (byte_to_int b,
     {| _len := _len s; _buffer := _buffer s; _pos_write := _pos_write s;
        _pos_read := pr; _overflow := false |}).

(** The [while] loop of [RingStream::count], [fuel] iterations at most. *)
Fixpoint count_loop (fuel : nat) (s : t) (peek counter : Z) : option Z :=
  match fuel with
  | O => None
  | S fuel' =>
      if nonzero (at_index (_buffer s) peek) then
        let counter := counter + 1 in
        let peek := peek + 1 in
        let peek := if peek >=? _len s then 0 else peek in
        count_loop fuel' s peek counter
      else Some counter
  end.

(** [RingStream::count]. *)
Definition count (fuel : nat) (s : t) : option Z :=
  count_loop fuel s (_pos_read s) 0.

(** The scan as the specification words it: forward from the read cursor,
    stopping at a zero byte or on reaching the write cursor.  At most
    [n] bytes are looked at. *)
Fixpoint count_spec_loop (n : nat) (s : t) (peek counter : Z) : Z :=
  match n with
  | O => counter
  | S n' =>
      if (peek =? _pos_write s) || negb (nonzero (at_index (_buffer s) peek))
      then counter
      else
        let peek := peek + 1 in
        let peek := if peek >=? _len s then 0 else peek in
        count_spec_loop n' s peek (counter + 1)
  end.

Definition count_spec (s : t) : Z :=
  count_spec_loop (Z.to_nat (_len s)) s (_pos_read s) 0.

(** Calls a client can make on a stream, and their results. *)
Inductive call := Write (b : byte) | Read.

Definition do_call (s : t) (c : call) : Z * t :=
  match c with
  | Write b => write s b
  | Read => read s
  end.

(** A sequence of calls, oldest first: the results and the final state. *)
Fixpoint run (cs : list call) (s : t) : list Z * t :=
  match cs with
  | [] => ([], s)
  | c :: cs' =>
      let '(r, s1) := do_call s c in
      let '(rs, s2) := run cs' s1 in
      (r :: rs, s2)
  end.

(** Writing a list of bytes, oldest first. *)
Definition write_all (bs : list byte) (s : t) : list Z * t :=
  run (map Write bs) s.

(** The change in the number of bytes held that a call reports: a write
    that returns 1 adds a byte, a read that returns a byte removes one. *)
Definition delta (c : call) (r : Z) : Z :=
  match c with
  | Write _ => r
  | Read => if r =? -1 then 0 else -1
  end.

(** Bytes accepted and not yet read after the calls [cs]. *)
Fixpoint held (cs : list call) (s : t) : Z :=
  match cs with
  | [] => 0
  | c :: cs' =>
      let '(r, s1) := do_call s c in
      delta c r + held cs' s1
  end.

(** The flag implies equal cursors. *)
Definition flag_inv (s : t) : Prop :=
  _overflow s = true -> _pos_read s = _pos_write s.

(** Cursors in range, and [h] bytes held between them. *)
Definition holds (s : t) (h : Z) : Prop :=
  0 <= _pos_read s < _len s /\
  0 <= _pos_write s < _len s /\
  (_overflow s = false ->
   h = if _pos_read s <=? _pos_write s
       then _pos_write s - _pos_read s
       else _pos_write s - _pos_read s + _len s) /\
  (_overflow s = true -> _pos_read s = _pos_write s /\ h = _len s - 1).

(** A stream with its storage and both cursors inside it. *)
Definition well_formed (s : t) : Prop :=
  0 < _len s /\
  length (_buffer s) = Z.to_nat (_len s) /\
  0 <= _pos_read s < _len s /\
  0 <= _pos_write s < _len s.

(** The same stream with another write cursor. *)
Definition with_pos_write (w : Z) (s : t) : t :=
  {| _len := _len s; _buffer := _buffer s; _pos_write := w;
     _pos_read := _pos_read s; _overflow := _overflow s |}.

(** The cursor after [p++; if (p >= _len) p = 0]. *)
Definition advance (len p : Z) : Z := if p + 1 >=? len then 0 else p + 1.

(** The [n] bytes stored from the cursor [p] on, wrapping at [len]. *)
Fixpoint span (n : nat) (buf : list byte) (len p : Z) : list byte :=
  match n with
  | O => []
  | S n' => at_index buf p :: span n' buf len (advance len p)
  end.

(** The number of bytes between the read and the write cursor. *)
Definition pending (s : t) : Z := (_pos_write s - _pos_read s) mod _len s.

(** The bytes between the read and the write cursor, oldest first. *)
Definition contents (s : t) : list byte :=
  span (Z.to_nat (pending s)) (_buffer s) (_len s) (_pos_read s).

(** A queue of bytes with room for [C - 1] of them, which stops working
    for good when one byte too many is written. *)
Inductive queue :=
| Queue (q : list byte)
| Overflowed.

Definition queue_call (C : Z) (st : queue) (c : call) : Z * queue :=
  match st with
  | Overflowed =>
      match c with
      | Write _ => (0, Overflowed)
      | Read => (-1, Overflowed)
      end
  | Queue q =>
      match c with
      | Write b =>
          if Z.of_nat (length q) + 1 <? C then (1, Queue (q ++ [b]))
          else (0, Overflowed)
      | Read =>
          match q with
          | [] => (-1, Queue [])
          | b :: q' => (byte_to_int b, Queue q')
          end
      end
  end.

Fixpoint queue_run (C : Z) (cs : list call) (st : queue) : list Z * queue :=
  match cs with
  | [] => ([], st)
  | c :: cs' =>
      let '(r, st1) := queue_call C st c in
      let '(rs, st2) := queue_run C cs' st1 in
      (r :: rs, st2)
  end.

(** The stream [s] stands for the queue [st]. *)
Definition stands_for (s : t) (st : queue) : Prop :=
  well_formed s /\
  match st with
  | Queue q => _overflow s = false /\ contents s = q
  | Overflowed => _overflow s = true /\ _pos_read s = _pos_write s
  end.

End RingStream.

(* ===================================================================== *)
(** * Display *)
(* ===================================================================== *)

Module Display.

(** The compile-time constants [Display.cpp] takes from [Display.h] and
    [config.h], which are not part of the sources at hand.  [size_t_bits]
    is the width of [size_t] on the target. *)
Record config := {
  MAX_CHARACTER_ROWS : Z;
  MAX_CHARACTER_COLS : Z;
  ROW_INITIAL : Z;
  SCROLLMODE : Z;
  DISPLAY_SCROLL_TIME : Z;
  size_t_bits : Z
}.

(** What the code relies on: the loops over rows and columns count in a
    [uint8_t], and [ROW_INITIAL] is a [uint8_t] that is no row index. *)
Definition config_ok (cfg : config) : Prop :=
  1 <= MAX_CHARACTER_ROWS cfg <= 255 /\
  1 <= MAX_CHARACTER_COLS cfg <= 254 /\
  MAX_CHARACTER_ROWS cfg <= ROW_INITIAL cfg <= 255 /\
  8 <= size_t_bits cfg.

(** The queries of the [DisplayDevice] interface that the constructor
    uses. *)
Record DisplayDevice := {
  getNumCols : Z;
  getNumRows : Z
}.

(** The requests [loop2] sends to the device driver. *)
Inductive op :=
| setRowNative (slot : Z)
| writeNative (ch : byte).

(** The members of [class Display] that [Display.cpp] uses.
    [bufferPointer] is [None] for the null pointer and [Some i] for
    [&buffer[i]].  The declarations are in [Display.h]; as the loops of
    [Display.cpp] run over them, [rowBuffer] has [MAX_CHARACTER_ROWS] rows
    of [MAX_CHARACTER_COLS + 1] characters and [buffer] has
    [MAX_CHARACTER_COLS + 1] characters.  The cursors that the code
    increments are [uint8_t], like the row argument of [_setRow] and the
    loop counters. *)
Record t := mk {
  numCharacterColumns : Z;
  numCharacterRows : Z;
  rowBuffer : list (list byte);
  buffer : list byte;
  bufferPointer : option Z;
  hotRow : Z;
  hotCol : Z;
  topRow : Z;
  slot : Z;
  rowFirst : Z;
  rowNext : Z;
  charIndex : Z;
  noMoreRowsToDisplay : bool;
  lastScrollTime : Z
}.

Definition set_numCharacterColumns (v : Z) (d : t) : t :=
  mk v (numCharacterRows d) (rowBuffer d) (buffer d) (bufferPointer d)
     (hotRow d) (hotCol d) (topRow d) (slot d) (rowFirst d) (rowNext d)
     (charIndex d) (noMoreRowsToDisplay d) (lastScrollTime d).

Definition set_numCharacterRows (v : Z) (d : t) : t :=
  mk (numCharacterColumns d) v (rowBuffer d) (buffer d) (bufferPointer d)
     (hotRow d) (hotCol d) (topRow d) (slot d) (rowFirst d) (rowNext d)
     (charIndex d) (noMoreRowsToDisplay d) (lastScrollTime d).

Definition set_rowBuffer (v : list (list byte)) (d : t) : t :=
  mk (numCharacterColumns d) (numCharacterRows d) v (buffer d)
     (bufferPointer d) (hotRow d) (hotCol d) (topRow d) (slot d)
     (rowFirst d) (rowNext d) (charIndex d) (noMoreRowsToDisplay d)
     (lastScrollTime d).

Definition set_buffer (v : list byte) (d : t) : t :=
  mk (numCharacterColumns d) (numCharacterRows d) (rowBuffer d) v
     (bufferPointer d) (hotRow d) (hotCol d) (topRow d) (slot d)
     (rowFirst d) (rowNext d) (charIndex d) (noMoreRowsToDisplay d)
     (lastScrollTime d).

Definition set_bufferPointer (v : option Z) (d : t) : t :=
  mk (numCharacterColumns d) (numCharacterRows d) (rowBuffer d) (buffer d) v
     (hotRow d) (hotCol d) (topRow d) (slot d) (rowFirst d) (rowNext d)
     (charIndex d) (noMoreRowsToDisplay d) (lastScrollTime d).

Definition set_hotRow (v : Z) (d : t) : t :=
  mk (numCharacterColumns d) (numCharacterRows d) (rowBuffer d) (buffer d)
     (bufferPointer d) v (hotCol d) (topRow d) (slot d) (rowFirst d)
     (rowNext d) (charIndex d) (noMoreRowsToDisplay d) (lastScrollTime d).

Definition set_hotCol (v : Z) (d : t) : t :=
  mk (numCharacterColumns d) (numCharacterRows d) (rowBuffer d) (buffer d)
     (bufferPointer d) (hotRow d) v (topRow d) (slot d) (rowFirst d)
     (rowNext d) (charIndex d) (noMoreRowsToDisplay d) (lastScrollTime d).

Definition set_topRow (v : Z) (d : t) : t :=
  mk (numCharacterColumns d) (numCharacterRows d) (rowBuffer d) (buffer d)
     (bufferPointer d) (hotRow d) (hotCol d) v (slot d) (rowFirst d)
     (rowNext d) (charIndex d) (noMoreRowsToDisplay d) (lastScrollTime d).

Definition set_slot (v : Z) (d : t) : t :=
  mk (numCharacterColumns d) (numCharacterRows d) (rowBuffer d) (buffer d)
     (bufferPointer d) (hotRow d) (hotCol d) (topRow d) v (rowFirst d)
     (rowNext d) (charIndex d) (noMoreRowsToDisplay d) (lastScrollTime d).

Definition set_rowFirst (v : Z) (d : t) : t :=
  mk (numCharacterColumns d) (numCharacterRows d) (rowBuffer d) (buffer d)
     (bufferPointer d) (hotRow d) (hotCol d) (topRow d) (slot d) v
     (rowNext d) (charIndex d) (noMoreRowsToDisplay d) (lastScrollTime d).

Definition set_rowNext (v : Z) (d : t) : t :=
  mk (numCharacterColumns d) (numCharacterRows d) (rowBuffer d) (buffer d)
     (bufferPointer d) (hotRow d) (hotCol d) (topRow d) (slot d)
     (rowFirst d) v (charIndex d) (noMoreRowsToDisplay d) (lastScrollTime d).

Definition set_charIndex (v : Z) (d : t) : t :=
  mk (numCharacterColumns d) (numCharacterRows d) (rowBuffer d) (buffer d)
     (bufferPointer d) (hotRow d) (hotCol d) (topRow d) (slot d)
     (rowFirst d) (rowNext d) v (noMoreRowsToDisplay d) (lastScrollTime d).

Definition set_noMoreRowsToDisplay (v : bool) (d : t) : t :=
  mk (numCharacterColumns d) (numCharacterRows d) (rowBuffer d) (buffer d)
     (bufferPointer d) (hotRow d) (hotCol d) (topRow d) (slot d)
     (rowFirst d) (rowNext d) (charIndex d) v (lastScrollTime d).

Definition set_lastScrollTime (v : Z) (d : t) : t :=
  mk (numCharacterColumns d) (numCharacterRows d) (rowBuffer d) (buffer d)
     (bufferPointer d) (hotRow d) (hotCol d) (topRow d) (slot d)
     (rowFirst d) (rowNext d) (charIndex d) (noMoreRowsToDisplay d) v.

(** A store into [rowBuffer] either lands in the array or outside it. *)
Inductive outcome (A : Type) :=
| Done (a : A)
| StoreOutsideRowBuffer (row col : Z).
Arguments Done {A} a.
Arguments StoreOutsideRowBuffer {A} row col.

#[global] Instance outcome_bind : MBind outcome := fun A B k m =>
  match m with
  | Done a => k a
  | StoreOutsideRowBuffer row col => StoreOutsideRowBuffer row col
  end.

(** [rows[row][col]]. *)
Definition cell (rows : list (list byte)) (row col : Z) : byte :=
  at_index (rows !!! Z.to_nat row) col.

(** [rows[row][col] = v] for a cell inside the array. *)
Definition cell_store (rows : list (list byte)) (row col : Z) (v : byte)
  : list (list byte) :=
  <[Z.to_nat row := store_index (rows !!! Z.to_nat row) col v]> rows.

(** The text of a character array: its characters before the first zero. *)
Fixpoint text_of (buf : list byte) : list byte :=
  match buf with
  | [] => []
  | b :: buf' => if nonzero b then b :: text_of buf' else []
  end.

(** A text cut or filled with spaces to [n] characters. *)
Definition pad (n : nat) (text : list byte) : list byte :=
  take n text ++ replicate (n - length text) " "%byte.

(** The requests for one slot: the position, then the characters. *)
Definition slot_requests (slot : Z) (line : list byte) : list op :=
  setRowNative slot :: map writeNative line.

(** The requests of the slots from [first] on that show [texts], each
    line [cols] characters wide. *)
Fixpoint pass_requests (cols : nat) (first : Z) (texts : list (list byte))
  : list op :=
  match texts with
  | [] => []
  | text :: texts' =>
      slot_requests first (pad cols text) ++
      pass_requests cols (first + 1) texts'
  end.

(** The number of [writeNative] requests at the head of [out]. *)
Fixpoint leading_writes (out : list op) : nat :=
  match out with
  | writeNative _ :: out' => S (leading_writes out')
  | _ => O
  end.

(** For each [setRowNative] request of [out], the number of characters
    written before the next one. *)
Fixpoint writes_per_slot (out : list op) : list nat :=
  match out with
  | [] => []
  | setRowNative _ :: out' => leading_writes out' :: writes_per_slot out'
  | writeNative _ :: out' => writes_per_slot out'
  end.

(** The texts of the non-blank rows, in the order of the rows. *)
Definition nonblank_texts (rows : list (list byte)) : list (list byte) :=
  filter (fun text => text <> []) (map text_of rows).

(** The first [n] of the texts [l], followed by blank lines when [l] has
    fewer. *)
Fixpoint first_lines (n : nat) (l : list (list byte)) : list (list byte) :=
  match n with
  | O => []
  | S n' =>
      match l with
      | [] => [] :: first_lines n' []
      | text :: l' => text :: first_lines n' l'
      end
  end.

Section WithConfig.

Context (cfg : config).

(** Is [rowBuffer[row][col]] an element of the array? *)
Definition in_rowBuffer (row col : Z) : bool :=
  (0 <=? row) && (row <? MAX_CHARACTER_ROWS cfg) &&
  (0 <=? col) && (col <=? MAX_CHARACTER_COLS cfg).

(** [rowBuffer[row][col] = v]. *)
Definition rowBuffer_store (row col : Z) (v : byte) (d : t) : outcome t :=
  if in_rowBuffer row col
  then Done (set_rowBuffer (cell_store (rowBuffer d) row col v) d)
  else StoreOutsideRowBuffer row col.

(** [for (row = 0; row < MAX_CHARACTER_ROWS; row++) rowBuffer[row][0] = 0],
    with [n] rows still to go from [row]. *)
Fixpoint clear_rows (n : nat) (row : Z) (rows : list (list byte))
  : list (list byte) :=
  match n with
  | O => rows
  | S n' => clear_rows n' (row + 1) (cell_store rows row 0 x00)
  end.

(** [Display::Display(deviceDriver)]; [mem] holds the members as they are
    before the constructor body runs.  The registration [addDisplay(0)]
    touches no member modelled here. *)
Definition Display (deviceDriver : DisplayDevice) (mem : t) : t :=
  let d := set_numCharacterColumns (getNumCols deviceDriver) mem in
  let d := set_numCharacterRows (getNumRows deviceDriver) d in
  let d := set_rowBuffer
             (clear_rows (Z.to_nat (MAX_CHARACTER_ROWS cfg)) 0 (rowBuffer d)) d in
  set_topRow (ROW_INITIAL cfg) d.

(** [Display::_setRow]. *)
Definition _setRow (line : Z) (d : t) : outcome t :=
  let d := set_hotRow line d in
  let d := set_hotCol 0 d in
  rowBuffer_store (hotRow d) 0 x00 d.

(** [Display::_write]: the returned [size_t] and the state afterwards. *)
Definition _write (b : byte) (d : t) : outcome (Z * t) :=
  if (hotRow d >=? MAX_CHARACTER_ROWS cfg) || (hotCol d >=? MAX_CHARACTER_COLS cfg)
  then Done ((-1) mod 2 ^ size_t_bits cfg, d)
  else
    d ← rowBuffer_store (hotRow d) (hotCol d) b d;
    let d := set_hotCol (wrap8 (hotCol d + 1)) d in
    d ← rowBuffer_store (hotRow d) (hotCol d) x00 d;
    Done (1, d).

(** [_write] for each byte of a list, oldest first: the returned values and
    the final state. *)
Fixpoint write_all (bs : list byte) (d : t) : outcome (list Z * t) :=
  match bs with
  | [] => Done ([], d)
  | b :: bs' =>
      r ← _write b d;
      rs ← write_all bs' (snd r);
      Done (fst r :: fst rs, snd rs)
  end.

(** [rowBuffer[row][0] != 0]. *)
Definition row_nonblank (d : t) (row : Z) : bool :=
  nonzero (cell (rowBuffer d) row 0).

(** [Display::findNextNonBlankRow], [fuel] iterations of its loop at most. *)
Fixpoint findNextNonBlankRow (fuel : nat) (d : t) : option (bool * t) :=
  match fuel with
  | O => None
  | S fuel' =>
      if noMoreRowsToDisplay d then Some (false, d)
      else
        let d := if rowNext d =? ROW_INITIAL cfg
                 then set_rowNext 0 d
                 else set_rowNext (wrap8 (rowNext d + 1)) d in
        if SCROLLMODE cfg =? 1 then
          if rowNext d >=? MAX_CHARACTER_ROWS cfg then
            let d := set_rowNext (ROW_INITIAL cfg) d in
            let d := set_noMoreRowsToDisplay true d in
            Some (false, d)
          else if row_nonblank d (rowNext d) then Some (true, d)
          else findNextNonBlankRow fuel' d
        else
          let d := if rowNext d >=? MAX_CHARACTER_ROWS cfg
                   then set_rowNext 0 d else d in
          if rowNext d =? rowFirst d then
            Some (false, set_noMoreRowsToDisplay true d)
          else if row_nonblank d (rowNext d) then Some (true, d)
          else findNextNonBlankRow fuel' d
  end.

(** The row after [rowNext] is advanced at the head of the loop of
    [findNextNonBlankRow]. *)
Definition step_row (row : Z) : Z :=
  if row =? ROW_INITIAL cfg then 0 else wrap8 (row + 1).

(** The same row after the wrap of the continuous and row policies. *)
Definition wrap_row (row : Z) : Z :=
  if step_row row >=? MAX_CHARACTER_ROWS cfg then 0 else step_row row.

(** [for (i = 0; i <= MAX_CHARACTER_COLS; i++) buffer[i] = row[i]], with
    [n] characters still to go from [i]. *)
Fixpoint copy_loop (n : nat) (i : Z) (row buf : list byte) : list byte :=
  match n with
  | O => buf
  | S n' => copy_loop n' (i + 1) row (store_index buf i (at_index row i))
  end.

Definition copy_row (row buf : list byte) : list byte :=
  copy_loop (Z.to_nat (MAX_CHARACTER_COLS cfg + 1)) 0 row buf.

(** One iteration of the [do ... while (force)] body of [Display::loop2]:
    the state afterwards, the requests sent to the device, and whether the
    iteration left through [return]. *)
Definition loop2_body (fuel : nat) (currentMillis : Z) (d : t)
  : option (t * list op * bool) :=
  match bufferPointer d with
  | None =>
      let d := if rowFirst d =? ROW_INITIAL cfg
               then set_rowFirst (rowNext d) d else d in
      match findNextNonBlankRow fuel d with
      | None => None
      | Some (found, d) =>
          let d := if found : bool
                   then set_buffer
                          (copy_row (rowBuffer d !!! Z.to_nat (rowNext d))
                                    (buffer d)) d
                   else set_buffer (store_index (buffer d) 0 x00) d in
          let out := [setRowNative (slot d)] in
          let d := set_charIndex 0 d in
          let d := set_bufferPointer (Some 0) d in
          Some (d, out, false)
      end
  | Some p =>
      let ch := at_index (buffer d) p in
      let out := if nonzero ch then [writeNative ch]
                 else [writeNative " "%byte] in
      let d := if nonzero ch then set_bufferPointer (Some (p + 1)) d else d in
      let d := set_charIndex (wrap8 (charIndex d + 1)) d in
      if charIndex d >=? MAX_CHARACTER_COLS cfg then
        let d := set_bufferPointer None d in
        let d := set_slot (wrap8 (slot d + 1)) d in
        if slot d >=? numCharacterRows d then
          let after_scroll :=
            if (SCROLLMODE cfg =? 2) && negb (noMoreRowsToDisplay d)
            then
              match findNextNonBlankRow fuel (set_rowNext (rowFirst d) d) with
              | None => None
              | Some (_, d) => Some d
              end
            else Some d in
          match after_scroll with
          | None => None
          | Some d =>
              let d := set_noMoreRowsToDisplay false d in
              let d := set_slot 0 d in
              let d := set_rowFirst (ROW_INITIAL cfg) d in
              let d := set_lastScrollTime currentMillis d in
              Some (d, out, true)
          end
        else Some (d, out, false)
      else Some (d, out, false)
  end.

(** The [do ... while (true)] loop of a forced call, [n] iterations at
    most. *)
Fixpoint loop2_do (fuel n : nat) (currentMillis : Z) (d : t)
  : option (t * list op) :=
  match n with
  | O => None
  | S n' =>
      match loop2_body fuel currentMillis d with
      | None => None
      | Some (d1, out, true) => Some (d1, out)
      | Some (d1, out, false) =>
          match loop2_do fuel n' currentMillis d1 with
          | None => None
          | Some (d2, out') => Some (d2, out ++ out')
          end
      end
  end.

(** The assignments of the [force] branch at the head of [loop2]. *)
Definition force_reset (d : t) : t :=
  let d := set_rowFirst (ROW_INITIAL cfg) d in
  let d := set_rowNext (ROW_INITIAL cfg) d in
  let d := set_bufferPointer None d in
  let d := set_noMoreRowsToDisplay false d in
  set_slot 0 d.

(** [currentMillis - lastScrollTime < DISPLAY_SCROLL_TIME] in
    [unsigned long] (32 bits). *)
Definition throttled (currentMillis : Z) (d : t) : bool :=
  (currentMillis - lastScrollTime d) mod 2 ^ 32 <? DISPLAY_SCROLL_TIME cfg.

(** [Display::loop2(force)], called when [millis()] returns
    [currentMillis]: the state afterwards and the requests sent to the
    device, oldest first.  [fuel] bounds the iterations of every loop. *)
Definition loop2 (fuel : nat) (force : bool) (currentMillis : Z) (d : t)
  : option (t * list op) :=
  if force then loop2_do fuel fuel currentMillis (force_reset d)
  else if throttled currentMillis d then Some (d, [])
  else
    match loop2_body fuel currentMillis d with
    | None => None
    | Some (d1, out, _) => Some (d1, out)
    end.

(** Successive calls [loop2(false)], one per clock value of [nows]. *)
Fixpoint loop2_calls (fuel : nat) (nows : list Z) (d : t)
  : option (t * list op) :=
  match nows with
  | [] => Some (d, [])
  | now :: nows' =>
      match loop2 fuel false now d with
      | None => None
      | Some (d1, out) =>
          match loop2_calls fuel nows' d1 with
          | None => None
          | Some (d2, out') => Some (d2, out ++ out')
          end
      end
  end.

(** [_setRow(row)] followed by [_write] of each byte of [bs]. *)
Definition set_text (row : Z) (bs : list byte) (d : t) : outcome t :=
  d ← _setRow row d;
  r ← write_all bs d;
  Done (snd r).

(** The arrays have their declared sizes. *)
Definition shape (d : t) : Prop :=
  length (rowBuffer d) = Z.to_nat (MAX_CHARACTER_ROWS cfg) /\
  Forall (fun row : list byte =>
            length row = Z.to_nat (MAX_CHARACTER_COLS cfg + 1)) (rowBuffer d) /\
  length (buffer d) = Z.to_nat (MAX_CHARACTER_COLS cfg + 1).

Definition all_rows_blank (d : t) : bool :=
  forallb (fun row => negb (row_nonblank d row))
          (seqZ 0 (MAX_CHARACTER_ROWS cfg)).

Definition some_row_nonblank (d : t) : bool :=
  existsb (row_nonblank d) (seqZ 0 (MAX_CHARACTER_ROWS cfg)).

(** The row search of [d] has an end: the page policy stops at the last
    row, the other policies at a non-blank row. *)
Definition searchable (d : t) : bool :=
  (SCROLLMODE cfg =? 1) || some_row_nonblank d.

(** The character sent for the buffer character [ch]. *)
Definition shown (ch : byte) : byte :=
  if nonzero ch then ch else " "%byte.

(** The state after the character at [&buffer[p]] was sent, short of the
    end of the slot. *)
Definition after_char (p : Z) (d : t) : t :=
  set_charIndex (wrap8 (charIndex d + 1))
    (if nonzero (at_index (buffer d) p)
     then set_bufferPointer (Some (p + 1)) d else d).

(** The pointer after the character at [&buffer[p]] was sent. *)
Definition next_pointer (buf : list byte) (p : Z) : Z :=
  if nonzero (at_index buf p) then p + 1 else p.

(** The [n] characters sent from [&buffer[p]] on. *)
Fixpoint line_image (n : nat) (buf : list byte) (p : Z) : list byte :=
  match n with
  | O => []
  | S n' => shown (at_index buf p) :: line_image n' buf (next_pointer buf p)
  end.

(** The state after [n] characters were sent from [&buffer[p]] on, short
    of the end of the slot. *)
Fixpoint after_chars (n : nat) (p : Z) (d : t) : t :=
  match n with
  | O => d
  | S n' => after_chars n' (next_pointer (buffer d) p) (after_char p d)
  end.

(** The pointer after [n] characters were sent from [&buffer[p]] on. *)
Fixpoint pointer_after (n : nat) (buf : list byte) (p : Z) : Z :=
  match n with
  | O => p
  | S n' => pointer_after n' buf (next_pointer buf p)
  end.

(** The state after [if (rowFirst == ROW_INITIAL) rowFirst = rowNext]. *)
Definition anchored (d : t) : t :=
  if rowFirst d =? ROW_INITIAL cfg then set_rowFirst (rowNext d) d else d.

(** The state after a line was staged for the slot: the row found, or a
    blank line. *)
Definition staged (found : bool) (d : t) : t :=
  set_bufferPointer (Some 0)
    (set_charIndex 0
       (if found
        then set_buffer (copy_row (rowBuffer d !!! Z.to_nat (rowNext d))
                                  (buffer d)) d
        else set_buffer (store_index (buffer d) 0 x00) d)).

(** The state after the last character of a slot was sent. *)
Definition slot_done (p : Z) (d : t) : t :=
  set_slot (wrap8 (slot d + 1)) (set_bufferPointer None (after_char p d)).

(** The state after the assignments at the end of a pass. *)
Definition pass_done (currentMillis : Z) (d : t) : t :=
  set_lastScrollTime currentMillis
    (set_rowFirst (ROW_INITIAL cfg)
       (set_slot 0 (set_noMoreRowsToDisplay false d))).

(** Iterations of the body of [loop2], one per clock value of [nows],
    none of which leaves through [return]. *)
Fixpoint steps (fuel : nat) (nows : list Z) (d : t) : option (t * list op) :=
  match nows with
  | [] => Some (d, [])
  | now :: nows' =>
      match loop2_body fuel now d with
      | Some (d1, out, false) =>
          match steps fuel nows' d1 with
          | Some (d2, out') => Some (d2, out ++ out')
          | None => None
          end
      | _ => None
      end
  end.

(** The requests of [begin] and [_clear] to the device. *)
Inductive setup :=
| beginNative
| clearNative.

(** [Display::begin]. *)
Definition begin : list setup := [beginNative; clearNative].

(** [Display::_clear]: the request sent and the state afterwards. *)
Definition _clear (d : t) : list setup * t :=
  let d := set_rowBuffer
             (clear_rows (Z.to_nat (MAX_CHARACTER_ROWS cfg)) 0 (rowBuffer d)) d in
  ([clearNative], set_topRow (ROW_INITIAL cfg) d).

(** [Display::_refresh]. *)
Definition _refresh (fuel : nat) (currentMillis : Z) (d : t)
  : option (t * list op) :=
  loop2 fuel true currentMillis d.

(** [Display::_displayLoop], with the answer of the device to [isBusy]. *)
Definition _displayLoop (fuel : nat) (isBusy : bool) (currentMillis : Z)
    (d : t) : option (t * list op) :=
  if negb isBusy then loop2 fuel false currentMillis d else Some (d, []).

(** What belongs to the writer of the rows and to the constructor. *)
Definition untouched (d d' : t) : Prop :=
  rowBuffer d' = rowBuffer d /\
  hotRow d' = hotRow d /\
  hotCol d' = hotCol d /\
  topRow d' = topRow d /\
  numCharacterRows d' = numCharacterRows d /\
  numCharacterColumns d' = numCharacterColumns d.

(** The state between two passes. *)
Definition between_passes (d : t) : Prop :=
  bufferPointer d = None /\
  slot d = 0 /\
  rowFirst d = ROW_INITIAL cfg /\
  noMoreRowsToDisplay d = false.

(** The value [_write] returns for [-1]. *)
Definition rejected : Z := (-1) mod 2 ^ size_t_bits cfg.

(** [rowNext] when the rows below [c] have been searched: the row before
    [c], or [ROW_INITIAL] before the first search of a pass. *)
Definition cursor_row (c : nat) : Z :=
  match c with
  | O => ROW_INITIAL cfg
  | S c' => Z.of_nat c'
  end.

(** The row [i] of [d] is blank. *)
Definition blank_at (d : t) (i : Z) : Prop :=
  nonzero (cell (rowBuffer d) i 0) = false.

(** The state of the row search at the start of a slot of a forced pass,
    when the rows below [c] have been searched: either the search has
    given up and no row from [c] on has a text, or it goes on from [c],
    and under the continuous and row policies [rowFirst] is, or is about
    to be set to, a row below [c] with only blank rows below it. *)
Definition search_state (d : t) (c : nat) : Prop :=
  (noMoreRowsToDisplay d = true /\
   nonblank_texts (drop c (rowBuffer d)) = []) \/
  (noMoreRowsToDisplay d = false /\
   (c <= length (rowBuffer d))%nat /\
   rowNext d = cursor_row c /\
   (SCROLLMODE cfg <> 1 ->
    (c = O /\ rowFirst d = ROW_INITIAL cfg) \/
    exists r0 : Z,
      0 <= r0 < Z.of_nat c /\
      (forall i, 0 <= i < r0 -> blank_at d i) /\
      (rowFirst d = r0 \/ (rowFirst d = ROW_INITIAL cfg /\ rowNext d = r0)))).

(** Two states agree on what the row search reads. *)
Definition same_search (d1 d2 : t) : Prop :=
  rowBuffer d2 = rowBuffer d1 /\
  rowNext d2 = rowNext d1 /\
  rowFirst d2 = rowFirst d1 /\
  noMoreRowsToDisplay d2 = noMoreRowsToDisplay d1.

End WithConfig.

End Display.

(* ===================================================================== *)
(** * Concrete streams and displays used in the examples *)
(* ===================================================================== *)

Module Examples.

Import RingStream.

(** A stream of capacity 2 after [write('A')] and [write('B')]. *)
Definition stream2 : RingStream.t :=
  snd (RingStream.write_all ["A"%byte; "B"%byte]
         (RingStream 2 [x00; x00])).

(** A stream of capacity 4 on which "AB\0" was written and read, and
    then 'C' was written. *)
Definition stream4 : RingStream.t :=
  snd (run [Write "A"%byte; Write "B"%byte; Write x00; Read; Read; Read;
            Write "C"%byte]
         (RingStream 4 [x00; x00; x00; x00])).


Import Display.

(** Eight rows (as the header comment of [Display.cpp] has it) of up to
    20 characters, scrolling by row. *)
Definition cfg_row : config :=
  {| MAX_CHARACTER_ROWS := 8; MAX_CHARACTER_COLS := 20; ROW_INITIAL := 255;
     SCROLLMODE := 2; DISPLAY_SCROLL_TIME := 3000; size_t_bits := 16 |}.

(** The same, scrolling by page. *)
Definition cfg_page : config :=
  {| MAX_CHARACTER_ROWS := 8; MAX_CHARACTER_COLS := 20; ROW_INITIAL := 255;
     SCROLLMODE := 1; DISPLAY_SCROLL_TIME := 3000; size_t_bits := 16 |}.

(** A device with 16 columns and 2 rows. *)
Definition lcd16x2 : DisplayDevice := {| getNumCols := 16; getNumRows := 2 |}.

(** Members before construction: zeroed storage. *)
Definition zeroed : Display.t :=
  Display.mk 0 0 (replicate 8 (replicate 21 x00)) (replicate 21 x00) None
             0 0 0 0 0 0 0 false 0.

(** A fresh display on the 16x2 device: every row is blank. *)
Definition blank16x2 : Display.t := Display cfg_row lcd16x2 zeroed.

(** The display of an outcome, for the examples. *)
Definition the_display (o : outcome Display.t) : Display.t :=
  match o with
  | Done d => d
  | StoreOutsideRowBuffer _ _ => zeroed
  end.

(** Rows 0-4 hold "A", "B", "C", "D", "E"; the other rows are blank. *)
Definition five_rows : Display.t :=
  the_display
    (d ← set_text cfg_row 0 ["A"%byte] blank16x2;
     d ← set_text cfg_row 1 ["B"%byte] d;
     d ← set_text cfg_row 2 ["C"%byte] d;
     d ← set_text cfg_row 3 ["D"%byte] d;
     set_text cfg_row 4 ["E"%byte] d).

(** Row 3 holds "D"; the other rows are blank. *)
Definition row3_only : Display.t :=
  the_display (set_text cfg_row 3 ["D"%byte] blank16x2).

(** The requests of a pass that shows the texts [top] and [bottom]. *)
Definition shows (top bottom : list byte) : list op :=
  slot_requests 0 (pad 20 top) ++ slot_requests 1 (pad 20 bottom).

(** Three forced calls in a row, at the clock values [now1], [now2] and
    [now3]: the requests of each. *)
Definition three_forced_passes (fuel : nat) (now1 now2 now3 : Z)
    (d : Display.t) : option (list op * list op * list op) :=
  match loop2 cfg_row fuel true now1 d with
  | None => None
  | Some (d1, out1) =>
      match loop2 cfg_row fuel true now2 d1 with
      | None => None
      | Some (d2, out2) =>
          match loop2 cfg_row fuel true now3 d2 with
          | None => None
          | Some (_, out3) => Some (out1, out2, out3)
          end
      end
  end.

(** The display after a forced call at clock value 0. *)
Definition after_forced_pass (d : Display.t) : Display.t :=
  match loop2 cfg_row 100 true 0 d with
  | Some (d1, _) => d1
  | None => d
  end.

(** [five_rows] after a forced call at clock value 0 and [_clear()]: every
    row is blank, and [rowNext] stands at row 1. *)
Definition cleared_after_pass : Display.t :=
  snd (_clear cfg_row (after_forced_pass five_rows)).

(** A forced call at time 5000, then the unforced calls of two more
    passes at times 8000 and 11000: the requests of each pass. *)
Definition forced_then_unforced_passes (d : Display.t)
  : option (list op * list op * list op) :=
  match loop2 cfg_row 100 true 5000 d with
  | None => None
  | Some (d1, out1) =>
      match loop2_calls cfg_row 100 (replicate 42 8000) d1 with
      | None => None
      | Some (d2, out2) =>
          match loop2_calls cfg_row 100 (replicate 42 11000) d2 with
          | None => None
          | Some (_, out3) => Some (out1, out2, out3)
          end
      end
  end.

End Examples.

(* ===================================================================== *)
(** * Properties of RingStream *)
(* ===================================================================== *)

Module RingStreamFacts.

Import RingStream.

Lemma byte_to_int_range (b : byte) : 0 <= byte_to_int b <= 255.
Proof.
  unfold byte_to_int. pose proof (Byte.to_N_bounded b). lia.
Qed.

(** ** Overflow *)

Lemma write_overflowed (s : t) (b : byte) :
  _overflow s = true -> write s b = (0, s).
Proof. intros H. unfold write. now rewrite H. Qed.

Lemma read_cursors_equal (s : t) :
  _pos_read s = _pos_write s -> read s = (-1, s).
Proof. intros H. unfold read. now rewrite H, Z.eqb_refl. Qed.

(** A write raises the flag only when it leaves the two cursors equal. *)
Lemma write_sets_overflow (s : t) (b : byte) :
  _overflow s = false ->
  _overflow (snd (write s b)) = true ->
  fst (write s b) = 0 /\
  _pos_read (snd (write s b)) = _pos_write (snd (write s b)).
Proof.
  intros Hs. unfold write. rewrite Hs.
  destruct (_ =? _pos_read s) eqn:E; simpl; [|congruence].
  intros _. apply Z.eqb_eq in E. auto.
Qed.

(** The flag implies equal cursors: preserved by every call. *)
Lemma flag_inv_init len mem : flag_inv (RingStream len mem).
Proof. unfold flag_inv. simpl. congruence. Qed.

Lemma flag_inv_write s b : flag_inv s -> flag_inv (snd (write s b)).
Proof.
  intros Hs. destruct (_overflow s) eqn:E.
  - now rewrite write_overflowed.
  - intros H. now apply write_sets_overflow.
Qed.

Lemma flag_inv_read s : flag_inv s -> flag_inv (snd (read s)).
Proof.
  intros Hs. unfold read.
  destruct (_pos_read s =? _pos_write s); [exact Hs|].
  unfold flag_inv. simpl. congruence.
Qed.

Lemma flag_inv_run cs : forall s, flag_inv s -> flag_inv (snd (run cs s)).
Proof.
  induction cs as [|c cs IH]; intros s Hs; [exact Hs|].
  simpl. destruct (do_call s c) as [r s1] eqn:E.
  assert (H1 : flag_inv s1).
  { replace s1 with (snd (do_call s c)) by now rewrite E.
    destruct c; simpl; auto using flag_inv_write, flag_inv_read. }
  specialize (IH s1 H1). destruct (run cs s1) as [rs s2]. exact IH.
Qed.

(** C1.  When a write has set the overflow flag, the next [read] does not
    deliver a byte and does not clear the flag: it returns -1 and leaves
    the stream as it is, and every further write is still rejected. *)
Theorem overflow_survives_read (s : t) (b : byte) :
  _overflow s = false ->
  _overflow (snd (write s b)) = true ->
  fst (write s b) = 0 /\
  read (snd (write s b)) = (-1, snd (write s b)) /\
  forall b', write (snd (write s b)) b' = (0, snd (write s b)).
Proof.
  intros Hs Ho. destruct (write_sets_overflow s b Hs Ho) as [Hr Hc].
  split; [exact Hr|]. split.
  - now apply read_cursors_equal.
  - intros b'. now apply write_overflowed.
Qed.

Lemma overflow_survives_read_witness :
  let s := snd (write (RingStream 2 [x00; x00]) "A"%byte) in
  _overflow s = false /\
  _overflow (snd (write s "B"%byte)) = true /\
  fst (write s "B"%byte) = 0 /\
  read (snd (write s "B"%byte)) = (-1, Examples.stream2) /\
  forall b', write (snd (write s "B"%byte)) b' = (0, Examples.stream2).
Proof.
  split; [reflexivity|]. split; [reflexivity|].
  apply (overflow_survives_read
           (snd (write (RingStream 2 [x00; x00]) "A"%byte)) "B"%byte);
    reflexivity.
Defined.

(** C10.  In every state reached from the constructor by writes and
    reads, a set overflow flag means that the two cursors are equal; then
    [read] returns -1 and [write] returns 0, both without changing the
    stream. *)
Theorem overflow_implies_cursors_equal (len : Z) (mem : list byte)
    (cs : list call) :
  let s := snd (run cs (RingStream len mem)) in
  _overflow s = true ->
  _pos_read s = _pos_write s /\
  read s = (-1, s) /\
  forall b, write s b = (0, s).
Proof.
  intros s Ho.
  assert (Hc : _pos_read s = _pos_write s)
    by (apply (flag_inv_run cs _ (flag_inv_init len mem)); exact Ho).
  split; [exact Hc|]. split.
  - now apply read_cursors_equal.
  - intros b. now apply write_overflowed.
Qed.

Lemma overflow_implies_cursors_equal_witness :
  let s := snd (run [Write "A"%byte; Read; Write "B"%byte; Write "C"%byte]
                  (RingStream 2 [x00; x00])) in
  _overflow s = true /\
  _pos_read s = _pos_write s /\
  read s = (-1, s) /\
  forall b, write s b = (0, s).
Proof.
  split; [reflexivity|].
  apply (overflow_implies_cursors_equal 2 [x00; x00]
           [Write "A"%byte; Read; Write "B"%byte; Write "C"%byte]).
  reflexivity.
Defined.

(** ** Bytes held *)

Lemma holds_init (len : Z) (mem : list byte) :
  0 < len -> holds (RingStream len mem) 0.
Proof.
  intros H. unfold holds. simpl. repeat split; try lia; congruence.
Qed.

Ltac case_leb :=
  repeat match goal with
  | |- context [?a <=? ?b] => destruct (Z.leb_spec a b)
  | H : context [?a <=? ?b] |- _ => destruct (Z.leb_spec a b)
  | |- context [?a =? ?b] => destruct (Z.eqb_spec a b)
  | H : context [?a =? ?b] |- _ => destruct (Z.eqb_spec a b)
  end.

Ltac solve_holds :=
  unfold holds; cbn [_len _buffer _pos_write _pos_read _overflow];
  split; [lia|split; [lia|split; intros Hx; try discriminate Hx;
                                try (split; [lia|]); case_leb; lia]].

Lemma holds_range (s : t) (h : Z) : holds s h -> 0 <= h <= _len s - 1.
Proof.
  intros (Hr & Hw & Hf & Ht).
  destruct (_overflow s); [destruct Ht; lia|].
  specialize (Hf eq_refl). case_leb; lia.
Qed.

Lemma holds_write (s : t) (b : byte) (h : Z) :
  holds s h -> holds (snd (write s b)) (h + fst (write s b)).
Proof.
  intros Hs. pose proof (holds_range s h Hs) as Hh.
  destruct Hs as (Hr & Hw & Hf & Ht).
  unfold write. destruct (_overflow s) eqn:Eo.
  { cbn [fst snd]. rewrite Z.add_0_r. unfold holds. rewrite Eo. auto. }
  specialize (Hf eq_refl). clear Ht. rewrite !Z.geb_leb.
  destruct (Z.leb_spec (_len s) (_pos_write s + 1));
    match goal with |- context [?a =? _pos_read s] =>
      destruct (Z.eqb_spec a (_pos_read s))
    end; cbn [fst snd]; rewrite ?Eo; solve_holds.
Qed.

Lemma holds_read (s : t) (h : Z) :
  holds s h ->
  holds (snd (read s)) (h + delta Read (fst (read s))).
Proof.
  intros Hs. pose proof (holds_range s h Hs) as Hh.
  destruct Hs as (Hr & Hw & Hf & Ht).
  unfold read. destruct (Z.eqb_spec (_pos_read s) (_pos_write s)) as [Ee|Ee].
  { cbn [fst snd delta]. rewrite Z.add_0_r. unfold holds. auto. }
  assert (Eo : _overflow s = false).
  { destruct (_overflow s); [destruct Ht; congruence|reflexivity]. }
  specialize (Hf Eo). clear Ht. cbn [fst snd delta].
  pose proof (byte_to_int_range (at_index (_buffer s) (_pos_read s))) as Hb.
  destruct (Z.eqb_spec (byte_to_int (at_index (_buffer s) (_pos_read s))) (-1));
    [lia|].
  rewrite !Z.geb_leb.
  destruct (Z.leb_spec (_len s) (_pos_read s + 1)); solve_holds.
Qed.

Lemma len_call (c : call) (s : t) : _len (snd (do_call s c)) = _len s.
Proof.
  destruct c as [b|]; simpl.
  - unfold write. destruct (_overflow s); [reflexivity|].
    now destruct (_ =? _pos_read s).
  - unfold read. now destruct (_pos_read s =? _pos_write s).
Qed.

Lemma holds_call (c : call) (s : t) (h : Z) :
  holds s h ->
  holds (snd (do_call s c)) (h + delta c (fst (do_call s c))).
Proof.
  destruct c as [b|]; [apply holds_write|apply holds_read].
Qed.

Lemma held_bounded (cs : list call) : forall (s : t) (h : Z),
  holds s h -> 0 <= h + held cs s <= _len s - 1.
Proof.
  induction cs as [|c cs IH]; intros s h Hs.
  - simpl. pose proof (holds_range s h Hs). lia.
  - simpl. pose proof (holds_call c s h Hs) as H1.
    pose proof (len_call c s) as Hl.
    destruct (do_call s c) as [r s1]. simpl in H1, Hl.
    specialize (IH s1 _ H1). lia.
Qed.

(** ** Filling an empty stream *)

Lemma write_all_cons (b : byte) (bs : list byte) (s : t) :
  write_all (b :: bs) s =
  (fst (write s b) :: fst (write_all bs (snd (write s b))),
   snd (write_all bs (snd (write s b)))).
Proof.
  unfold write_all. simpl. destruct (write s b) as [r s1]. simpl.
  now destruct (run (map Write bs) s1).
Qed.

Lemma write_all_overflowed (bs : list byte) (s : t) :
  _overflow s = true -> write_all bs s = (replicate (length bs) 0, s).
Proof.
  intros Ho. induction bs as [|b bs IH]; [reflexivity|].
  rewrite write_all_cons, (write_overflowed s b Ho). simpl.
  now rewrite IH.
Qed.

(** Writes without reads: the stream accepts bytes until the write cursor
    is one step behind the read cursor at 0. *)
Lemma write_all_no_reads (bs : list byte) : forall s : t,
  _overflow s = false ->
  _pos_read s = 0 ->
  0 <= _pos_write s < _len s ->
  let k := Z.to_nat (_len s - 1 - _pos_write s) in
  fst (write_all bs s) =
    replicate (Nat.min (length bs) k) 1 ++ replicate (length bs - k) 0 /\
  _overflow (snd (write_all bs s)) =
    (_len s - _pos_write s <=? Z.of_nat (length bs)).
Proof.
  induction bs as [|b bs IH]; intros s Ho Hr Hw k.
  - simpl. split; [reflexivity|]. rewrite Ho. symmetry. apply Z.leb_gt. lia.
  - rewrite write_all_cons. cbn [fst snd].
    destruct (Z.eq_dec (_pos_write s + 1) (_len s)) as [Hfull|Hroom].
    + (* the cursor wraps onto the read cursor *)
      assert (Hw' : write s b =
        (0, {| _len := _len s;
               _buffer := store_index (_buffer s) (_pos_write s) b;
               _pos_write := 0; _pos_read := _pos_read s;
               _overflow := true |})).
      { unfold write. rewrite Ho.
        replace (_pos_write s + 1 >=? _len s) with true
          by (symmetry; apply Z.geb_le; lia).
        rewrite Hr. reflexivity. }
      rewrite Hw'. cbn [fst snd].
      rewrite write_all_overflowed by reflexivity. cbn [fst snd _overflow].
      replace k with 0%nat by (subst k; lia).
      rewrite Nat.min_0_r. simpl. split; [reflexivity|].
      symmetry. apply Z.leb_le. lia.
    + assert (Hw' : write s b =
        (1, {| _len := _len s;
               _buffer := store_index (_buffer s) (_pos_write s) b;
               _pos_write := _pos_write s + 1; _pos_read := _pos_read s;
               _overflow := false |})).
      { unfold write. rewrite Ho.
        replace (_pos_write s + 1 >=? _len s) with false
          by (symmetry; rewrite Z.geb_leb; apply Z.leb_gt; lia).
        replace (_pos_write s + 1 =? _pos_read s) with false
          by (symmetry; apply Z.eqb_neq; lia).
        reflexivity. }
      rewrite Hw'. cbn [fst snd].
      match goal with |- context [write_all bs ?s1] =>
        destruct (IH s1) as [IHr IHo]; [reflexivity|exact Hr|simpl; lia|]
      end.
      cbn [_len _pos_write] in IHr, IHo. rewrite IHr, IHo. clear IHr IHo.
      destruct k as [|k'] eqn:Ek; [subst k; lia|].
      replace (Z.to_nat (_len s - 1 - (_pos_write s + 1))) with k' by lia.
      split; [reflexivity|].
      cbn [length]. apply eq_true_iff_eq. rewrite !Z.leb_le. lia.
Qed.

(** C6.  On a fresh stream of capacity [C >= 2], written to without
    reading: the first [C - 1] writes return 1, every later one returns 0,
    the overflow flag is set from the [C]-th write on, and no more than
    [C - 1] writes are accepted.  Whatever writes and reads follow the
    construction, the bytes accepted and not yet read number at most
    [C - 1]. *)
Theorem fresh_stream_accepts_capacity_minus_one (C : Z) (mem : list byte)
    (bs : list byte) :
  2 <= C ->
  let n := length bs in
  let r := write_all bs (RingStream C mem) in
  fst r = replicate (Nat.min n (Z.to_nat (C - 1))) 1 ++
          replicate (n - Z.to_nat (C - 1)) 0 /\
  _overflow (snd r) = (C <=? Z.of_nat n) /\
  Z.of_nat (length (filter (fun x => x = 1) (fst r))) <= C - 1 /\
  forall cs, 0 <= held cs (RingStream C mem) <= C - 1.
Proof.
  intros HC n r.
  assert (Hheld : forall cs, 0 <= held cs (RingStream C mem) <= C - 1).
  { intros cs.
    pose proof (held_bounded cs (RingStream C mem) 0
                  (holds_init C mem ltac:(lia))) as H.
    simpl in H. lia. }
  destruct (write_all_no_reads bs (RingStream C mem)) as [Hr Ho];
    [reflexivity|reflexivity|simpl; lia|].
  cbn [_len _pos_write RingStream] in Hr, Ho.
  rewrite Z.sub_0_r in Hr, Ho.
  split; [exact Hr|]. split; [exact Ho|]. split; [|exact Hheld].
  subst r. rewrite Hr, filter_app, length_app.
  assert (H0 : forall m, filter (fun x : Z => x = 1) (replicate m 0) = []).
  { intros m. induction m as [|m IHm]; [reflexivity|].
    simpl. rewrite filter_cons_False by discriminate. exact IHm. }
  rewrite H0. simpl.
  match goal with |- context [length (filter ?P ?l)] =>
    pose proof (length_filter P l) as Hf end.
  rewrite length_replicate in Hf. lia.
Qed.

Lemma fresh_stream_accepts_capacity_minus_one_witness :
  2 <= 3 /\
  fst (write_all ["a"; "b"; "c"; "d"]%byte (RingStream 3 [x00; x00; x00])) =
    [1; 1; 0; 0] /\
  _overflow
    (snd (write_all ["a"; "b"; "c"; "d"]%byte (RingStream 3 [x00; x00; x00])))
  = true /\
  Z.of_nat (length (filter (fun x => x = 1)
     (fst (write_all ["a"; "b"; "c"; "d"]%byte
             (RingStream 3 [x00; x00; x00]))))) <= 3 - 1 /\
  forall cs, 0 <= held cs (RingStream 3 [x00; x00; x00]) <= 3 - 1.
Proof.
  split; [lia|].
  apply (fresh_stream_accepts_capacity_minus_one 3 [x00; x00; x00]
           ["a"; "b"; "c"; "d"]%byte).
  lia.
Defined.

(** ** Well-formed streams *)

Lemma well_formed_init (len : Z) (mem : list byte) :
  0 < len -> length mem = Z.to_nat len ->
  well_formed (RingStream len mem).
Proof.
  intros Hl Hm. unfold well_formed, RingStream, store_index.
  cbn [_len _buffer _pos_read _pos_write]. rewrite length_insert.
  repeat split; try assumption; lia.
Qed.

Lemma well_formed_call (c : call) (s : t) :
  well_formed s -> well_formed (snd (do_call s c)).
Proof.
  intros (Hl & Hb & Hr & Hw). destruct c as [b|]; simpl.
  - unfold write.
    destruct (_overflow s); [exact (conj Hl (conj Hb (conj Hr Hw)))|].
    rewrite Z.geb_leb.
    destruct (Z.leb_spec (_len s) (_pos_write s + 1));
      match goal with |- context [?a =? _pos_read s] =>
        destruct (a =? _pos_read s) end;
      unfold well_formed, store_index;
      cbn [snd _len _buffer _pos_read _pos_write]; rewrite length_insert;
      repeat split; try assumption; lia.
  - unfold read. destruct (_pos_read s =? _pos_write s);
      [exact (conj Hl (conj Hb (conj Hr Hw)))|].
    rewrite Z.geb_leb.
    destruct (Z.leb_spec (_len s) (_pos_read s + 1));
      unfold well_formed; cbn [snd _len _buffer _pos_read _pos_write];
      repeat split; try assumption; lia.
Qed.

(** Every stream reached from the constructor is well-formed. *)
Lemma well_formed_run (cs : list call) : forall s : t,
  well_formed s -> well_formed (snd (run cs s)).
Proof.
  induction cs as [|c cs IH]; intros s Hs; [exact Hs|].
  simpl. pose proof (well_formed_call c s Hs) as H1.
  destruct (do_call s c) as [r s1]. simpl in H1.
  specialize (IH s1 H1). now destruct (run cs s1).
Qed.

(** ** The scan of [count] *)

Section Count.

Context (s : t).

(** The cursor after [peek++; if (peek >= _len) peek = 0]. *)
Lemma next_peek (p : Z) :
  0 <= p < _len s ->
  (if p + 1 >=? _len s then 0 else p + 1) = (p + 1) mod _len s.
Proof.
  intros Hp. rewrite Z.geb_leb.
  destruct (Z.leb_spec (_len s) (p + 1)).
  - replace (p + 1) with (_len s) by lia. symmetry. apply Z_mod_same_full.
  - symmetry. apply Z.mod_small. lia.
Qed.

Lemma count_loop_finds (k : nat) : forall p c : Z,
  0 <= p < _len s ->
  nonzero (at_index (_buffer s) ((p + Z.of_nat k) mod _len s)) = false ->
  exists n : Z,
    0 <= n <= Z.of_nat k /\
    nonzero (at_index (_buffer s) ((p + n) mod _len s)) = false /\
    (forall j, 0 <= j < n ->
       nonzero (at_index (_buffer s) ((p + j) mod _len s)) = true) /\
    forall fuel, (Z.to_nat n < fuel)%nat ->
      count_loop fuel s p c = Some (c + n).
Proof.
  induction k as [|k IH]; intros p c Hp Hz.
  - exists 0. split; [lia|]. split; [exact Hz|]. split; [lia|].
    rewrite Z.add_0_r, Z.mod_small in Hz by lia.
    intros [|fuel] Hf; [lia|]. simpl. now rewrite Hz, Z.add_0_r.
  - destruct (nonzero (at_index (_buffer s) p)) eqn:Ep.
    + set (p' := (p + 1) mod _len s).
      assert (Hp' : 0 <= p' < _len s) by (apply Z.mod_pos_bound; lia).
      assert (Hshift : forall j, (p' + j) mod _len s = (p + (j + 1)) mod _len s).
      { intros j. unfold p'. rewrite Zplus_mod_idemp_l. f_equal. lia. }
      destruct (IH p' (c + 1) Hp') as (n & Hn & Hzero & Hbefore & Hrun).
      { rewrite Hshift.
        replace (p + (Z.of_nat k + 1)) with (p + Z.of_nat (S k)) by lia.
        exact Hz. }
      exists (n + 1). split; [lia|]. split; [now rewrite <- Hshift|]. split.
      * intros j Hj. destruct (Z.eq_dec j 0) as [->|Hj0].
        { now rewrite Z.add_0_r, Z.mod_small by lia. }
        replace j with ((j - 1) + 1) by lia. rewrite <- Hshift.
        apply Hbefore. lia.
      * intros [|fuel] Hf; [lia|]. simpl. rewrite Ep, next_peek by exact Hp.
        fold p'. rewrite Hrun by lia. f_equal. lia.
    + exists 0. split; [lia|]. rewrite Z.add_0_r, Z.mod_small by lia.
      split; [exact Ep|]. split; [lia|].
      intros [|fuel] Hf; [lia|]. simpl. now rewrite Ep, Z.add_0_r.
Qed.

(** Without a zero byte in the storage the loop never leaves. *)
Lemma count_loop_diverges (fuel : nat) : forall p c : Z,
  0 < _len s ->
  (forall i, 0 <= i < _len s -> nonzero (at_index (_buffer s) i) = true) ->
  0 <= p < _len s ->
  count_loop fuel s p c = None.
Proof.
  induction fuel as [|fuel IH]; intros p c Hl Hall Hp; [reflexivity|].
  simpl. rewrite (Hall p Hp), next_peek by exact Hp.
  apply IH; [exact Hl|exact Hall|]. apply Z.mod_pos_bound. lia.
Qed.

(** The write cursor plays no part in the scan. *)
Lemma count_loop_ignores_pos_write (w : Z) (fuel : nat) : forall p c : Z,
  count_loop fuel (with_pos_write w s) p c = count_loop fuel s p c.
Proof.
  induction fuel as [|fuel IH]; intros p c; [reflexivity|].
  simpl. now rewrite IH.
Qed.

End Count.

(** C2, as the code has it.  In a well-formed stream with a zero byte
    somewhere in its storage, [count] returns: its result [n] is the
    number of bytes from the read cursor, wrapping at the end of the
    storage, up to the first zero byte.  The write cursor does not stop
    the scan: the result is the same wherever the write cursor is. *)
Theorem count_scans_to_first_zero (s : t) (z : Z) :
  well_formed s ->
  0 <= z < _len s ->
  at_index (_buffer s) z = x00 ->
  exists n : Z,
    0 <= n < _len s /\
    at_index (_buffer s) ((_pos_read s + n) mod _len s) = x00 /\
    (forall j, 0 <= j < n ->
       at_index (_buffer s) ((_pos_read s + j) mod _len s) <> x00) /\
    (forall fuel, (Z.to_nat n < fuel)%nat -> count fuel s = Some n) /\
    (forall fuel w, (Z.to_nat n < fuel)%nat ->
       count fuel (with_pos_write w s) = Some n).
Proof.
  intros (Hl & _ & Hr & _) Hz Hzero.
  assert (Hnz : forall b, nonzero b = false <-> b = x00).
  { intros b. unfold nonzero. rewrite negb_false_iff, N.eqb_eq. split.
    - intros H. apply (f_equal Byte.of_N) in H.
      rewrite Byte.of_to_N in H. simpl in H. congruence.
    - now intros ->. }
  set (k := (z - _pos_read s) mod _len s).
  assert (Hk : 0 <= k < _len s) by (apply Z.mod_pos_bound; lia).
  destruct (count_loop_finds s (Z.to_nat k) (_pos_read s) 0 Hr)
    as (n & Hn & Hzn & Hbefore & Hrun).
  { rewrite Z2Nat.id by lia. unfold k. rewrite Zplus_mod_idemp_r.
    replace (_pos_read s + (z - _pos_read s)) with z by lia.
    rewrite Z.mod_small by lia. now apply Hnz. }
  exists n. split; [lia|]. split; [now apply Hnz|]. split; [|split].
  - intros j Hj Hx. apply Hnz in Hx. rewrite Hbefore in Hx by exact Hj.
    discriminate.
  - intros fuel Hf. unfold count. now rewrite Hrun.
  - intros fuel w Hf. unfold count.
    rewrite count_loop_ignores_pos_write. cbn [with_pos_write _pos_read].
    now rewrite Hrun.
Qed.

Lemma count_scans_to_first_zero_witness :
  well_formed Examples.stream4 /\
  exists n : Z,
    0 <= n < 4 /\
    at_index (_buffer Examples.stream4) ((3 + n) mod 4) = x00 /\
    (forall j, 0 <= j < n ->
       at_index (_buffer Examples.stream4) ((3 + j) mod 4) <> x00) /\
    (forall fuel, (Z.to_nat n < fuel)%nat ->
       count fuel Examples.stream4 = Some n) /\
    (forall fuel w, (Z.to_nat n < fuel)%nat ->
       count fuel (with_pos_write w Examples.stream4) = Some n).
Proof.
  assert (Hwf : well_formed Examples.stream4)
    by (unfold well_formed; vm_compute; repeat split; congruence).
  split; [exact Hwf|].
  apply (count_scans_to_first_zero Examples.stream4 2 Hwf);
    [vm_compute; split; congruence|reflexivity].
Defined.

(** C2, as the claim has it, fails twice.  On [stream4] the read cursor is
    at 3 and the write cursor at 0: the scan the claim describes stops
    after one byte, [count] runs on past the write cursor and returns 3.
    On [stream2], whose two bytes are both non-zero, [count] does not
    return. *)
Lemma count_runs_past_write_cursor :
  (count 4 Examples.stream4 = Some 3 /\ count_spec Examples.stream4 = 1) /\
  (well_formed Examples.stream2 /\
   forall fuel, count fuel Examples.stream2 = None).
Proof.
  split; [split; reflexivity|]. split.
  - unfold well_formed. vm_compute. repeat split; congruence.
  - intros fuel. unfold count. apply count_loop_diverges.
    + reflexivity.
    + intros i Hi. change (_len Examples.stream2) with 2 in Hi.
      assert (Hi' : i = 0 \/ i = 1) by lia.
      destruct Hi' as [-> | ->]; reflexivity.
    + vm_compute. split; congruence.
Qed.

End RingStreamFacts.

(* ===================================================================== *)
(** * Properties of Display: the row buffer *)
(* ===================================================================== *)

Module RowBufferFacts.

Import Display.

Lemma nonzero_false (b : byte) : nonzero b = false <-> b = x00.
Proof.
  unfold nonzero. rewrite negb_false_iff, N.eqb_eq. split.
  - intros H. apply (f_equal Byte.of_N) in H.
    rewrite Byte.of_to_N in H. simpl in H. congruence.
  - now intros ->.
Qed.

Lemma config_ok_cfg_row : config_ok Examples.cfg_row.
Proof. unfold config_ok. simpl. lia. Qed.

Lemma config_ok_cfg_page : config_ok Examples.cfg_page.
Proof. unfold config_ok. simpl. lia. Qed.

Section Rows.

Context (cfg : config).

Lemma in_rowBuffer_true (row col : Z) :
  0 <= row < MAX_CHARACTER_ROWS cfg ->
  0 <= col <= MAX_CHARACTER_COLS cfg ->
  in_rowBuffer cfg row col = true.
Proof.
  intros Hr Hc. unfold in_rowBuffer.
  repeat (apply andb_true_intro; split);
    first [apply Z.leb_le | apply Z.ltb_lt]; lia.
Qed.

Lemma rowBuffer_store_inside (row col : Z) (v : byte) (d : t) :
  0 <= row < MAX_CHARACTER_ROWS cfg ->
  0 <= col <= MAX_CHARACTER_COLS cfg ->
  rowBuffer_store cfg row col v d =
  Done (set_rowBuffer (cell_store (rowBuffer d) row col v) d).
Proof.
  intros Hr Hc. unfold rowBuffer_store. now rewrite in_rowBuffer_true.
Qed.

(** ** Stores into a row *)

Lemma cell_store_row (rows : list (list byte)) (row col : Z) (v : byte) :
  (Z.to_nat row < length rows)%nat ->
  cell_store rows row col v !!! Z.to_nat row =
  store_index (rows !!! Z.to_nat row) col v.
Proof. intros H. unfold cell_store. now apply list_lookup_total_insert_eq. Qed.

Lemma cell_store_length (rows : list (list byte)) (row col : Z) (v : byte) :
  length (cell_store rows row col v) = length rows.
Proof. unfold cell_store. apply length_insert. Qed.

Lemma cell_store_rows_length (n : nat) (rows : list (list byte))
    (row col : Z) (v : byte) :
  Forall (fun r : list byte => length r = n) rows ->
  Forall (fun r : list byte => length r = n) (cell_store rows row col v).
Proof.
  intros H. unfold cell_store.
  destruct (decide (Z.to_nat row < length rows)%nat) as [Hlt|Hge].
  - apply Forall_insert; [exact H|].
    unfold store_index. rewrite length_insert.
    rewrite Forall_lookup in H. apply (H (Z.to_nat row)).
    now apply list_lookup_lookup_total_lt.
  - rewrite list_insert_ge by lia. exact H.
Qed.

Lemma shape_set_rowBuffer (d : t) (row col : Z) (v : byte) :
  shape cfg d ->
  shape cfg (set_rowBuffer (cell_store (rowBuffer d) row col v) d).
Proof.
  intros (Hl & Hr & Hb). unfold shape. cbn [rowBuffer buffer set_rowBuffer].
  rewrite cell_store_length. split; [exact Hl|]. split; [|exact Hb].
  now apply cell_store_rows_length.
Qed.

(** Writing [b] at [c] and a zero at [c + 1] extends the text by [b]. *)
Lemma take_store_two (row : list byte) (c : nat) (b : byte) :
  (S c < length row)%nat ->
  take (S (S c)) (<[S c := x00]> (<[c := b]> row)) = take c row ++ [b; x00].
Proof.
  intros Hc.
  rewrite (take_S_r _ (S c) x00)
    by (apply list_lookup_insert_eq; rewrite length_insert; lia).
  rewrite take_insert_ge by lia.
  rewrite (take_S_r _ c b) by (apply list_lookup_insert_eq; lia).
  rewrite take_insert_ge by lia.
  now rewrite <- app_assoc.
Qed.

(** ** [_write] inside the bounds *)

Lemma write_in_bounds (b : byte) (d : t) :
  config_ok cfg ->
  shape cfg d ->
  0 <= hotRow d < MAX_CHARACTER_ROWS cfg ->
  0 <= hotCol d < MAX_CHARACTER_COLS cfg ->
  exists d',
    _write cfg b d = Done (1, d') /\
    shape cfg d' /\
    hotRow d' = hotRow d /\
    hotCol d' = hotCol d + 1 /\
    rowBuffer d' !!! Z.to_nat (hotRow d) =
      <[S (Z.to_nat (hotCol d)) := x00]>
        (<[Z.to_nat (hotCol d) := b]> (rowBuffer d !!! Z.to_nat (hotRow d))).
Proof.
  intros (HR & HC & _ & _) Hs Hr Hc.
  assert (Hlen : (Z.to_nat (hotRow d) < length (rowBuffer d))%nat)
    by (destruct Hs as (Hl & _); lia).
  unfold _write.
  replace (hotRow d >=? MAX_CHARACTER_ROWS cfg) with false
    by (symmetry; rewrite Z.geb_leb; apply Z.leb_gt; lia).
  replace (hotCol d >=? MAX_CHARACTER_COLS cfg) with false
    by (symmetry; rewrite Z.geb_leb; apply Z.leb_gt; lia).
  cbn [orb]. rewrite rowBuffer_store_inside by lia.
  cbn [mbind outcome_bind hotRow hotCol rowBuffer set_rowBuffer set_hotCol].
  unfold wrap8. rewrite Z.mod_small by lia.
  rewrite rowBuffer_store_inside
    by (cbn [hotRow hotCol set_rowBuffer set_hotCol]; lia).
  cbn [mbind outcome_bind hotRow hotCol rowBuffer set_rowBuffer set_hotCol].
  eexists. split; [reflexivity|].
  split; [|split; [reflexivity|split; [reflexivity|]]].
  - apply (shape_set_rowBuffer
             (set_hotCol (hotCol d + 1)
                (set_rowBuffer
                   (cell_store (rowBuffer d) (hotRow d) (hotCol d) b) d))).
    apply (shape_set_rowBuffer (set_hotCol (hotCol d + 1) d)). exact Hs.
  - cbn [rowBuffer set_rowBuffer].
    rewrite cell_store_row by (rewrite cell_store_length; exact Hlen).
    rewrite cell_store_row by exact Hlen.
    unfold store_index. f_equal. lia.
Qed.

Lemma write_all_in_bounds (bs : list byte) : forall (d : t) (pre : list byte),
  config_ok cfg ->
  shape cfg d ->
  0 <= hotRow d < MAX_CHARACTER_ROWS cfg ->
  hotCol d = Z.of_nat (length pre) ->
  Z.of_nat (length pre + length bs) <= MAX_CHARACTER_COLS cfg ->
  take (S (length pre)) (rowBuffer d !!! Z.to_nat (hotRow d)) = pre ++ [x00] ->
  exists d',
    write_all cfg bs d = Done (replicate (length bs) 1, d') /\
    shape cfg d' /\
    hotRow d' = hotRow d /\
    hotCol d' = Z.of_nat (length pre + length bs) /\
    take (S (length pre + length bs)) (rowBuffer d' !!! Z.to_nat (hotRow d))
      = pre ++ bs ++ [x00].
Proof.
  induction bs as [|b bs IH]; intros d pre Hcfg Hs Hr Hc Hn Ht.
  - exists d. cbn [write_all length replicate]. rewrite Nat.add_0_r.
    repeat split; try assumption; apply Hs.
  - cbn [length] in Hn.
    destruct (write_in_bounds b d Hcfg Hs Hr) as (d1 & Hw & Hs1 & Hr1 & Hc1 & Hrow);
      [lia|].
    assert (Hrowlen : length (rowBuffer d !!! Z.to_nat (hotRow d)) =
                      Z.to_nat (MAX_CHARACTER_COLS cfg + 1)).
    { destruct Hs as (Hl & Hf & _). rewrite Forall_lookup in Hf.
      apply (Hf (Z.to_nat (hotRow d))).
      apply list_lookup_lookup_total_lt. lia. }
    destruct (IH d1 (pre ++ [b]) Hcfg Hs1) as (d2 & Hw2 & Hs2 & Hr2 & Hc2 & Ht2).
    + lia.
    + rewrite Hc1, Hc, length_app. cbn [length]. lia.
    + rewrite length_app. cbn [length]. lia.
    + rewrite Hr1, Hrow, Hc, Nat2Z.id, length_app. cbn [length].
      replace (length pre + 1)%nat with (S (length pre)) by lia.
      rewrite take_store_two by lia.
      assert (Hpre : take (length pre) (rowBuffer d !!! Z.to_nat (hotRow d)) = pre).
      { apply (f_equal (take (length pre))) in Ht.
        rewrite take_take, Nat.min_l in Ht by lia.
        now rewrite take_app_length in Ht. }
      rewrite Hpre, <- app_assoc. reflexivity.
    + exists d2. cbn [write_all]. rewrite Hw. cbn [mbind outcome_bind snd fst].
      rewrite Hw2. cbn [mbind outcome_bind snd fst length replicate].
      rewrite length_app in Hc2, Ht2. cbn [length] in Hc2, Ht2.
      rewrite Hr1 in Hr2, Ht2.
      split; [reflexivity|]. split; [exact Hs2|]. split; [exact Hr2|].
      split; [rewrite Hc2; f_equal; lia|].
      replace (S (length pre + S (length bs)))
        with (S (length pre + 1 + length bs)) by lia.
      rewrite Ht2, <- app_assoc. reflexivity.
Qed.

End Rows.

(** C3.  [_setRow] has no bounds check: for a row index at or beyond
    [MAX_CHARACTER_ROWS] it is no no-op but stores its zero at
    [rowBuffer[line][0]], outside the array. *)
Theorem setRow_out_of_range_stores_outside (cfg : config) (line : Z) (d : t) :
  MAX_CHARACTER_ROWS cfg <= line ->
  _setRow cfg line d = StoreOutsideRowBuffer line 0.
Proof.
  intros Hl. unfold _setRow, rowBuffer_store, in_rowBuffer.
  cbn [hotRow set_hotCol set_hotRow].
  replace (line <? MAX_CHARACTER_ROWS cfg) with false
    by (symmetry; apply Z.ltb_ge; lia).
  now rewrite andb_false_r.
Qed.

Lemma setRow_out_of_range_stores_outside_witness :
  MAX_CHARACTER_ROWS Examples.cfg_row <= 8 /\
  _setRow Examples.cfg_row 8 Examples.blank16x2 = StoreOutsideRowBuffer 8 0.
Proof.
  split; [simpl; lia|].
  apply (setRow_out_of_range_stores_outside Examples.cfg_row 8
           Examples.blank16x2).
  simpl. lia.
Defined.

(** C7.  After [_setRow(r)] for a valid row [r], [_write] of the bytes
    [bs], no more of them than [MAX_CHARACTER_COLS], returns 1 each time
    and leaves row [r] holding [bs] and then a zero.  Every [_write] that
    returns 1 has stored its byte at the old column and a zero right
    after it. *)
Theorem row_holds_written_text (cfg : config) (d : t) (r : Z)
    (bs : list byte) :
  config_ok cfg ->
  shape cfg d ->
  0 <= r < MAX_CHARACTER_ROWS cfg ->
  Z.of_nat (length bs) <= MAX_CHARACTER_COLS cfg ->
  (exists d1 d2,
     _setRow cfg r d = Done d1 /\
     write_all cfg bs d1 = Done (replicate (length bs) 1, d2) /\
     take (S (length bs)) (rowBuffer d2 !!! Z.to_nat r) = bs ++ [x00] /\
     hotRow d2 = r /\
     hotCol d2 = Z.of_nat (length bs)) /\
  (forall (b : byte) (d0 d0' : t),
     shape cfg d0 ->
     0 <= hotRow d0 ->
     0 <= hotCol d0 ->
     _write cfg b d0 = Done (1, d0') ->
     hotRow d0' = hotRow d0 /\
     hotCol d0' = hotCol d0 + 1 /\
     cell (rowBuffer d0') (hotRow d0') (hotCol d0) = b /\
     cell (rowBuffer d0') (hotRow d0') (hotCol d0') = x00).
Proof.
  intros Hcfg Hs Hr Hn. split.
  - pose (d1 := set_rowBuffer (cell_store (rowBuffer d) r 0 x00)
                  (set_hotCol 0 (set_hotRow r d))).
    assert (H1 : _setRow cfg r d = Done d1).
    { unfold _setRow. cbn [hotRow set_hotCol set_hotRow].
      destruct Hcfg as (? & ? & _).
      now rewrite rowBuffer_store_inside by lia. }
    assert (Hs1 : shape cfg d1).
    { apply (shape_set_rowBuffer cfg (set_hotCol 0 (set_hotRow r d))).
      exact Hs. }
    destruct (write_all_in_bounds cfg bs d1 [] Hcfg Hs1)
      as (d2 & Hw & _ & Hr2 & Hc2 & Ht); try (simpl; lia); try reflexivity.
    + cbn [d1 hotRow set_rowBuffer set_hotCol set_hotRow rowBuffer length].
      destruct Hs as (Hl & Hf & _). destruct Hcfg as (? & ? & _).
      rewrite cell_store_row by lia. unfold store_index.
      assert (Hrow : length (rowBuffer d !!! Z.to_nat r) =
                     Z.to_nat (MAX_CHARACTER_COLS cfg + 1)).
      { rewrite Forall_lookup in Hf. apply (Hf (Z.to_nat r)).
        apply list_lookup_lookup_total_lt. lia. }
      destruct (rowBuffer d !!! Z.to_nat r) as [|c row];
        [simpl in Hrow; lia|reflexivity].
    + exists d1, d2. split; [exact H1|]. split; [exact Hw|].
      cbn [length Nat.add app] in Ht, Hc2. auto.
  - clear d r bs Hs Hr Hn. intros b d Hd' Hs Hr Hc Hw.
    destruct Hcfg as (HR & HC & HI & HS).
    assert (Hguard : hotRow d < MAX_CHARACTER_ROWS cfg /\
                     hotCol d < MAX_CHARACTER_COLS cfg).
    { assert (Hmod : (-1) mod 2 ^ size_t_bits cfg <> 1).
      { assert (Hpow : 2 ^ 8 <= 2 ^ size_t_bits cfg)
          by (apply Z.pow_le_mono_r; lia).
        change (2 ^ 8) with 256 in Hpow.
        rewrite <- (Z.mod_unique (-1) (2 ^ size_t_bits cfg) (-1)
                      (2 ^ size_t_bits cfg - 1)); lia. }
      unfold _write in Hw. rewrite !Z.geb_leb in Hw.
      destruct (Z.leb_spec (MAX_CHARACTER_ROWS cfg) (hotRow d));
        destruct (Z.leb_spec (MAX_CHARACTER_COLS cfg) (hotCol d));
        cbn [orb] in Hw; try (split; lia);
        exfalso; inversion Hw; congruence. }
    destruct (write_in_bounds cfg b d (conj HR (conj HC (conj HI HS))) Hs)
      as (d1 & Hw1 & Hs1 & Hr1 & Hc1 & Hrow); [lia|lia|].
    rewrite Hw1 in Hw. inversion Hw; subst d1. clear Hw.
    split; [exact Hr1|]. split; [exact Hc1|].
    assert (Hrowlen : length (rowBuffer d !!! Z.to_nat (hotRow d)) =
                      Z.to_nat (MAX_CHARACTER_COLS cfg + 1)).
    { destruct Hs as (Hl & Hf & _). rewrite Forall_lookup in Hf.
      apply (Hf (Z.to_nat (hotRow d))).
      apply list_lookup_lookup_total_lt. lia. }
    unfold cell, at_index. rewrite Hr1, Hrow, Hc1. split.
    + rewrite list_lookup_total_insert_ne by lia.
      apply list_lookup_total_insert_eq. lia.
    + replace (Z.to_nat (hotCol d + 1)) with (S (Z.to_nat (hotCol d))) by lia.
      apply list_lookup_total_insert_eq. rewrite length_insert. lia.
Qed.

Lemma row_holds_written_text_witness :
  config_ok Examples.cfg_row /\
  shape Examples.cfg_row Examples.blank16x2 /\
  (exists d1 d2,
     _setRow Examples.cfg_row 3 Examples.blank16x2 = Done d1 /\
     write_all Examples.cfg_row ["H"; "i"]%byte d1 = Done ([1; 1], d2) /\
     take 3 (rowBuffer d2 !!! 3%nat) = ["H"; "i"; x00]%byte /\
     hotRow d2 = 3 /\
     hotCol d2 = 2).
Proof.
  assert (Hs : shape Examples.cfg_row Examples.blank16x2).
  { unfold shape. split; [reflexivity|]. split; [|reflexivity].
    vm_compute. repeat constructor. }
  split; [exact config_ok_cfg_row|]. split; [exact Hs|].
  apply (proj1 (row_holds_written_text Examples.cfg_row Examples.blank16x2 3
                  ["H"; "i"]%byte config_ok_cfg_row Hs
                  ltac:(simpl; lia) ltac:(simpl; lia))).
Defined.

End RowBufferFacts.

(* ===================================================================== *)
(** * Properties of Display: the row search *)
(* ===================================================================== *)

Module SearchFacts.

Import Display.

Section Search.

Context (cfg : config) (Hcfg : config_ok cfg).

(** One iteration of the loop, with the assignments to [rowNext] merged. *)
Lemma find_unfold (fuel : nat) (d : t) :
  findNextNonBlankRow cfg (S fuel) d =
  if noMoreRowsToDisplay d then Some (false, d)
  else if SCROLLMODE cfg =? 1 then
    let v := step_row cfg (rowNext d) in
    if v >=? MAX_CHARACTER_ROWS cfg then
      Some (false, set_noMoreRowsToDisplay true
                     (set_rowNext (ROW_INITIAL cfg) d))
    else if nonzero (cell (rowBuffer d) v 0) then Some (true, set_rowNext v d)
    else findNextNonBlankRow cfg fuel (set_rowNext v d)
  else
    let v := wrap_row cfg (rowNext d) in
    if v =? rowFirst d then
      Some (false, set_noMoreRowsToDisplay true (set_rowNext v d))
    else if nonzero (cell (rowBuffer d) v 0) then Some (true, set_rowNext v d)
    else findNextNonBlankRow cfg fuel (set_rowNext v d).
Proof.
  cbn [findNextNonBlankRow]. unfold wrap_row, step_row, row_nonblank.
  destruct (noMoreRowsToDisplay d); [reflexivity|].
  destruct (SCROLLMODE cfg =? 1);
    destruct (rowNext d =? ROW_INITIAL cfg); cbn [rowNext set_rowNext];
    match goal with |- context [?v >=? MAX_CHARACTER_ROWS cfg] =>
      destruct (v >=? MAX_CHARACTER_ROWS cfg) end;
    cbn [rowNext set_rowNext rowFirst rowBuffer]; reflexivity.
Qed.

(** The search changes [rowNext] and [noMoreRowsToDisplay] only. *)
Lemma find_frame (fuel : nat) : forall (d d1 : t) (found : bool),
  findNextNonBlankRow cfg fuel d = Some (found, d1) ->
  exists rn nm, d1 = set_noMoreRowsToDisplay nm (set_rowNext rn d).
Proof.
  induction fuel as [|fuel IH]; intros d d1 found H; [discriminate|].
  rewrite find_unfold in H.
  destruct (noMoreRowsToDisplay d) eqn:Enm.
  { inversion H; subst. exists (rowNext d1), true.
    destruct d1. simpl in Enm. now subst. }
  assert (Hid : forall v, set_rowNext v d =
                          set_noMoreRowsToDisplay false (set_rowNext v d)).
  { intros v. destruct d. simpl in Enm. now subst. }
  destruct (SCROLLMODE cfg =? 1); cbv zeta in H;
    repeat match type of H with
    | (if ?c then _ else _) = _ => destruct c
    end;
    try (inversion H; subst; eauto; fail);
    try (apply IH in H; destruct H as (rn & nm & ->); exists rn, nm;
         reflexivity).
Qed.

Lemma step_row_range (row : Z) : 0 <= step_row cfg row < 256.
Proof.
  unfold step_row, wrap8. destruct (row =? ROW_INITIAL cfg); [lia|].
  apply Z.mod_pos_bound. lia.
Qed.

Lemma wrap_row_range (row : Z) :
  0 <= wrap_row cfg row < MAX_CHARACTER_ROWS cfg.
Proof.
  destruct Hcfg as (HR & _). pose proof (step_row_range row) as Hs.
  unfold wrap_row. rewrite Z.geb_leb.
  destruct (Z.leb_spec (MAX_CHARACTER_ROWS cfg) (step_row cfg row)); lia.
Qed.

Lemma step_row_valid (row : Z) :
  0 <= row < MAX_CHARACTER_ROWS cfg -> step_row cfg row = row + 1.
Proof.
  destruct Hcfg as (HR & _ & HI & _). intros Hr. unfold step_row, wrap8.
  destruct (Z.eqb_spec row (ROW_INITIAL cfg)); [lia|].
  apply Z.mod_small. lia.
Qed.

Lemma wrap_row_valid (row : Z) :
  0 <= row < MAX_CHARACTER_ROWS cfg ->
  wrap_row cfg row = (row + 1) mod MAX_CHARACTER_ROWS cfg.
Proof.
  intros Hr. unfold wrap_row. rewrite step_row_valid by exact Hr.
  rewrite Z.geb_leb.
  destruct (Z.leb_spec (MAX_CHARACTER_ROWS cfg) (row + 1)).
  - replace (row + 1) with (MAX_CHARACTER_ROWS cfg) by lia.
    symmetry. apply Z_mod_same_full.
  - symmetry. apply Z.mod_small. lia.
Qed.

(** ** The search that does not end *)

Lemma find_diverges (fuel : nat) : forall d : t,
  SCROLLMODE cfg <> 1 ->
  (forall row, 0 <= row < MAX_CHARACTER_ROWS cfg ->
     nonzero (cell (rowBuffer d) row 0) = false) ->
  noMoreRowsToDisplay d = false ->
  ~ 0 <= rowFirst d < MAX_CHARACTER_ROWS cfg ->
  findNextNonBlankRow cfg fuel d = None.
Proof.
  induction fuel as [|fuel IH]; intros d Hmode Hblank Hnm Hfirst;
    [reflexivity|].
  rewrite find_unfold, Hnm.
  destruct (Z.eqb_spec (SCROLLMODE cfg) 1); [contradiction|]. cbv zeta.
  pose proof (wrap_row_range (rowNext d)) as Hv.
  destruct (Z.eqb_spec (wrap_row cfg (rowNext d)) (rowFirst d)); [lia|].
  rewrite (Hblank _ Hv).
  apply IH; assumption.
Qed.

(** ** The search that ends *)

Lemma find_total_page (k : nat) : forall (fuel : nat) (d : t),
  SCROLLMODE cfg = 1 ->
  noMoreRowsToDisplay d = false ->
  0 <= rowNext d < MAX_CHARACTER_ROWS cfg ->
  (Z.to_nat (MAX_CHARACTER_ROWS cfg - rowNext d) <= k)%nat ->
  (k <= fuel)%nat ->
  is_Some (findNextNonBlankRow cfg fuel d).
Proof.
  induction k as [|k IH]; intros fuel d Hmode Hnm Hr Hk Hf; [lia|].
  destruct fuel as [|fuel]; [lia|].
  rewrite find_unfold, Hnm, Hmode. cbn [Z.eqb Pos.eqb]. cbv zeta.
  rewrite step_row_valid by exact Hr. rewrite Z.geb_leb.
  destruct (Z.leb_spec (MAX_CHARACTER_ROWS cfg) (rowNext d + 1)); [eauto|].
  destruct (nonzero _); [eauto|].
  apply IH; cbn [noMoreRowsToDisplay rowNext set_rowNext]; try assumption; lia.
Qed.

Lemma find_total_wrap (k : nat) : forall (fuel : nat) (d : t),
  SCROLLMODE cfg <> 1 ->
  noMoreRowsToDisplay d = false ->
  0 <= rowNext d < MAX_CHARACTER_ROWS cfg ->
  nonzero (cell (rowBuffer d)
             ((rowNext d + 1 + Z.of_nat k) mod MAX_CHARACTER_ROWS cfg) 0)
    = true ->
  (k < fuel)%nat ->
  is_Some (findNextNonBlankRow cfg fuel d).
Proof.
  induction k as [|k IH]; intros fuel d Hmode Hnm Hr Hk Hf;
    (destruct fuel as [|fuel]; [lia|]);
    rewrite find_unfold, Hnm;
    (destruct (Z.eqb_spec (SCROLLMODE cfg) 1); [contradiction|]); cbv zeta;
    rewrite wrap_row_valid by exact Hr;
    (destruct (_ =? rowFirst d); [eauto|]).
  - rewrite Z.add_0_r in Hk. rewrite Hk. eauto.
  - match goal with |- context [if nonzero ?c then _ else _] =>
      destruct (nonzero c) end; [eauto|].
    apply IH; cbn [noMoreRowsToDisplay rowNext set_rowNext rowBuffer];
      try assumption; try lia.
    + apply Z.mod_pos_bound. lia.
    + rewrite <- Hk. f_equal. f_equal.
      rewrite <- Z.add_assoc, Zplus_mod_idemp_l. f_equal. lia.
Qed.

Lemma some_row_nonblank_true (d : t) :
  some_row_nonblank cfg d = true ->
  exists row, 0 <= row < MAX_CHARACTER_ROWS cfg /\
              nonzero (cell (rowBuffer d) row 0) = true.
Proof.
  unfold some_row_nonblank. rewrite existsb_exists.
  intros (row & Hin & Hnb). exists row. split; [|exact Hnb].
  apply list_elem_of_In, elem_of_seqZ in Hin. lia.
Qed.

Lemma all_rows_blank_true (d : t) :
  all_rows_blank cfg d = true ->
  forall row, 0 <= row < MAX_CHARACTER_ROWS cfg ->
    nonzero (cell (rowBuffer d) row 0) = false.
Proof.
  unfold all_rows_blank. rewrite forallb_forall. intros H row Hr.
  apply negb_true_iff, H, list_elem_of_In, elem_of_seqZ. lia.
Qed.

(** With the budget of one more than the number of rows, the search of a
    searchable display returns. *)
Lemma find_total (fuel : nat) (d : t) :
  searchable cfg d = true ->
  (Z.to_nat (MAX_CHARACTER_ROWS cfg) < fuel)%nat ->
  exists found rn nm,
    findNextNonBlankRow cfg fuel d =
    Some (found, set_noMoreRowsToDisplay nm (set_rowNext rn d)).
Proof.
  intros Hs Hf.
  assert (H : is_Some (findNextNonBlankRow cfg fuel d)).
  { destruct fuel as [|fuel]; [lia|].
    destruct (noMoreRowsToDisplay d) eqn:Hnm.
    { rewrite find_unfold, Hnm. eauto. }
    destruct Hcfg as (HR & _).
    destruct (Z.eqb_spec (SCROLLMODE cfg) 1) as [Hmode|Hmode].
    - rewrite find_unfold, Hnm, Hmode. cbn [Z.eqb Pos.eqb]. cbv zeta.
      pose proof (step_row_range (rowNext d)) as Hv. rewrite Z.geb_leb.
      destruct (Z.leb_spec (MAX_CHARACTER_ROWS cfg) (step_row cfg (rowNext d)));
        [eauto|].
      match goal with |- context [if nonzero ?c then _ else _] =>
        destruct (nonzero c) end; [eauto|].
      apply (find_total_page (Z.to_nat (MAX_CHARACTER_ROWS cfg)));
        cbn [noMoreRowsToDisplay rowNext set_rowNext]; try assumption; lia.
    - unfold searchable in Hs.
      destruct (Z.eqb_spec (SCROLLMODE cfg) 1); [contradiction|].
      cbn [orb] in Hs.
      destruct (some_row_nonblank_true d Hs) as (r0 & Hr0 & Hnb).
      rewrite find_unfold, Hnm.
      destruct (Z.eqb_spec (SCROLLMODE cfg) 1); [contradiction|]. cbv zeta.
      pose proof (wrap_row_range (rowNext d)) as Hv.
      destruct (_ =? rowFirst d); [eauto|].
      match goal with |- context [if nonzero ?c then _ else _] =>
        destruct (nonzero c) end; [eauto|].
      set (v := wrap_row cfg (rowNext d)) in *.
      apply (find_total_wrap
               (Z.to_nat ((r0 - v - 1) mod MAX_CHARACTER_ROWS cfg)));
        cbn [noMoreRowsToDisplay rowNext set_rowNext rowBuffer];
        try assumption.
      + rewrite Z2Nat.id by (apply Z.mod_pos_bound; lia).
        rewrite Zplus_mod_idemp_r.
        replace (v + 1 + (r0 - v - 1)) with r0 by lia.
        now rewrite Z.mod_small by lia.
      + pose proof (Z.mod_pos_bound (r0 - v - 1) (MAX_CHARACTER_ROWS cfg)).
        lia. }
  destruct H as [[found d1] H].
  destruct (find_frame fuel d d1 found H) as (rn & nm & ->). eauto.
Qed.

(** ** A larger budget changes no result *)

Lemma find_mono (fuel : nat) : forall (d : t) (fuel' : nat) (r : bool * t),
  findNextNonBlankRow cfg fuel d = Some r ->
  (fuel <= fuel')%nat ->
  findNextNonBlankRow cfg fuel' d = Some r.
Proof.
  induction fuel as [|fuel IH]; intros d fuel' r H Hle; [discriminate|].
  destruct fuel' as [|fuel']; [lia|].
  rewrite find_unfold in *.
  destruct (noMoreRowsToDisplay d); [exact H|].
  destruct (SCROLLMODE cfg =? 1); cbv zeta in *;
    repeat match goal with
    | |- (if ?c then _ else _) = _ => destruct c
    end; try exact H; (apply IH; [exact H|lia]).
Qed.

(** ** The time of the last pass plays no part in the search *)

Lemma find_time (t0 : Z) (fuel : nat) : forall d : t,
  findNextNonBlankRow cfg fuel (set_lastScrollTime t0 d) =
  match findNextNonBlankRow cfg fuel d with
  | Some (found, d1) => Some (found, set_lastScrollTime t0 d1)
  | None => None
  end.
Proof.
  induction fuel as [|fuel IH]; intros d; [reflexivity|].
  rewrite !find_unfold.
  cbn [noMoreRowsToDisplay rowNext rowFirst rowBuffer set_lastScrollTime].
  destruct (noMoreRowsToDisplay d); [reflexivity|].
  destruct (SCROLLMODE cfg =? 1); cbv zeta;
    repeat match goal with
    | |- (if ?c then _ else _) = _ => destruct c
    end; try reflexivity;
    match goal with
    | |- findNextNonBlankRow cfg fuel (set_rowNext ?v _) = _ =>
        exact (IH (set_rowNext v d))
    end.
Qed.

End Search.

End SearchFacts.

(* ===================================================================== *)
(** * Properties of Display: rendering *)
(* ===================================================================== *)

Module RenderFacts.

Import Display SearchFacts.

Section Body.

Context (cfg : config).

(** The body when no line is staged. *)
Lemma body_stage (fuel : nat) (now : Z) (d : t) :
  bufferPointer d = None ->
  loop2_body cfg fuel now d =
  match findNextNonBlankRow cfg fuel (anchored cfg d) with
  | None => None
  | Some (found, d1) =>
      Some (staged cfg found d1, [setRowNative (slot d1)], false)
  end.
Proof.
  intros H. unfold loop2_body, anchored, staged. rewrite H.
  destruct (findNextNonBlankRow cfg fuel _) as [[[|] d1]|]; reflexivity.
Qed.

(** The body when a line is staged. *)
Lemma body_char (fuel : nat) (now : Z) (d : t) (p : Z) :
  bufferPointer d = Some p ->
  loop2_body cfg fuel now d =
  let out := [writeNative (shown (at_index (buffer d) p))] in
  if wrap8 (charIndex d + 1) >=? MAX_CHARACTER_COLS cfg then
    if wrap8 (slot d + 1) >=? numCharacterRows d then
      match
        (if (SCROLLMODE cfg =? 2) && negb (noMoreRowsToDisplay d)
         then
           match findNextNonBlankRow cfg fuel
                   (set_rowNext (rowFirst d) (slot_done p d)) with
           | None => None
           | Some (_, d2) => Some d2
           end
         else Some (slot_done p d))
      with
      | None => None
      | Some d2 => Some (pass_done cfg now d2, out, true)
      end
    else Some (slot_done p d, out, false)
  else Some (after_char p d, out, false).
Proof.
  intros H. unfold loop2_body, slot_done, after_char, pass_done, shown.
  rewrite H.
  destruct (nonzero (at_index (buffer d) p));
    cbn [charIndex set_charIndex set_bufferPointer slot set_slot
         numCharacterRows noMoreRowsToDisplay rowFirst];
    reflexivity.
Qed.

(** ** What the steps leave alone *)

Lemma searchable_rows (d1 d2 : t) :
  rowBuffer d1 = rowBuffer d2 -> searchable cfg d1 = searchable cfg d2.
Proof.
  intros H. unfold searchable, some_row_nonblank, row_nonblank. now rewrite H.
Qed.

Lemma anchored_frame (d : t) :
  exists rf, anchored cfg d = set_rowFirst rf d.
Proof.
  unfold anchored. destruct (rowFirst d =? ROW_INITIAL cfg); [eauto|].
  exists (rowFirst d). now destruct d.
Qed.

Lemma after_char_frame (p : Z) (d : t) :
  bufferPointer d = Some p ->
  after_char p d =
  set_charIndex (wrap8 (charIndex d + 1))
    (set_bufferPointer (Some (next_pointer (buffer d) p)) d).
Proof.
  intros H. unfold after_char, next_pointer.
  destruct (nonzero (at_index (buffer d) p)); [reflexivity|].
  destruct d. simpl in H. now subst.
Qed.

(** ** Calls that are not forced *)

Lemma unforced_returns (fuel : nat) (now : Z) (d : t) :
  config_ok cfg ->
  searchable cfg d = true ->
  (Z.to_nat (MAX_CHARACTER_ROWS cfg) < fuel)%nat ->
  is_Some (loop2 cfg fuel false now d).
Proof.
  intros Hcfg Hs Hf. unfold loop2.
  destruct (throttled cfg now d); [eauto|].
  destruct (bufferPointer d) as [p|] eqn:Hp.
  - rewrite (body_char fuel now d p Hp). cbv zeta.
    destruct (_ >=? MAX_CHARACTER_COLS cfg); [|eauto].
    destruct (_ >=? numCharacterRows d); [|eauto].
    destruct ((SCROLLMODE cfg =? 2) && negb (noMoreRowsToDisplay d)); [|eauto].
    destruct (find_total cfg Hcfg fuel
                (set_rowNext (rowFirst d) (slot_done p d)))
      as (found & rn & nm & ->); [|exact Hf|eauto].
    rewrite <- Hs. apply searchable_rows.
    unfold slot_done. rewrite (after_char_frame p d Hp). reflexivity.
  - rewrite (body_stage fuel now d Hp).
    destruct (find_total cfg Hcfg fuel (anchored cfg d))
      as (found & rn & nm & ->); [|exact Hf|eauto].
    rewrite <- Hs. apply searchable_rows.
    destruct (anchored_frame d) as (rf & ->). reflexivity.
Qed.

Lemma unforced_requests (fuel : nat) (now : Z) (d d' : t) (out : list op) :
  loop2 cfg fuel false now d = Some (d', out) ->
  (throttled cfg now d = true /\ out = [] /\ d' = d) \/
  (throttled cfg now d = false /\ bufferPointer d = None /\
   out = [setRowNative (slot d)]) \/
  (throttled cfg now d = false /\
   exists p, bufferPointer d = Some p /\
             out = [writeNative (shown (at_index (buffer d) p))]).
Proof.
  unfold loop2. destruct (throttled cfg now d).
  { intros H. inversion H. auto. }
  destruct (bufferPointer d) as [p|] eqn:Hp.
  - rewrite (body_char fuel now d p Hp). cbv zeta. intros H.
    right. right. split; [reflexivity|]. exists p. split; [reflexivity|].
    repeat match type of H with
    | match (if ?c then _ else _) with _ => _ end = _ => destruct c
    | match (match ?c with _ => _ end) with _ => _ end = _ => destruct c
    | match (let (_, _) := ?c in _) with _ => _ end = _ => destruct c
    end; inversion H; reflexivity.
  - rewrite (body_stage fuel now d Hp).
    destruct (findNextNonBlankRow cfg fuel (anchored cfg d))
      as [[found d1]|] eqn:Hfind; [|discriminate].
    intros H. inversion H; subst. right. left.
    split; [reflexivity|]. split; [reflexivity|].
    apply find_frame in Hfind. destruct Hfind as (rn & nm & ->).
    destruct (anchored_frame d) as (rf & ->). reflexivity.
Qed.

(** ** A larger budget changes no result *)

Lemma body_mono (fuel fuel' : nat) (now : Z) (d : t)
    (r : t * list op * bool) :
  loop2_body cfg fuel now d = Some r ->
  (fuel <= fuel')%nat ->
  loop2_body cfg fuel' now d = Some r.
Proof.
  intros H Hle. destruct (bufferPointer d) as [p|] eqn:Hp.
  - rewrite (body_char fuel now d p Hp) in H.
    rewrite (body_char fuel' now d p Hp). cbv zeta in *.
    destruct (_ >=? MAX_CHARACTER_COLS cfg); [|exact H].
    destruct (_ >=? numCharacterRows d); [|exact H].
    destruct ((SCROLLMODE cfg =? 2) && negb (noMoreRowsToDisplay d));
      [|exact H].
    destruct (findNextNonBlankRow cfg fuel _) as [r1|] eqn:Hfind;
      [|discriminate].
    now rewrite (find_mono cfg fuel _ fuel' r1 Hfind Hle).
  - rewrite (body_stage fuel now d Hp) in H.
    rewrite (body_stage fuel' now d Hp).
    destruct (findNextNonBlankRow cfg fuel _) as [r1|] eqn:Hfind;
      [|discriminate].
    now rewrite (find_mono cfg fuel _ fuel' r1 Hfind Hle).
Qed.

Lemma loop2_do_mono (fuel fuel' : nat) (now : Z) (n : nat) :
  forall (n' : nat) (d : t) (r : t * list op),
  loop2_do cfg fuel n now d = Some r ->
  (fuel <= fuel')%nat ->
  (n <= n')%nat ->
  loop2_do cfg fuel' n' now d = Some r.
Proof.
  induction n as [|n IH]; intros n' d r H Hle Hn; [discriminate|].
  destruct n' as [|n']; [lia|]. cbn [loop2_do] in *.
  destruct (loop2_body cfg fuel now d) as [r1|] eqn:Hbody; [|discriminate].
  rewrite (body_mono fuel fuel' now d r1 Hbody Hle).
  destruct r1 as [[d1 o1] [|]]; [exact H|].
  destruct (loop2_do cfg fuel n now d1) as [r2|] eqn:Hrest; [|discriminate].
  now rewrite (IH n' d1 r2 Hrest Hle ltac:(lia)).
Qed.

(** With a larger budget [loop2] returns what it returned. *)
Lemma loop2_mono (fuel fuel' : nat) (force : bool) (now : Z) (d : t)
    (r : t * list op) :
  loop2 cfg fuel force now d = Some r ->
  (fuel <= fuel')%nat ->
  loop2 cfg fuel' force now d = Some r.
Proof.
  unfold loop2. intros H Hle. destruct force.
  - now apply (loop2_do_mono fuel fuel' now fuel).
  - destruct (throttled cfg now d); [exact H|].
    destruct (loop2_body cfg fuel now d) as [r1|] eqn:Hbody; [|discriminate].
    now rewrite (body_mono fuel fuel' now d r1 Hbody Hle).
Qed.

(** ** The clock plays no part in a forced call *)

Lemma body_time (fuel : nat) (now now' t0 : Z) (d : t) :
  loop2_body cfg fuel now' (set_lastScrollTime t0 d) =
  match loop2_body cfg fuel now d with
  | Some (d1, out, fin) =>
      Some (set_lastScrollTime (if fin then now' else t0) d1, out, fin)
  | None => None
  end.
Proof.
  destruct (bufferPointer d) as [p|] eqn:Hp.
  - rewrite (body_char fuel now d p Hp).
    rewrite (body_char fuel now' (set_lastScrollTime t0 d) p Hp).
    cbv zeta.
    cbn [charIndex slot numCharacterRows buffer noMoreRowsToDisplay rowFirst
         set_lastScrollTime].
    destruct (_ >=? MAX_CHARACTER_COLS cfg);
      [|unfold after_char; cbn [charIndex buffer set_lastScrollTime];
        now destruct (nonzero _)].
    assert (Hdone : slot_done p (set_lastScrollTime t0 d) =
                    set_lastScrollTime t0 (slot_done p d)).
    { unfold slot_done, after_char.
      cbn [charIndex buffer slot set_lastScrollTime].
      now destruct (nonzero _). }
    rewrite Hdone.
    destruct (_ >=? numCharacterRows d); [|reflexivity].
    destruct ((SCROLLMODE cfg =? 2) && negb (noMoreRowsToDisplay d));
      [|reflexivity].
    change (set_rowNext (rowFirst d) (set_lastScrollTime t0 (slot_done p d)))
      with (set_lastScrollTime t0 (set_rowNext (rowFirst d) (slot_done p d))).
    rewrite find_time.
    now destruct (findNextNonBlankRow cfg fuel _) as [[found d1]|].
  - rewrite (body_stage fuel now d Hp).
    rewrite (body_stage fuel now' (set_lastScrollTime t0 d) Hp).
    assert (Ha : anchored cfg (set_lastScrollTime t0 d) =
                 set_lastScrollTime t0 (anchored cfg d)).
    { unfold anchored. cbn [rowFirst rowNext set_lastScrollTime].
      now destruct (rowFirst d =? ROW_INITIAL cfg). }
    rewrite Ha, find_time.
    destruct (findNextNonBlankRow cfg fuel _) as [[found d1]|]; [|reflexivity].
    unfold staged. cbn [slot rowBuffer rowNext buffer set_lastScrollTime].
    now destruct found.
Qed.

Lemma loop2_do_time (fuel : nat) (now now' : Z) (n : nat) :
  forall (t0 : Z) (d : t),
  loop2_do cfg fuel n now' (set_lastScrollTime t0 d) =
  match loop2_do cfg fuel n now d with
  | Some (d1, out) => Some (set_lastScrollTime now' d1, out)
  | None => None
  end.
Proof.
  induction n as [|n IH]; intros t0 d; [reflexivity|].
  cbn [loop2_do]. rewrite (body_time fuel now now' t0 d).
  destruct (loop2_body cfg fuel now d) as [[[d1 o1] [|]]|]; try reflexivity.
  rewrite IH. now destruct (loop2_do cfg fuel n now d1) as [[d2 o2]|].
Qed.

(** A forced call sends the same requests whatever the clock shows, and
    whatever the time of the last pass was. *)
Lemma forced_call_time (fuel : nat) (now now' t0 : Z) (d : t) :
  loop2 cfg fuel true now' (set_lastScrollTime t0 d) =
  match loop2 cfg fuel true now d with
  | Some (d1, out) => Some (set_lastScrollTime now' d1, out)
  | None => None
  end.
Proof.
  unfold loop2. apply (loop2_do_time fuel now now' fuel t0 (force_reset cfg d)).
Qed.

(** ** The characters of a slot *)

Lemma throttled_time (now : Z) (d1 d2 : t) :
  lastScrollTime d1 = lastScrollTime d2 ->
  throttled cfg now d1 = throttled cfg now d2.
Proof. intros H. unfold throttled. now rewrite H. Qed.

Lemma staged_frame (found : bool) (d : t) :
  exists buf,
    staged cfg found d =
    set_bufferPointer (Some 0) (set_charIndex 0 (set_buffer buf d)).
Proof. unfold staged. destruct found; eauto. Qed.

(** An iteration that does not leave through [return] keeps the time of
    the last pass. *)
Lemma body_keeps_time (fuel : nat) (now : Z) (d d1 : t) (out : list op) :
  loop2_body cfg fuel now d = Some (d1, out, false) ->
  lastScrollTime d1 = lastScrollTime d.
Proof.
  destruct (bufferPointer d) as [p|] eqn:Hp.
  - rewrite (body_char fuel now d p Hp). cbv zeta.
    destruct (_ >=? MAX_CHARACTER_COLS cfg).
    + destruct (_ >=? numCharacterRows d).
      * destruct (if _ : bool then _ else _); discriminate.
      * intros H. inversion H. unfold slot_done.
        now rewrite (after_char_frame p d Hp).
    + intros H. inversion H. now rewrite (after_char_frame p d Hp).
  - rewrite (body_stage fuel now d Hp).
    destruct (findNextNonBlankRow cfg fuel (anchored cfg d))
      as [[found dx]|] eqn:Hfind; [|discriminate].
    intros H. inversion H.
    apply find_frame in Hfind. destruct Hfind as (rn & nm & ->).
    destruct (anchored_frame d) as (rf & ->).
    destruct (staged_frame found
                (set_noMoreRowsToDisplay nm (set_rowNext rn (set_rowFirst rf d))))
      as (buf & ->).
    reflexivity.
Qed.

(** Unthrottled calls [loop2(false)] are the iterations of the body. *)
Lemma calls_of_steps (fuel : nat) (nows : list Z) :
  forall (d d' : t) (out : list op),
  steps cfg fuel nows d = Some (d', out) ->
  Forall (fun now => throttled cfg now d = false) nows ->
  loop2_calls cfg fuel nows d = Some (d', out) /\
  lastScrollTime d' = lastScrollTime d.
Proof.
  induction nows as [|now nows IH]; intros d d' out Hsteps Hth.
  - inversion Hsteps. auto.
  - cbn [steps] in Hsteps.
    destruct (loop2_body cfg fuel now d) as [[[d1 o1] [|]]|] eqn:Hbody;
      try discriminate.
    destruct (steps cfg fuel nows d1) as [[d2 o2]|] eqn:Hrest;
      [|discriminate].
    inversion Hsteps; subst. clear Hsteps.
    pose proof (body_keeps_time fuel now d d1 o1 Hbody) as Htime.
    apply Forall_cons in Hth. destruct Hth as [Hnow Hth].
    destruct (IH d1 d' o2 Hrest) as [Hcalls Ht2].
    { eapply Forall_impl; [exact Hth|]. intros x Hx. simpl in Hx.
      now rewrite (throttled_time x d1 d Htime). }
    split; [|congruence].
    cbn [loop2_calls]. unfold loop2. rewrite Hnow, Hbody, Hcalls. reflexivity.
Qed.

Lemma after_chars_frame (n : nat) : forall (p : Z) (d : t),
  bufferPointer d = Some p ->
  0 <= charIndex d ->
  charIndex d + Z.of_nat n <= 255 ->
  after_chars n p d =
  set_charIndex (charIndex d + Z.of_nat n)
    (set_bufferPointer (Some (pointer_after n (buffer d) p)) d).
Proof.
  induction n as [|n IH]; intros p d Hp H0 Hn.
  - cbn [after_chars pointer_after Z.of_nat]. rewrite Z.add_0_r.
    destruct d. simpl in Hp. now subst.
  - cbn [after_chars pointer_after].
    rewrite (after_char_frame p d Hp). unfold wrap8.
    rewrite Z.mod_small by lia.
    rewrite IH; cbn [bufferPointer charIndex buffer set_charIndex
                     set_bufferPointer]; try reflexivity; try lia.
    replace (charIndex d + Z.of_nat (S n)) with (charIndex d + 1 + Z.of_nat n)
      by lia.
    reflexivity.
Qed.

(** Characters short of the end of the slot. *)
Lemma steps_chars (fuel : nat) (nows : list Z) : forall (p : Z) (d : t),
  MAX_CHARACTER_COLS cfg <= 255 ->
  bufferPointer d = Some p ->
  0 <= charIndex d ->
  charIndex d + Z.of_nat (length nows) < MAX_CHARACTER_COLS cfg ->
  steps cfg fuel nows d =
  Some (after_chars (length nows) p d,
        map writeNative (line_image (length nows) (buffer d) p)).
Proof.
  induction nows as [|now nows IH]; intros p d HC Hp H0 Hn; [reflexivity|].
  cbn [length] in Hn. cbn [steps length after_chars line_image map].
  rewrite (body_char fuel now d p Hp). cbv zeta.
  unfold wrap8. rewrite Z.mod_small by lia.
  replace (charIndex d + 1 >=? MAX_CHARACTER_COLS cfg) with false
    by (symmetry; rewrite Z.geb_leb; apply Z.leb_gt; lia).
  rewrite (IH (next_pointer (buffer d) p) (after_char p d));
    rewrite ?(after_char_frame p d Hp);
    cbn [bufferPointer charIndex buffer set_charIndex set_bufferPointer];
    try reflexivity; try assumption; unfold wrap8;
    rewrite ?Z.mod_small by lia; lia.
Qed.

Lemma line_image_snoc (n : nat) : forall (buf : list byte) (p : Z),
  line_image (S n) buf p =
  line_image n buf p ++ [shown (at_index buf (pointer_after n buf p))].
Proof.
  induction n as [|n IH]; intros buf p; [reflexivity|].
  cbn [line_image pointer_after app] in *. now rewrite <- IH.
Qed.

Lemma at_index_drop (buf : list byte) (p : nat) :
  at_index buf (Z.of_nat p) =
  match drop p buf with
  | [] => x00
  | b :: _ => b
  end.
Proof.
  unfold at_index. rewrite Nat2Z.id, list_lookup_total_alt.
  rewrite <- (Nat.add_0_r p) at 1. rewrite <- lookup_drop.
  now destruct (drop p buf).
Qed.

Lemma pad_nil (n : nat) : pad n [] = replicate n " "%byte.
Proof. unfold pad. rewrite take_nil. cbn [length app]. f_equal. lia. Qed.

Lemma pad_cons (n : nat) (b : byte) (text : list byte) :
  pad (S n) (b :: text) = b :: pad n text.
Proof. reflexivity. Qed.

Lemma length_pad (n : nat) (text : list byte) : length (pad n text) = n.
Proof.
  unfold pad. rewrite length_app, length_take, length_replicate. lia.
Qed.

(** The characters sent are the text of the buffer, then spaces. *)
Lemma line_image_pad (n : nat) : forall (buf : list byte) (p : nat),
  line_image n buf (Z.of_nat p) = pad n (text_of (drop p buf)).
Proof.
  induction n as [|n IH]; intros buf p; [reflexivity|].
  cbn [line_image]. unfold next_pointer, shown.
  rewrite at_index_drop.
  destruct (drop p buf) as [|b rest] eqn:Hd.
  - cbn [nonzero Byte.to_N N.eqb negb text_of].
    rewrite IH, Hd. cbn [text_of]. now rewrite !pad_nil.
  - cbn [text_of]. destruct (nonzero b) eqn:Eb.
    + replace (Z.of_nat p + 1) with (Z.of_nat (S p)) by lia.
      rewrite IH, pad_cons. do 3 f_equal.
      replace (S p) with (p + 1)%nat by lia.
      now rewrite <- drop_drop, Hd.
    + rewrite IH, Hd. cbn [text_of]. rewrite Eb. now rewrite !pad_nil.
Qed.

Lemma line_image_text (n : nat) (buf : list byte) :
  line_image n buf 0 = pad n (text_of buf).
Proof. apply (line_image_pad n buf 0). Qed.

(** ** A whole slot *)

Lemma loop2_calls_app (fuel : nat) (l1 l2 : list Z) : forall d : t,
  loop2_calls cfg fuel (l1 ++ l2) d =
  match loop2_calls cfg fuel l1 d with
  | None => None
  | Some (d1, o1) =>
      match loop2_calls cfg fuel l2 d1 with
      | None => None
      | Some (d2, o2) => Some (d2, o1 ++ o2)
      end
  end.
Proof.
  induction l1 as [|now l1 IH]; intros d.
  - cbn [app loop2_calls]. now destruct (loop2_calls cfg fuel l2 d) as [[? ?]|].
  - cbn [app loop2_calls].
    destruct (loop2 cfg fuel false now d) as [[d1 o1]|]; [|reflexivity].
    rewrite IH.
    destruct (loop2_calls cfg fuel l1 d1) as [[d2 o2]|]; [|reflexivity].
    destruct (loop2_calls cfg fuel l2 d2) as [[d3 o3]|]; [|reflexivity].
    now rewrite app_assoc.
Qed.

(** The position request and the characters short of the last one. *)
Lemma slot_front (fuel : nat) (now0 : Z) (nows : list Z) (d : t) :
  config_ok cfg ->
  searchable cfg d = true ->
  (Z.to_nat (MAX_CHARACTER_ROWS cfg) < fuel)%nat ->
  bufferPointer d = None ->
  Z.of_nat (length nows) < MAX_CHARACTER_COLS cfg ->
  exists d1 buf,
    d1 = set_bufferPointer (Some 0) (set_charIndex 0 (set_buffer buf d1)) /\
    rowBuffer d1 = rowBuffer d /\
    numCharacterRows d1 = numCharacterRows d /\
    slot d1 = slot d /\
    lastScrollTime d1 = lastScrollTime d /\
    loop2_body cfg fuel now0 d = Some (d1, [setRowNative (slot d)], false) /\
    steps cfg fuel nows d1 =
      Some (after_chars (length nows) 0 d1,
            map writeNative (line_image (length nows) buf 0)).
Proof.
  intros Hcfg Hs Hf Hp Hn.
  destruct (anchored_frame d) as (rf & Ha).
  destruct (find_total cfg Hcfg fuel (anchored cfg d))
    as (found & rn & nm & Hfind); [|exact Hf|].
  { rewrite <- Hs. apply searchable_rows. now rewrite Ha. }
  destruct (staged_frame found
              (set_noMoreRowsToDisplay nm (set_rowNext rn (anchored cfg d))))
    as (buf & Hst).
  exists (staged cfg found
            (set_noMoreRowsToDisplay nm (set_rowNext rn (anchored cfg d)))), buf.
  rewrite (body_stage fuel now0 d Hp), Hfind, Hst, Ha.
  cbn [slot set_noMoreRowsToDisplay set_rowNext set_rowFirst rowBuffer
       numCharacterRows lastScrollTime set_bufferPointer set_charIndex
       set_buffer].
  repeat (split; [reflexivity|]).
  rewrite (steps_chars fuel nows 0); cbn [bufferPointer charIndex buffer
    set_bufferPointer set_charIndex set_buffer]; try reflexivity; try lia.
  destruct Hcfg as (_ & ? & _). lia.
Qed.

(** The last character of a slot. *)
Lemma body_last (fuel : nat) (now : Z) (d : t) (p : Z) :
  config_ok cfg ->
  searchable cfg d = true ->
  (Z.to_nat (MAX_CHARACTER_ROWS cfg) < fuel)%nat ->
  bufferPointer d = Some p ->
  charIndex d = MAX_CHARACTER_COLS cfg - 1 ->
  exists d',
    loop2_body cfg fuel now d =
      Some (d', [writeNative (shown (at_index (buffer d) p))],
            wrap8 (slot d + 1) >=? numCharacterRows d) /\
    bufferPointer d' = None /\
    rowBuffer d' = rowBuffer d /\
    numCharacterRows d' = numCharacterRows d /\
    ((wrap8 (slot d + 1) >=? numCharacterRows d) = false ->
     slot d' = wrap8 (slot d + 1) /\
     lastScrollTime d' = lastScrollTime d).
Proof.
  intros Hcfg Hs Hf Hp Hc.
  rewrite (body_char fuel now d p Hp). cbv zeta.
  rewrite Hc. unfold wrap8 at 1.
  replace (MAX_CHARACTER_COLS cfg - 1 + 1) with (MAX_CHARACTER_COLS cfg) by lia.
  rewrite Z.mod_small by (destruct Hcfg as (_ & ? & _); lia).
  replace (MAX_CHARACTER_COLS cfg >=? MAX_CHARACTER_COLS cfg) with true
    by (symmetry; rewrite Z.geb_leb; apply Z.leb_refl).
  assert (Hdone : slot_done p d =
                  set_slot (wrap8 (slot d + 1))
                    (set_bufferPointer None
                       (set_charIndex (wrap8 (charIndex d + 1)) d))).
  { unfold slot_done. now rewrite (after_char_frame p d Hp). }
  destruct (wrap8 (slot d + 1) >=? numCharacterRows d).
  - destruct ((SCROLLMODE cfg =? 2) && negb (noMoreRowsToDisplay d)).
    + destruct (find_total cfg Hcfg fuel
                  (set_rowNext (rowFirst d) (slot_done p d)))
        as (found & rn & nm & ->); [|exact Hf|].
      { rewrite <- Hs. apply searchable_rows. now rewrite Hdone. }
      eexists. split; [reflexivity|]. rewrite Hdone.
      repeat split; discriminate.
    + eexists. split; [reflexivity|]. rewrite Hdone.
      repeat split; discriminate.
  - eexists. split; [reflexivity|]. rewrite Hdone. repeat split.
Qed.

(** The requests of a slot driven by unforced calls. *)
Lemma slot_by_calls (fuel : nat) (now0 : Z) (nows : list Z) (d : t) :
  config_ok cfg ->
  searchable cfg d = true ->
  (Z.to_nat (MAX_CHARACTER_ROWS cfg) < fuel)%nat ->
  bufferPointer d = None ->
  throttled cfg now0 d = false ->
  Forall (fun now => throttled cfg now d = false) nows ->
  Z.of_nat (length nows) = MAX_CHARACTER_COLS cfg ->
  exists d1 d2,
    loop2 cfg fuel false now0 d = Some (d1, [setRowNative (slot d)]) /\
    loop2_calls cfg fuel nows d1 =
      Some (d2, map writeNative
                  (pad (Z.to_nat (MAX_CHARACTER_COLS cfg))
                       (text_of (buffer d1)))) /\
    bufferPointer d2 = None.
Proof.
  intros Hcfg Hs Hf Hp Hth0 Hth Hlen.
  assert (HC : 1 <= MAX_CHARACTER_COLS cfg <= 254) by apply Hcfg.
  destruct nows as [|x nows'] using rev_ind; [simpl in Hlen; lia|].
  clear IHnows'. rename nows' into front, x into last.
  rewrite length_app in Hlen. cbn [length] in Hlen.
  apply Forall_app in Hth. destruct Hth as [Hfront Hlast].
  apply Forall_cons in Hlast. destruct Hlast as [Hlast _].
  destruct (slot_front fuel now0 front d Hcfg Hs Hf Hp)
    as (d1 & buf & Hd1 & Hrb & Hnr & Hsl & Hti & Hbody & Hsteps); [lia|].
  assert (Hbp1 : bufferPointer d1 = Some 0) by now rewrite Hd1.
  assert (Hci1 : charIndex d1 = 0) by now rewrite Hd1.
  assert (Hbuf1 : buffer d1 = buf) by now rewrite Hd1.
  exists d1.
  destruct (calls_of_steps fuel front d1 _ _ Hsteps) as [Hcalls Htime].
  { eapply Forall_impl; [exact Hfront|]. intros x Hx. simpl in Hx.
    now rewrite (throttled_time x d1 d Hti). }
  set (d1a := after_chars (length front) 0 d1) in *.
  assert (Hframe : d1a =
            set_charIndex (Z.of_nat (length front))
              (set_bufferPointer
                 (Some (pointer_after (length front) buf 0)) d1)).
  { unfold d1a. rewrite (after_chars_frame (length front) 0 d1 Hbp1)
      by (rewrite Hci1; lia).
    now rewrite Hci1, Hbuf1. }
  destruct (body_last fuel last d1a (pointer_after (length front) buf 0) Hcfg)
    as (d2 & Hlastbody & Hbp2 & _); try exact Hf.
  { rewrite <- Hs. apply searchable_rows. now rewrite Hframe. }
  { now rewrite Hframe. }
  { rewrite Hframe. cbn [charIndex set_charIndex]. lia. }
  exists d2. split; [|split; [|exact Hbp2]].
  - unfold loop2. now rewrite Hth0, Hbody.
  - rewrite loop2_calls_app, Hcalls. cbn [loop2_calls]. unfold loop2.
    rewrite (throttled_time last d1a d) by congruence.
    rewrite Hlast, Hlastbody.
    replace (buffer d1a) with buf by now rewrite Hframe.
    assert (Hsnoc : forall l c, map writeNative l ++ [writeNative c] =
                                map writeNative (l ++ [c]))
      by (intros l c; now rewrite map_app).
    rewrite app_nil_r, Hsnoc, <- line_image_snoc.
    replace (S (length front)) with (Z.to_nat (MAX_CHARACTER_COLS cfg)) by lia.
    rewrite (line_image_pad _ buf 0), Hbuf1. reflexivity.
Qed.

(** ** A forced pass *)

Lemma loop2_do_steps (fuel : nat) (now : Z) (k : nat) :
  forall (d d1 : t) (out : list op) (n : nat),
  steps cfg fuel (replicate k now) d = Some (d1, out) ->
  loop2_do cfg fuel (k + n) now d =
  match loop2_do cfg fuel n now d1 with
  | Some (d2, out') => Some (d2, out ++ out')
  | None => None
  end.
Proof.
  induction k as [|k IH]; intros d d1 out n H.
  - inversion H. cbn [Nat.add app].
    now destruct (loop2_do cfg fuel n now d1) as [[? ?]|].
  - cbn [replicate steps] in H. cbn [Nat.add loop2_do].
    destruct (loop2_body cfg fuel now d) as [[[dx o1] [|]]|]; try discriminate.
    destruct (steps cfg fuel (replicate k now) dx) as [[dy o2]|] eqn:Hrest;
      [|discriminate].
    inversion H; subst. rewrite (IH dx d1 o2 n Hrest).
    destruct (loop2_do cfg fuel n now d1) as [[d2 o3]|]; [|reflexivity].
    now rewrite app_assoc.
Qed.

Lemma text_of_nonzero (buf : list byte) :
  Forall (fun b => nonzero b = true) (text_of buf).
Proof.
  induction buf as [|b buf IH]; [constructor|].
  cbn [text_of]. destruct (nonzero b) eqn:E; constructor; assumption.
Qed.

(** One slot of a forced pass: its requests, and either the end of the
    pass or the next slot. *)
Lemma slot_forced (fuel : nat) (now : Z) (d : t) (n : nat) :
  config_ok cfg ->
  searchable cfg d = true ->
  (Z.to_nat (MAX_CHARACTER_ROWS cfg) < fuel)%nat ->
  bufferPointer d = None ->
  exists d2 text,
    Forall (fun b => nonzero b = true) text /\
    bufferPointer d2 = None /\
    rowBuffer d2 = rowBuffer d /\
    numCharacterRows d2 = numCharacterRows d /\
    let line := slot_requests (slot d)
                  (pad (Z.to_nat (MAX_CHARACTER_COLS cfg)) text) in
    if wrap8 (slot d + 1) >=? numCharacterRows d then
      loop2_do cfg fuel (S (Z.to_nat (MAX_CHARACTER_COLS cfg)) + n) now d =
      Some (d2, line)
    else
      slot d2 = wrap8 (slot d + 1) /\
      loop2_do cfg fuel (S (Z.to_nat (MAX_CHARACTER_COLS cfg)) + n) now d =
      match loop2_do cfg fuel n now d2 with
      | Some (d3, out) => Some (d3, line ++ out)
      | None => None
      end.
Proof.
  intros Hcfg Hs Hf Hp.
  assert (HC : 1 <= MAX_CHARACTER_COLS cfg <= 254) by apply Hcfg.
  set (k := Z.to_nat (MAX_CHARACTER_COLS cfg - 1)).
  destruct (slot_front fuel now (replicate k now) d Hcfg Hs Hf Hp)
    as (d1 & buf & Hd1 & Hrb & Hnr & Hsl & Hti & Hbody & Hsteps).
  { rewrite length_replicate. lia. }
  rewrite length_replicate in Hsteps.
  assert (Hbp1 : bufferPointer d1 = Some 0) by now rewrite Hd1.
  assert (Hci1 : charIndex d1 = 0) by now rewrite Hd1.
  assert (Hbuf1 : buffer d1 = buf) by now rewrite Hd1.
  set (d1a := after_chars k 0 d1) in *.
  assert (Hframe : d1a =
            set_charIndex (Z.of_nat k)
              (set_bufferPointer (Some (pointer_after k buf 0)) d1)).
  { unfold d1a. rewrite (after_chars_frame k 0 d1 Hbp1)
      by (rewrite Hci1; lia).
    now rewrite Hci1, Hbuf1. }
  destruct (body_last fuel now d1a (pointer_after k buf 0) Hcfg)
    as (d2 & Hlast & Hbp2 & Hrb2 & Hnr2 & Hnext); try exact Hf.
  { rewrite <- Hs. apply searchable_rows. now rewrite Hframe. }
  { now rewrite Hframe. }
  { rewrite Hframe. cbn [charIndex set_charIndex]. lia. }
  assert (Hslot1a : slot d1a = slot d) by now rewrite Hframe.
  assert (Hnr1a : numCharacterRows d1a = numCharacterRows d)
    by now rewrite Hframe.
  rewrite Hslot1a, Hnr1a in Hlast, Hnext.
  exists d2, (text_of buf).
  split; [apply text_of_nonzero|]. split; [exact Hbp2|].
  split; [rewrite Hrb2, Hframe; exact Hrb|].
  split; [rewrite Hnr2; exact Hnr1a|]. cbv zeta.
  assert (Hfront : steps cfg fuel (replicate (S k) now) d =
            Some (d1a, setRowNative (slot d) ::
                       map writeNative (line_image k buf 0))).
  { cbn [replicate steps]. now rewrite Hbody, Hsteps. }
  assert (Hline : forall c,
            (setRowNative (slot d) :: map writeNative (line_image k buf 0)) ++
            [writeNative (shown (at_index (buffer d1a)
                                   (pointer_after k buf 0)))] ++ c =
            slot_requests (slot d)
              (pad (Z.to_nat (MAX_CHARACTER_COLS cfg)) (text_of buf)) ++ c).
  { intros c. unfold slot_requests.
    replace (buffer d1a) with buf by now rewrite Hframe.
    replace (Z.to_nat (MAX_CHARACTER_COLS cfg)) with (S k) by (unfold k; lia).
    rewrite <- (line_image_text (S k) buf), line_image_snoc, map_app.
    cbn [map app]. now rewrite <- app_assoc. }
  replace (S (Z.to_nat (MAX_CHARACTER_COLS cfg)) + n)%nat
    with (S k + S n)%nat by (unfold k; lia).
  rewrite (loop2_do_steps fuel now (S k) d d1a _ (S n) Hfront).
  cbn [loop2_do]. rewrite Hlast.
  destruct (wrap8 (slot d + 1) >=? numCharacterRows d).
  - rewrite <- (app_nil_r (slot_requests _ _)), <- Hline. reflexivity.
  - split; [now apply Hnext|].
    destruct (loop2_do cfg fuel n now d2) as [[d3 o3]|]; [|reflexivity].
    now rewrite <- Hline.
Qed.

(** The slots from the current one to the last one of the device. *)
Lemma pass_forced (fuel : nat) (now : Z) (m : nat) : forall (d : t) (n : nat),
  config_ok cfg ->
  searchable cfg d = true ->
  (Z.to_nat (MAX_CHARACTER_ROWS cfg) < fuel)%nat ->
  bufferPointer d = None ->
  0 <= slot d ->
  slot d + Z.of_nat (S m) = numCharacterRows d ->
  numCharacterRows d <= 255 ->
  (S m * S (Z.to_nat (MAX_CHARACTER_COLS cfg)) <= n)%nat ->
  exists d' texts,
    loop2_do cfg fuel n now d =
      Some (d', pass_requests (Z.to_nat (MAX_CHARACTER_COLS cfg)) (slot d)
                  texts) /\
    length texts = S m /\
    Forall (Forall (fun b => nonzero b = true)) texts.
Proof.
  induction m as [|m IH]; intros d n Hcfg Hs Hf Hp H0 Hm HV Hn.
  - set (n' := (n - S (Z.to_nat (MAX_CHARACTER_COLS cfg)))%nat).
    destruct (slot_forced fuel now d n' Hcfg Hs Hf Hp)
      as (d2 & text & Htext & _ & _ & _ & Hrun).
    cbv zeta in Hrun. unfold wrap8 in Hrun.
    rewrite Z.mod_small in Hrun by lia.
    replace (slot d + 1 >=? numCharacterRows d) with true in Hrun
      by (symmetry; rewrite Z.geb_leb; apply Z.leb_le; lia).
    replace (S (Z.to_nat (MAX_CHARACTER_COLS cfg)) + n')%nat with n in Hrun
      by (unfold n'; lia).
    exists d2, [text]. cbn [pass_requests length]. rewrite app_nil_r.
    split; [exact Hrun|]. split; [reflexivity|]. now repeat constructor.
  - set (n' := (n - S (Z.to_nat (MAX_CHARACTER_COLS cfg)))%nat).
    destruct (slot_forced fuel now d n' Hcfg Hs Hf Hp)
      as (d2 & text & Htext & Hp2 & Hrb2 & Hnr2 & Hrun).
    cbv zeta in Hrun. unfold wrap8 in Hrun.
    rewrite Z.mod_small in Hrun by lia.
    replace (slot d + 1 >=? numCharacterRows d) with false in Hrun
      by (symmetry; rewrite Z.geb_leb; apply Z.leb_gt; lia).
    destruct Hrun as [Hslot Hrun].
    replace (S (Z.to_nat (MAX_CHARACTER_COLS cfg)) + n')%nat with n in Hrun
      by (unfold n'; lia).
    assert (Hn' : (S m * S (Z.to_nat (MAX_CHARACTER_COLS cfg)) <= n')%nat).
    { unfold n'. rewrite (Nat.mul_succ_l (S m)) in Hn. lia. }
    destruct (IH d2 n' Hcfg) as (d' & texts & Hrest & Hlen & Hall);
      rewrite ?Hslot, ?Hnr2; try assumption; try lia.
    { rewrite <- Hs. now apply searchable_rows. }
    exists d', (text :: texts). rewrite Hrun, Hrest, Hslot.
    cbn [pass_requests length]. split; [reflexivity|].
    split; [now rewrite Hlen|]. now constructor.
Qed.

End Body.

(** C9.  A call [loop2(false)] that returns has sent at most one request
    to the device: none when throttled, else the one [setRowNative] of the
    slot when no line is staged, else one [writeNative].  On a searchable
    display the call does return. *)
Theorem unforced_call_sends_at_most_one_request (cfg : config) (fuel : nat)
    (now : Z) (d : t) :
  (forall d' out,
     loop2 cfg fuel false now d = Some (d', out) ->
     (length out <= 1)%nat /\
     ((throttled cfg now d = true /\ out = [] /\ d' = d) \/
      (throttled cfg now d = false /\ bufferPointer d = None /\
       out = [setRowNative (slot d)]) \/
      (throttled cfg now d = false /\
       exists p, bufferPointer d = Some p /\
                 out = [writeNative (shown (at_index (buffer d) p))]))) /\
  (config_ok cfg ->
   searchable cfg d = true ->
   (Z.to_nat (MAX_CHARACTER_ROWS cfg) < fuel)%nat ->
   is_Some (loop2 cfg fuel false now d)).
Proof.
  split.
  - intros d' out H. pose proof (unforced_requests cfg fuel now d d' out H) as Hr.
    split; [|exact Hr].
    destruct Hr as [(_ & -> & _)|[(_ & _ & ->)|(_ & p & _ & ->)]]; simpl; lia.
  - apply unforced_returns.
Qed.

Lemma unforced_call_sends_at_most_one_request_witness :
  exists d' out,
    loop2 Examples.cfg_row 9 false 5000 Examples.five_rows = Some (d', out) /\
    out = [setRowNative 0] /\
    (length out <= 1)%nat.
Proof.
  destruct (proj2 (unforced_call_sends_at_most_one_request
                     Examples.cfg_row 9 5000 Examples.five_rows)
              RowBufferFacts.config_ok_cfg_row
              ltac:(vm_compute; reflexivity) ltac:(simpl; lia))
    as [[d' out] H].
  exists d', out. split; [exact H|].
  destruct (proj1 (unforced_call_sends_at_most_one_request
                     Examples.cfg_row 9 5000 Examples.five_rows) d' out H)
    as [Hlen [(Ht & _)|[(_ & _ & Ho)|(_ & p & Hp & _)]]].
  - vm_compute in Ht. discriminate Ht.
  - split; [exact Ho|exact Hlen].
  - vm_compute in Hp. discriminate Hp.
Defined.

(** C4.  Under the continuous and the row policy, a forced call on a
    display whose rows are all blank does not return: the row search of
    the first slot runs with [rowFirst] still at [ROW_INITIAL], which no
    row index ever equals, and finds no non-blank row to stop at. *)
Theorem forced_call_on_blank_rows_never_returns (cfg : config) (fuel : nat)
    (now : Z) (d : t) :
  config_ok cfg ->
  SCROLLMODE cfg <> 1 ->
  all_rows_blank cfg d = true ->
  loop2 cfg fuel true now d = None.
Proof.
  intros Hcfg Hmode Hblank. unfold loop2.
  destruct fuel as [|n]; [reflexivity|].
  cbn [loop2_do]. rewrite body_stage by reflexivity.
  unfold anchored, force_reset. cbn [rowFirst set_slot set_noMoreRowsToDisplay
    set_bufferPointer set_rowNext set_rowFirst rowNext].
  rewrite Z.eqb_refl.
  rewrite (find_diverges cfg Hcfg); [reflexivity|exact Hmode| | |].
  - exact (all_rows_blank_true cfg d Hblank).
  - reflexivity.
  - cbn [rowFirst set_rowFirst]. destruct Hcfg as (_ & _ & HI & _). lia.
Qed.

Lemma forced_call_on_blank_rows_never_returns_witness :
  config_ok Examples.cfg_row /\
  SCROLLMODE Examples.cfg_row <> 1 /\
  all_rows_blank Examples.cfg_row Examples.blank16x2 = true /\
  loop2 Examples.cfg_row 1000 true 0 Examples.blank16x2 = None.
Proof.
  split; [exact RowBufferFacts.config_ok_cfg_row|].
  split; [simpl; lia|]. split; [vm_compute; reflexivity|].
  apply (forced_call_on_blank_rows_never_returns Examples.cfg_row 1000 0
           Examples.blank16x2 RowBufferFacts.config_ok_cfg_row);
    [simpl; lia|vm_compute; reflexivity].
Defined.

(** Under the page policy the forced call on blank rows does return,
    with a blank line in each slot. *)
Lemma forced_call_on_blank_rows_page_policy :
  all_rows_blank Examples.cfg_page
    (Display Examples.cfg_page Examples.lcd16x2 Examples.zeroed) = true /\
  (snd <$> loop2 Examples.cfg_page 100 true 0
             (Display Examples.cfg_page Examples.lcd16x2 Examples.zeroed)) =
  Some (pass_requests 20 0 [[]; []]).
Proof. split; vm_compute; reflexivity. Qed.

(** A forced call on a searchable display returns. *)
Lemma forced_call_returns (cfg : config) (fuel : nat) (now : Z) (d : t) :
  config_ok cfg ->
  searchable cfg d = true ->
  1 <= numCharacterRows d <= 255 ->
  (Z.to_nat (MAX_CHARACTER_ROWS cfg) < fuel)%nat ->
  (Z.to_nat (numCharacterRows d) * S (Z.to_nat (MAX_CHARACTER_COLS cfg))
   <= fuel)%nat ->
  exists d' texts,
    loop2 cfg fuel true now d =
      Some (d', pass_requests (Z.to_nat (MAX_CHARACTER_COLS cfg)) 0 texts) /\
    length texts = Z.to_nat (numCharacterRows d) /\
    Forall (Forall (fun b => nonzero b = true)) texts.
Proof.
  intros Hcfg Hs HV Hf Hn. unfold loop2.
  destruct (pass_forced cfg fuel now (Z.to_nat (numCharacterRows d) - 1)
              (force_reset cfg d) fuel Hcfg)
    as (d' & texts & Hrun & Hlen & Hall);
    cbn [force_reset bufferPointer slot numCharacterRows set_slot
         set_noMoreRowsToDisplay set_bufferPointer set_rowNext set_rowFirst];
    try reflexivity; try assumption; try lia.
  - replace (S (Z.to_nat (numCharacterRows d) - 1))
      with (Z.to_nat (numCharacterRows d)) by lia.
    exact Hn.
  - exists d', texts. cbn [force_reset slot set_slot] in Hrun.
    split; [exact Hrun|]. split; [lia|exact Hall].
Qed.

(** ** Slots on any display *)

Section Rendered.

Context (cfg : config) (Hcfg : config_ok cfg).

Lemma some_row_nonblank_intro (d : t) (row : Z) :
  0 <= row < MAX_CHARACTER_ROWS cfg ->
  nonzero (cell (rowBuffer d) row 0) = true ->
  some_row_nonblank cfg d = true.
Proof.
  intros Hr Hnb. unfold some_row_nonblank. apply existsb_exists.
  exists row. split; [|exact Hnb].
  apply list_elem_of_In, elem_of_seqZ. lia.
Qed.

(** A search that finds a row has found a non-blank one. *)
Lemma find_found_nonblank (fuel : nat) : forall d df : t,
  findNextNonBlankRow cfg fuel d = Some (true, df) ->
  some_row_nonblank cfg d = true.
Proof.
  induction fuel as [|fuel IH]; intros d df H; [discriminate|].
  rewrite find_unfold in H.
  destruct (noMoreRowsToDisplay d); [discriminate|].
  pose proof (step_row_range cfg (rowNext d)) as Hstep.
  pose proof (wrap_row_range cfg Hcfg (rowNext d)) as Hwrap.
  destruct (SCROLLMODE cfg =? 1); cbv zeta in H.
  - rewrite Z.geb_leb in H.
    destruct (Z.leb_spec (MAX_CHARACTER_ROWS cfg) (step_row cfg (rowNext d)));
      [discriminate|].
    destruct (nonzero (cell (rowBuffer d) (step_row cfg (rowNext d)) 0))
      eqn:Hcell.
    + apply (some_row_nonblank_intro d (step_row cfg (rowNext d)));
        [lia|exact Hcell].
    + exact (IH _ _ H).
  - destruct (_ =? rowFirst d); [discriminate|].
    destruct (nonzero (cell (rowBuffer d) (wrap_row cfg (rowNext d)) 0))
      eqn:Hcell.
    + apply (some_row_nonblank_intro d (wrap_row cfg (rowNext d)));
        [lia|exact Hcell].
    + exact (IH _ _ H).
Qed.

(** A search that finds no row leaves [noMoreRowsToDisplay] set. *)
Lemma find_missed_done (fuel : nat) : forall d df : t,
  findNextNonBlankRow cfg fuel d = Some (false, df) ->
  noMoreRowsToDisplay df = true.
Proof.
  induction fuel as [|fuel IH]; intros d df H; [discriminate|].
  rewrite find_unfold in H.
  destruct (noMoreRowsToDisplay d) eqn:Hnm.
  { inversion H; subst. exact Hnm. }
  destruct (SCROLLMODE cfg =? 1); cbv zeta in H.
  - destruct (_ >=? MAX_CHARACTER_ROWS cfg); [now inversion H|].
    destruct (nonzero _); [discriminate|]. exact (IH _ _ H).
  - destruct (_ =? rowFirst d); [now inversion H|].
    destruct (nonzero _); [discriminate|]. exact (IH _ _ H).
Qed.

(** The last character of a slot when the rows are used up: no search
    follows it. *)
Lemma last_char_done (fuel : nat) (now : Z) (d : t) (p : Z) :
  bufferPointer d = Some p ->
  charIndex d = MAX_CHARACTER_COLS cfg - 1 ->
  noMoreRowsToDisplay d = true ->
  exists d',
    loop2_body cfg fuel now d =
      Some (d', [writeNative (shown (at_index (buffer d) p))],
            wrap8 (slot d + 1) >=? numCharacterRows d) /\
    bufferPointer d' = None.
Proof.
  intros Hp Hc Hnm.
  assert (HC : 1 <= MAX_CHARACTER_COLS cfg <= 254) by apply Hcfg.
  rewrite (body_char cfg fuel now d p Hp). cbv zeta.
  rewrite Hc, Hnm. unfold wrap8 at 1.
  replace (MAX_CHARACTER_COLS cfg - 1 + 1) with (MAX_CHARACTER_COLS cfg) by lia.
  rewrite Z.mod_small by lia.
  replace (MAX_CHARACTER_COLS cfg >=? MAX_CHARACTER_COLS cfg) with true
    by (symmetry; rewrite Z.geb_leb; apply Z.leb_refl).
  cbn [negb]. rewrite andb_false_r.
  destruct (wrap8 (slot d + 1) >=? numCharacterRows d);
    eexists; (split; [reflexivity|]); reflexivity.
Qed.

(** Once the call that positions a slot has returned, the calls for its
    characters return as well, on any display. *)
Lemma slot_by_calls_returned (fuel : nat) (now0 : Z) (nows : list Z)
    (d d1 : t) (out0 : list op) :
  (Z.to_nat (MAX_CHARACTER_ROWS cfg) < fuel)%nat ->
  bufferPointer d = None ->
  throttled cfg now0 d = false ->
  loop2 cfg fuel false now0 d = Some (d1, out0) ->
  Forall (fun now => throttled cfg now d = false) nows ->
  Z.of_nat (length nows) = MAX_CHARACTER_COLS cfg ->
  out0 = [setRowNative (slot d)] /\
  exists d2,
    loop2_calls cfg fuel nows d1 =
      Some (d2, map writeNative
                  (pad (Z.to_nat (MAX_CHARACTER_COLS cfg))
                       (text_of (buffer d1)))) /\
    bufferPointer d2 = None.
Proof.
  intros Hf Hp Hth0 Hcall Hth Hlen.
  assert (HC : 1 <= MAX_CHARACTER_COLS cfg <= 254) by apply Hcfg.
  destruct (searchable cfg d) eqn:Hs.
  { destruct (slot_by_calls cfg fuel now0 nows d Hcfg Hs Hf Hp Hth0 Hth Hlen)
      as (d1' & d2 & H1 & H2 & H3).
    rewrite Hcall in H1. inversion H1; subst.
    split; [reflexivity|]. exists d2. split; assumption. }
  unfold loop2 in Hcall. rewrite Hth0, (body_stage cfg fuel now0 d Hp) in Hcall.
  destruct (findNextNonBlankRow cfg fuel (anchored cfg d))
    as [[found df]|] eqn:Hfind; [|discriminate].
  inversion Hcall; subst d1 out0. clear Hcall.
  destruct (find_frame cfg fuel _ _ _ Hfind) as (rn & nm & Hdf).
  destruct (anchored_frame cfg d) as (rf & Ha). rewrite Ha in Hdf, Hfind.
  destruct found.
  { exfalso. apply find_found_nonblank in Hfind.
    change (some_row_nonblank cfg d = true) in Hfind.
    unfold searchable in Hs. rewrite Hfind, orb_true_r in Hs. discriminate. }
  apply find_missed_done in Hfind. rename Hfind into Hnm.
  assert (Hsl : slot df = slot d) by now rewrite Hdf.
  split; [now rewrite Hsl|].
  set (d1 := staged cfg false df).
  assert (Hbp1 : bufferPointer d1 = Some 0) by reflexivity.
  assert (Hci1 : charIndex d1 = 0) by reflexivity.
  assert (Hnm1 : noMoreRowsToDisplay d1 = true) by exact Hnm.
  assert (Hti : lastScrollTime d1 = lastScrollTime d)
    by (unfold d1, staged; now rewrite Hdf).
  destruct nows as [|x nows'] using rev_ind; [simpl in Hlen; lia|].
  clear IHnows'. rename nows' into front, x into last.
  rewrite length_app in Hlen. cbn [length] in Hlen.
  apply Forall_app in Hth. destruct Hth as [Hfront Hlast].
  apply Forall_cons in Hlast. destruct Hlast as [Hlast _].
  assert (Hsteps :
    steps cfg fuel front d1 =
    Some (after_chars (length front) 0 d1,
          map writeNative (line_image (length front) (buffer d1) 0))).
  { apply steps_chars; [lia|exact Hbp1|rewrite Hci1; lia|rewrite Hci1; lia]. }
  destruct (calls_of_steps cfg fuel front d1 _ _ Hsteps) as [Hcalls Htime].
  { eapply Forall_impl; [exact Hfront|]. intros x Hx. simpl in Hx.
    now rewrite (throttled_time cfg x d1 d Hti). }
  set (d1a := after_chars (length front) 0 d1) in *.
  assert (Hframe : d1a =
            set_charIndex (Z.of_nat (length front))
              (set_bufferPointer
                 (Some (pointer_after (length front) (buffer d1) 0)) d1)).
  { unfold d1a. rewrite (after_chars_frame (length front) 0 d1 Hbp1)
      by (rewrite Hci1; lia).
    now rewrite Hci1. }
  destruct (last_char_done fuel last d1a
              (pointer_after (length front) (buffer d1) 0))
    as (d2 & Hlastbody & Hbp2).
  { now rewrite Hframe. }
  { rewrite Hframe. cbn [charIndex set_charIndex]. lia. }
  { rewrite Hframe. exact Hnm1. }
  exists d2. split; [|exact Hbp2].
  rewrite loop2_calls_app, Hcalls. cbn [loop2_calls]. unfold loop2.
  rewrite (throttled_time cfg last d1a d) by congruence.
  rewrite Hlast, Hlastbody.
  replace (buffer d1a) with (buffer d1) by now rewrite Hframe.
  assert (Hsnoc : forall l c, map writeNative l ++ [writeNative c] =
                              map writeNative (l ++ [c]))
    by (intros l c; now rewrite map_app).
  rewrite app_nil_r, Hsnoc, <- line_image_snoc.
  replace (S (length front)) with (Z.to_nat (MAX_CHARACTER_COLS cfg)) by lia.
  rewrite (line_image_pad _ (buffer d1) 0). reflexivity.
Qed.

(** A forced call returns on searchable displays only. *)
Lemma forced_return_searchable (fuel : nat) (now : Z) (d : t)
    (r : t * list op) :
  loop2 cfg fuel true now d = Some r ->
  searchable cfg d = true.
Proof.
  intros H. destruct (searchable cfg d) eqn:Hs; [reflexivity|].
  exfalso. unfold searchable in Hs. apply orb_false_elim in Hs.
  destruct Hs as [Hmode Hnone].
  assert (Hblank : forall row, 0 <= row < MAX_CHARACTER_ROWS cfg ->
                     nonzero (cell (rowBuffer d) row 0) = false).
  { intros row Hr.
    destruct (nonzero (cell (rowBuffer d) row 0)) eqn:Hcell; [|reflexivity].
    rewrite (some_row_nonblank_intro d row Hr Hcell) in Hnone. discriminate. }
  assert (Hnever : loop2 cfg fuel true now d = None).
  { unfold loop2. destruct fuel as [|n]; [reflexivity|].
    cbn [loop2_do]. rewrite body_stage by reflexivity.
    unfold anchored, force_reset.
    cbn [rowFirst set_slot set_noMoreRowsToDisplay set_bufferPointer
         set_rowNext set_rowFirst rowNext].
    rewrite Z.eqb_refl.
    rewrite (find_diverges cfg Hcfg); [reflexivity| |exact Hblank|reflexivity|].
    - intros Hm. rewrite Hm in Hmode. discriminate.
    - cbn [rowFirst set_rowFirst]. destruct Hcfg as (_ & _ & HI & _). lia. }
  rewrite Hnever in H. discriminate.
Qed.

(** On a device that reports no row, a forced pass has the one slot. *)
Lemma forced_single_slot (fuel : nat) (now : Z) (d : t) :
  searchable cfg d = true ->
  (Z.to_nat (MAX_CHARACTER_ROWS cfg) < fuel)%nat ->
  numCharacterRows d <= 1 ->
  (S (Z.to_nat (MAX_CHARACTER_COLS cfg)) <= fuel)%nat ->
  exists d' text,
    loop2 cfg fuel true now d =
      Some (d', pass_requests (Z.to_nat (MAX_CHARACTER_COLS cfg)) 0 [text]) /\
    Forall (fun b => nonzero b = true) text.
Proof.
  intros Hs Hf HV Hn. unfold loop2.
  destruct (slot_forced cfg fuel now (force_reset cfg d)
              (fuel - S (Z.to_nat (MAX_CHARACTER_COLS cfg))) Hcfg)
    as (d2 & text & Htext & _ & _ & _ & Hrun);
    try reflexivity; try assumption.
  cbv zeta in Hrun.
  cbn [force_reset slot numCharacterRows set_slot set_noMoreRowsToDisplay
       set_bufferPointer set_rowNext set_rowFirst] in Hrun.
  change (wrap8 (0 + 1)) with 1 in Hrun.
  replace (1 >=? numCharacterRows d) with true in Hrun
    by (symmetry; rewrite Z.geb_leb; apply Z.leb_le; lia).
  replace (S (Z.to_nat (MAX_CHARACTER_COLS cfg)) +
           (fuel - S (Z.to_nat (MAX_CHARACTER_COLS cfg))))%nat with fuel
    in Hrun by lia.
  exists d2, text. cbn [pass_requests]. rewrite app_nil_r.
  split; [exact Hrun|exact Htext].
Qed.

Lemma writes_per_slot_pass (cols : nat) (texts : list (list byte)) :
  forall first : Z,
  writes_per_slot (pass_requests cols first texts) =
  replicate (length texts) cols.
Proof.
  induction texts as [|text texts IH]; intros s; [reflexivity|].
  cbn [pass_requests slot_requests app writes_per_slot length replicate].
  assert (Hlead : forall l rest,
            leading_writes (map writeNative l ++ pass_requests cols rest texts)
            = length l).
  { intros l rest. induction l as [|c l IHl];
      cbn [map app leading_writes length].
    - destruct texts; reflexivity.
    - now rewrite IHl. }
  assert (Hskip : forall l rest,
            writes_per_slot (map writeNative l ++ rest) = writes_per_slot rest).
  { intros l rest. induction l as [|c l IHl]; [reflexivity|exact IHl]. }
  now rewrite Hlead, Hskip, IH, length_pad.
Qed.

End Rendered.

(** C8, as the code has it.  Every slot that is rendered gets its position
    request and then exactly [MAX_CHARACTER_COLS] characters, the text of
    the staged line and then spaces, whatever number of columns the device
    reported and whatever the rows hold.  For a slot driven by unforced
    calls: once the call that positions the slot has returned, the next
    [MAX_CHARACTER_COLS] unthrottled calls return and send the characters.
    For a forced call on a device of up to 255 rows: whenever it returns,
    it has sent that for each of its slots, one slot when the device
    reports no row.  On a searchable display the calls do return. *)
Theorem every_slot_gets_max_character_cols (cfg : config) (fuel : nat)
    (d : t) :
  config_ok cfg ->
  (Z.to_nat (MAX_CHARACTER_ROWS cfg) < fuel)%nat ->
  let cols := Z.to_nat (MAX_CHARACTER_COLS cfg) in
  (forall now0 nows d1 out0,
     bufferPointer d = None ->
     throttled cfg now0 d = false ->
     loop2 cfg fuel false now0 d = Some (d1, out0) ->
     Forall (fun now => throttled cfg now d = false) nows ->
     length nows = cols ->
     out0 = [setRowNative (slot d)] /\
     exists d2,
       loop2_calls cfg fuel nows d1 =
         Some (d2, map writeNative (pad cols (text_of (buffer d1)))) /\
       length (pad cols (text_of (buffer d1))) = cols /\
       bufferPointer d2 = None) /\
  (forall now d' out,
     numCharacterRows d <= 255 ->
     loop2 cfg fuel true now d = Some (d', out) ->
     exists texts,
       out = pass_requests cols 0 texts /\
       length texts = Z.to_nat (Z.max 1 (numCharacterRows d)) /\
       Forall (Forall (fun b => nonzero b = true)) texts /\
       writes_per_slot out = replicate (length texts) cols) /\
  (searchable cfg d = true ->
   (forall now0,
      bufferPointer d = None ->
      throttled cfg now0 d = false ->
      exists d1,
        loop2 cfg fuel false now0 d = Some (d1, [setRowNative (slot d)])) /\
   (forall now,
      1 <= numCharacterRows d <= 255 ->
      (Z.to_nat (numCharacterRows d) * S cols <= fuel)%nat ->
      exists d' out, loop2 cfg fuel true now d = Some (d', out))).
Proof.
  intros Hcfg Hf cols.
  assert (HC : 1 <= MAX_CHARACTER_COLS cfg <= 254) by apply Hcfg.
  split; [|split].
  - intros now0 nows d1 out0 Hp Hth0 Hcall Hth Hlen.
    destruct (slot_by_calls_returned cfg Hcfg fuel now0 nows d d1 out0
                Hf Hp Hth0 Hcall Hth)
      as (Hout & d2 & H2 & H3); [unfold cols in Hlen; lia|].
    split; [exact Hout|]. exists d2. split; [exact H2|].
    split; [apply length_pad|exact H3].
  - intros now d' out HV Hret.
    pose proof (forced_return_searchable cfg Hcfg fuel now d _ Hret) as Hs.
    set (F := Nat.max fuel (Z.to_nat (Z.max 1 (numCharacterRows d)) * S cols)).
    assert (HF1 : (fuel <= F)%nat) by (unfold F; lia).
    assert (HF2 : (Z.to_nat (Z.max 1 (numCharacterRows d)) * S cols <= F)%nat)
      by (unfold F; lia).
    clearbody F.
    pose proof (loop2_mono cfg fuel F true now d _ Hret HF1) as HretF.
    destruct (Z_lt_le_dec (numCharacterRows d) 1) as [Hlow|Hhigh].
    + replace (Z.to_nat (Z.max 1 (numCharacterRows d))) with 1%nat in *
        by lia.
      rewrite Nat.mul_1_l in HF2.
      destruct (forced_single_slot cfg Hcfg F now d Hs ltac:(lia) ltac:(lia)
                  HF2)
        as (d'' & text & Hrun & Htext).
      assert (Hout : out = pass_requests (Z.to_nat (MAX_CHARACTER_COLS cfg)) 0
                           [text]) by congruence.
      exists [text]. split; [exact Hout|]. split; [reflexivity|].
      split; [now repeat constructor|].
      rewrite Hout. apply (writes_per_slot_pass cols [text] 0).
    + replace (Z.max 1 (numCharacterRows d)) with (numCharacterRows d) in *
        by lia.
      destruct (forced_call_returns cfg F now d Hcfg Hs ltac:(lia) ltac:(lia)
                  HF2)
        as (d'' & texts & Hrun & Hlen & Hall).
      assert (Hout : out = pass_requests (Z.to_nat (MAX_CHARACTER_COLS cfg)) 0
                           texts) by congruence.
      exists texts. split; [exact Hout|]. split; [exact Hlen|].
      split; [exact Hall|].
      rewrite Hout. apply (writes_per_slot_pass cols texts 0).
  - intros Hs. split.
    + intros now0 Hp Hth0.
      destruct (unforced_returns cfg fuel now0 d Hcfg Hs Hf) as [[d1 out0] H].
      exists d1. rewrite H.
      destruct (unforced_requests cfg fuel now0 d d1 out0 H)
        as [(Ht & _)|[(_ & _ & ->)|(_ & p & Hp' & _)]];
        [congruence|reflexivity|congruence].
    + intros now HV Hn.
      destruct (forced_call_returns cfg fuel now d Hcfg Hs HV Hf Hn)
        as (d' & texts & Hrun & _).
      eauto.
Qed.

Lemma every_slot_gets_max_character_cols_witness :
  searchable Examples.cfg_row Examples.cleared_after_pass = false /\
  (exists d1 d2,
     loop2 Examples.cfg_row 100 false 5000 Examples.cleared_after_pass =
       Some (d1, [setRowNative 0]) /\
     loop2_calls Examples.cfg_row 100 (replicate 20 5000) d1 =
       Some (d2, map writeNative (pad 20 (text_of (buffer d1)))) /\
     length (pad 20 (text_of (buffer d1))) = 20%nat /\
     bufferPointer d2 = None) /\
  (exists d' texts,
     loop2 Examples.cfg_row 100 true 5000 Examples.five_rows =
       Some (d', pass_requests 20 0 texts) /\
     length texts = 2%nat /\
     Forall (Forall (fun b => nonzero b = true)) texts /\
     writes_per_slot (pass_requests 20 0 texts) = [20; 20]%nat).
Proof.
  split; [vm_compute; reflexivity|].
  split.
  - destruct (loop2 Examples.cfg_row 100 false 5000
                Examples.cleared_after_pass) as [[d1 out0]|] eqn:Hcall;
      [|vm_compute in Hcall; discriminate Hcall].
    assert (Hth : throttled Examples.cfg_row 5000 Examples.cleared_after_pass
                  = false) by (vm_compute; reflexivity).
    destruct (proj1 (every_slot_gets_max_character_cols Examples.cfg_row 100
                       Examples.cleared_after_pass
                       RowBufferFacts.config_ok_cfg_row ltac:(simpl; lia))
                5000 (replicate 20 5000) d1 out0)
      as (Hout & d2 & H2 & H3 & H4).
    + vm_compute. reflexivity.
    + exact Hth.
    + exact Hcall.
    + apply Forall_replicate. exact Hth.
    + reflexivity.
    + exists d1, d2. rewrite Hout.
      split; [vm_compute; reflexivity|]. split; [exact H2|].
      split; [exact H3|exact H4].
  - destruct (loop2 Examples.cfg_row 100 true 5000 Examples.five_rows)
      as [[d' out]|] eqn:Hret; [|vm_compute in Hret; discriminate Hret].
    destruct (proj1 (proj2 (every_slot_gets_max_character_cols
                              Examples.cfg_row 100 Examples.five_rows
                              RowBufferFacts.config_ok_cfg_row
                              ltac:(simpl; lia)))
                5000 d' out)
      as (texts & Hout & Hlen & Hall & Hw).
    + vm_compute. congruence.
    + exact Hret.
    + exists d', texts. rewrite Hout in Hw.
      split; [now rewrite Hout|].
      split; [rewrite Hlen; vm_compute; reflexivity|].
      split; [exact Hall|].
      change (Z.to_nat (MAX_CHARACTER_COLS Examples.cfg_row)) with 20%nat in Hw.
      rewrite Hw, Hlen. vm_compute. reflexivity.
Defined.

(** C8, as the claim has it, fails: the device reports 16 columns, and
    each slot of the pass gets 20 characters, the value of
    [MAX_CHARACTER_COLS]. *)
Lemma slot_width_is_not_the_device_width :
  numCharacterColumns Examples.five_rows = 16 /\
  (snd <$> loop2 Examples.cfg_row 100 true 5000 Examples.five_rows) =
    Some (Examples.shows ["A"%byte] ["B"%byte]) /\
  writes_per_slot (Examples.shows ["A"%byte] ["B"%byte]) = [20; 20]%nat /\
  writes_per_slot (Examples.shows ["A"%byte] ["B"%byte]) <> [16; 16]%nat.
Proof.
  split; [vm_compute; reflexivity|]. split; [vm_compute; reflexivity|].
  split; [vm_compute; reflexivity|]. vm_compute. discriminate.
Qed.

(** A forced call that returns with some budget and clock returns the
    same requests with any larger budget and any clock. *)
Lemma forced_call_any_time (cfg : config) (fuel0 fuel : nat)
    (now0 now t0 : Z) (d d1 : t) (out : list op) :
  loop2 cfg fuel0 true now0 d = Some (d1, out) ->
  (fuel0 <= fuel)%nat ->
  loop2 cfg fuel true now (set_lastScrollTime t0 d) =
  Some (set_lastScrollTime now d1, out).
Proof.
  intros H Hle. rewrite (forced_call_time cfg fuel now0 now t0 d).
  now rewrite (loop2_mono cfg fuel0 fuel true now0 d _ H Hle).
Qed.

(** C5, as the code has it.  Every forced call restarts the search at row
    0: three forced calls in a row each show "A" and "B", whatever the
    clock shows at each call. *)
Theorem three_forced_passes_show_the_same_rows (fuel : nat)
    (now1 now2 now3 : Z) :
  (100 <= fuel)%nat ->
  Examples.three_forced_passes fuel now1 now2 now3 Examples.five_rows =
  Some (Examples.shows ["A"%byte] ["B"%byte],
        Examples.shows ["A"%byte] ["B"%byte],
        Examples.shows ["A"%byte] ["B"%byte]).
Proof.
  intros Hfuel.
  set (d1 := Examples.after_forced_pass Examples.five_rows).
  set (d2 := Examples.after_forced_pass d1).
  set (d3 := Examples.after_forced_pass d2).
  assert (H1 : loop2 Examples.cfg_row 100 true 0 Examples.five_rows =
               Some (d1, Examples.shows ["A"%byte] ["B"%byte]))
    by (vm_compute; reflexivity).
  assert (H2 : loop2 Examples.cfg_row 100 true 0 d1 =
               Some (d2, Examples.shows ["A"%byte] ["B"%byte]))
    by (vm_compute; reflexivity).
  assert (H3 : loop2 Examples.cfg_row 100 true 0 d2 =
               Some (d3, Examples.shows ["A"%byte] ["B"%byte]))
    by (vm_compute; reflexivity).
  unfold Examples.three_forced_passes.
  change Examples.five_rows
    with (set_lastScrollTime 0 Examples.five_rows) at 1.
  rewrite (forced_call_any_time _ 100 fuel 0 now1 0 _ _ _ H1 Hfuel).
  rewrite (forced_call_any_time _ 100 fuel 0 now2 now1 _ _ _ H2 Hfuel).
  rewrite (forced_call_any_time _ 100 fuel 0 now3 now2 _ _ _ H3 Hfuel).
  reflexivity.
Qed.

Lemma three_forced_passes_show_the_same_rows_witness :
  (100 <= 100)%nat /\
  Examples.three_forced_passes 100 5000 10000 15000 Examples.five_rows =
  Some (Examples.shows ["A"%byte] ["B"%byte],
        Examples.shows ["A"%byte] ["B"%byte],
        Examples.shows ["A"%byte] ["B"%byte]).
Proof.
  split; [lia|].
  apply (three_forced_passes_show_the_same_rows 100 5000 10000 15000). lia.
Defined.

(** C5, as the claim has it, fails: the second and third forced pass do
    not show C, D and E, A.  Nor do the passes driven by unforced calls
    after one forced call: they show A, B, then C, D, then D, E. *)
Lemma forced_passes_do_not_crawl :
  Examples.three_forced_passes 100 5000 10000 15000 Examples.five_rows <>
  Some (Examples.shows ["A"%byte] ["B"%byte],
        Examples.shows ["C"%byte] ["D"%byte],
        Examples.shows ["E"%byte] ["A"%byte]) /\
  Examples.forced_then_unforced_passes Examples.five_rows =
  Some (Examples.shows ["A"%byte] ["B"%byte],
        Examples.shows ["C"%byte] ["D"%byte],
        Examples.shows ["D"%byte] ["E"%byte]) /\
  Examples.forced_then_unforced_passes Examples.five_rows <>
  Some (Examples.shows ["A"%byte] ["B"%byte],
        Examples.shows ["C"%byte] ["D"%byte],
        Examples.shows ["E"%byte] ["A"%byte]).
Proof.
  split; [vm_compute; discriminate|].
  split; [vm_compute; reflexivity|]. vm_compute. discriminate.
Qed.

End RenderFacts.

(* ===================================================================== *)
(** * RingStream as a queue *)
(* ===================================================================== *)

Module RingStreamQueue.

Import RingStream RingStreamFacts.

Lemma dist_cases (len p w : Z) :
  0 <= p < len -> 0 <= w < len ->
  (w - p) mod len = if p <=? w then w - p else w - p + len.
Proof.
  intros Hp Hw. destruct (Z.leb_spec p w).
  - apply Z.mod_small. lia.
  - symmetry. apply (Z.mod_unique _ _ (-1)); lia.
Qed.

Lemma advance_range (len p : Z) :
  0 <= p < len -> 0 <= advance len p < len.
Proof.
  intros Hp. unfold advance. rewrite Z.geb_leb.
  destruct (Z.leb_spec len (p + 1)); lia.
Qed.

Lemma dist_advance (len p w : Z) :
  0 <= p < len -> 0 <= w < len -> p <> w ->
  (w - advance len p) mod len = (w - p) mod len - 1.
Proof.
  intros Hp Hw Hne. pose proof (advance_range len p Hp) as Ha.
  rewrite !dist_cases by assumption. unfold advance in *.
  rewrite Z.geb_leb in *.
  destruct (Z.leb_spec len (p + 1)); case_leb; lia.
Qed.

Lemma span_length (n : nat) (buf : list byte) (len : Z) : forall p,
  length (span n buf len p) = n.
Proof. induction n as [|n IH]; intros p; simpl; [reflexivity|now rewrite IH]. Qed.

(** A store at the write cursor adds its byte at the end of the span
    that leads up to the cursor. *)
Lemma span_store_end (buf : list byte) (len w : Z) (b : byte) (k : nat) :
  forall p,
  length buf = Z.to_nat len ->
  0 <= p < len -> 0 <= w < len ->
  (w - p) mod len = Z.of_nat k ->
  span (S k) (store_index buf w b) len p = span k buf len p ++ [b].
Proof.
  induction k as [|k IH]; intros p Hlen Hp Hw Hd.
  - assert (p = w) as -> by (rewrite dist_cases in Hd by assumption; case_leb; lia).
    cbn [span app]. unfold at_index, store_index.
    rewrite list_lookup_total_insert_eq by lia. reflexivity.
  - assert (Hne : p <> w).
    { intros ->. rewrite Z.sub_diag, Z.mod_0_l in Hd by lia. lia. }
    change (span (S (S k)) (store_index buf w b) len p)
      with (at_index (store_index buf w b) p ::
            span (S k) (store_index buf w b) len (advance len p)).
    rewrite IH; try assumption.
    + cbn [span app]. f_equal. unfold at_index, store_index.
      apply list_lookup_total_insert_ne. lia.
    + now apply advance_range.
    + rewrite dist_advance by assumption. lia.
Qed.

Lemma contents_length (s : t) :
  well_formed s -> Z.of_nat (length (contents s)) = pending s.
Proof.
  intros (Hl & _ & Hr & Hw). unfold contents. rewrite span_length.
  apply Z2Nat.id. apply Z.mod_pos_bound. lia.
Qed.

(** ** One call *)

Lemma stands_for_write (s : t) (st : queue) (b : byte) :
  stands_for s st ->
  fst (write s b) = fst (queue_call (_len s) st (Write b)) /\
  stands_for (snd (write s b)) (snd (queue_call (_len s) st (Write b))).
Proof.
  intros [Hwf Hst].
  pose proof (well_formed_call (Write b) s Hwf) as Hwf'. cbn [do_call] in Hwf'.
  destruct st as [q|].
  - destruct Hst as [Ho Hq]. pose proof (contents_length s Hwf) as Hlen.
    rewrite Hq in Hlen. destruct Hwf as (Hl & Hb & Hr & Hw).
    unfold pending in Hlen. rewrite dist_cases in Hlen by assumption.
    cbn [queue_call]. unfold stands_for. revert Hwf'.
    unfold write. rewrite Ho, Z.geb_leb.
    destruct (Z.leb_spec (_len s) (_pos_write s + 1));
      match goal with |- context [?a =? _pos_read s] =>
        destruct (Z.eqb_spec a (_pos_read s)) end;
      intros Hwf'; cbn [fst snd];
      destruct (Z.ltb_spec (Z.of_nat (length q) + 1) (_len s));
      cbn [fst snd _overflow _pos_read _pos_write];
      try (exfalso; case_leb; lia);
      (split; [reflexivity|]); (split; [exact Hwf'|]);
      try (split; [reflexivity|congruence]);
      (split; [first [exact Ho|reflexivity]|]);
      unfold contents, pending; cbn [_len _buffer _pos_read _pos_write];
      rewrite <- Hq; unfold contents, pending;
      match goal with |- span (Z.to_nat ((?w' - _) mod _)) _ _ _ = _ =>
        replace (Z.to_nat ((w' - _pos_read s) mod _len s))
          with (S (Z.to_nat ((_pos_write s - _pos_read s) mod _len s)))
          by (rewrite !dist_cases by lia; case_leb; lia)
      end;
      apply span_store_end; try assumption;
      rewrite Z2Nat.id; try reflexivity; apply Z.mod_pos_bound; lia.
  - destruct Hst as [Ho Hc]. cbn [queue_call fst snd].
    rewrite (write_overflowed s b Ho). cbn [fst snd].
    split; [reflexivity|]. split; [exact Hwf|]. auto.
Qed.

Lemma stands_for_read (s : t) (st : queue) :
  stands_for s st ->
  fst (read s) = fst (queue_call (_len s) st Read) /\
  stands_for (snd (read s)) (snd (queue_call (_len s) st Read)).
Proof.
  intros [Hwf Hst].
  pose proof (well_formed_call Read s Hwf) as Hwf'. cbn [do_call] in Hwf'.
  destruct st as [q|].
  - destruct Hst as [Ho Hq]. pose proof (contents_length s Hwf) as Hlen.
    rewrite Hq in Hlen. destruct Hwf as (Hl & Hb & Hr & Hw).
    revert Hwf'. unfold read.
    destruct (Z.eqb_spec (_pos_read s) (_pos_write s)) as [He|Hne];
      intros Hwf'.
    + unfold pending in Hlen. rewrite He, Z.sub_diag, Z.mod_0_l in Hlen by lia.
      destruct q; [|cbn [length] in Hlen; lia].
      cbn [queue_call fst snd]. split; [reflexivity|].
      split; [exact Hwf'|]. split; [exact Ho|].
      unfold contents, pending. now rewrite He, Z.sub_diag, Z.mod_0_l by lia.
    + assert (Hpos : 0 < pending s).
      { unfold pending. rewrite dist_cases by assumption. case_leb; lia. }
      unfold contents in Hq.
      destruct (Z.to_nat (pending s)) as [|k] eqn:Hk; [lia|].
      cbn [span] in Hq. subst q. cbn [queue_call fst snd].
      split; [reflexivity|]. split; [exact Hwf'|]. split; [reflexivity|].
      unfold contents, pending. cbn [_len _buffer _pos_read _pos_write].
      fold (advance (_len s) (_pos_read s)).
      rewrite dist_advance by (try assumption; congruence).
      fold (pending s). now replace (Z.to_nat (pending s - 1)) with k by lia.
  - destruct Hst as [Ho Hc]. cbn [queue_call fst snd].
    rewrite (read_cursors_equal s Hc). cbn [fst snd].
    split; [reflexivity|]. split; [exact Hwf|]. auto.
Qed.

Lemma stands_for_run (cs : list call) : forall (s : t) (st : queue),
  stands_for s st ->
  fst (run cs s) = fst (queue_run (_len s) cs st) /\
  stands_for (snd (run cs s)) (snd (queue_run (_len s) cs st)).
Proof.
  induction cs as [|c cs IH]; intros s st Hs; [split; [reflexivity|exact Hs]|].
  cbn [run queue_run].
  assert (H1 : fst (do_call s c) = fst (queue_call (_len s) st c) /\
               stands_for (snd (do_call s c)) (snd (queue_call (_len s) st c)))
    by (destruct c; [apply stands_for_write|apply stands_for_read]; exact Hs).
  pose proof (len_call c s) as Hlen.
  destruct (do_call s c) as [r s1], (queue_call (_len s) st c) as [r' st1].
  cbn [fst snd] in H1, Hlen. destruct H1 as [-> H1].
  destruct (IH s1 st1 H1) as [Hr Hst]. rewrite Hlen in Hr, Hst.
  destruct (run cs s1) as [rs s2], (queue_run (_len s) cs st1) as [rs' st2].
  cbn [fst snd] in *. now subst.
Qed.

(** ** Whole runs *)

Lemma stands_for_init (C : Z) (mem : list byte) :
  0 < C -> length mem = Z.to_nat C ->
  stands_for (RingStream C mem) (Queue []).
Proof.
  intros HC Hm. split; [now apply well_formed_init|].
  split; [reflexivity|]. unfold contents, pending. cbn [_pos_read _pos_write
    RingStream _len]. now rewrite Z.sub_diag, Z.mod_0_l by lia.
Qed.

(** X1.  A stream of capacity [C] behaves like a queue with room for
    [C - 1] bytes that stops working when one byte too many is written:
    whatever writes and reads follow the construction, they return what
    the queue returns, the cursors stay inside the storage, and the bytes
    between the cursors are the bytes of the queue, oldest first. *)
Theorem stream_is_bounded_queue (C : Z) (mem : list byte) (cs : list call) :
  0 < C ->
  length mem = Z.to_nat C ->
  fst (run cs (RingStream C mem)) = fst (queue_run C cs (Queue [])) /\
  stands_for (snd (run cs (RingStream C mem)))
             (snd (queue_run C cs (Queue []))).
Proof.
  intros HC Hm.
  apply (stands_for_run cs (RingStream C mem) (Queue [])).
  now apply stands_for_init.
Qed.

Lemma stream_is_bounded_queue_witness :
  0 < 3 /\
  length [x00; x00; x00] = Z.to_nat 3 /\
  fst (run [Write "a"; Read; Write "b"; Write "c"; Read; Read; Read]%byte
         (RingStream 3 [x00; x00; x00])) = [1; 97; 1; 1; 98; 99; -1] /\
  stands_for
    (snd (run [Write "a"; Read; Write "b"; Write "c"; Read; Read; Read]%byte
            (RingStream 3 [x00; x00; x00])))
    (Queue []).
Proof.
  split; [lia|]. split; [reflexivity|].
  apply (stream_is_bounded_queue 3 [x00; x00; x00]
           [Write "a"; Read; Write "b"; Write "c"; Read; Read; Read]%byte);
    [lia|reflexivity].
Defined.

(** ** Writing and reading back *)

Lemma queue_run_app (C : Z) (cs1 cs2 : list call) : forall st,
  queue_run C (cs1 ++ cs2) st =
  (fst (queue_run C cs1 st) ++ fst (queue_run C cs2 (snd (queue_run C cs1 st))),
   snd (queue_run C cs2 (snd (queue_run C cs1 st)))).
Proof.
  induction cs1 as [|c cs1 IH]; intros st.
  - cbn [app queue_run fst snd]. now destruct (queue_run C cs2 st).
  - cbn [app queue_run]. destruct (queue_call C st c) as [r st1].
    rewrite IH. destruct (queue_run C cs1 st1) as [rs st2]. reflexivity.
Qed.

Lemma queue_writes (C : Z) (bs : list byte) : forall q,
  Z.of_nat (length q + length bs) < C ->
  queue_run C (map Write bs) (Queue q) =
  (replicate (length bs) 1, Queue (q ++ bs)).
Proof.
  induction bs as [|b bs IH]; intros q Hn.
  - cbn [map queue_run length replicate]. now rewrite app_nil_r.
  - cbn [map queue_run queue_call length] in *.
    destruct (Z.ltb_spec (Z.of_nat (length q) + 1) C); [|lia].
    rewrite IH by (rewrite length_app; cbn [length]; lia).
    now rewrite <- app_assoc.
Qed.

Lemma queue_reads (C : Z) (bs : list byte) :
  queue_run C (replicate (length bs) Read) (Queue bs) =
  (map byte_to_int bs, Queue []).
Proof.
  induction bs as [|b bs IH]; [reflexivity|].
  cbn [length replicate queue_run queue_call map]. now rewrite IH.
Qed.

(** X2.  Bytes written to a fresh stream, fewer of them than its
    capacity, are all accepted; as many reads then return them in the
    order written, and one more read returns -1. *)
Theorem written_bytes_are_read_back (C : Z) (mem : list byte)
    (bs : list byte) :
  length mem = Z.to_nat C ->
  Z.of_nat (length bs) < C ->
  fst (run (map Write bs ++ replicate (length bs) Read ++ [Read])
         (RingStream C mem)) =
  replicate (length bs) 1 ++ map byte_to_int bs ++ [-1].
Proof.
  intros Hm Hn.
  destruct (stands_for_run
              (map Write bs ++ replicate (length bs) Read ++ [Read])
              (RingStream C mem) (Queue [])) as [Hr _].
  { apply stands_for_init; [lia|exact Hm]. }
  rewrite Hr. cbn [_len RingStream].
  rewrite queue_run_app, queue_writes by (cbn [length]; lia).
  cbn [fst snd app]. rewrite queue_run_app, queue_reads. reflexivity.
Qed.

Lemma written_bytes_are_read_back_witness :
  length [x00; x00; x00; x00] = Z.to_nat 4 /\
  Z.of_nat (length ["x"; "y"; "z"]%byte) < 4 /\
  fst (run [Write "x"; Write "y"; Write "z"; Read; Read; Read; Read]%byte
         (RingStream 4 [x00; x00; x00; x00])) =
  [1; 1; 1; 120; 121; 122; -1].
Proof.
  split; [reflexivity|]. split; [simpl; lia|].
  apply (written_bytes_are_read_back 4 [x00; x00; x00; x00]
           ["x"; "y"; "z"]%byte); [reflexivity|simpl; lia].
Defined.

(** ** The length of the next message *)

Lemma count_loop_span (s : t) (msg : list byte) :
  forall (n : nat) (rest : list byte) (p c : Z) (fuel : nat),
  span n (_buffer s) (_len s) p = msg ++ x00 :: rest ->
  Forall (fun b => nonzero b = true) msg ->
  (length msg < fuel)%nat ->
  count_loop fuel s p c = Some (c + Z.of_nat (length msg)).
Proof.
  induction msg as [|m msg IH]; intros n rest p c fuel Hspan Hnz Hf;
    (destruct fuel as [|fuel]; [cbn [length] in Hf; lia|]);
    (destruct n as [|n]; [discriminate|]);
    cbn [span app] in Hspan; inversion Hspan as [[Hhead Htail]];
    cbn [count_loop].
  - rewrite Hhead. cbn [nonzero Byte.to_N N.eqb negb length Z.of_nat].
    now rewrite Z.add_0_r.
  - apply Forall_cons in Hnz. destruct Hnz as [Hm Hnz].
    rewrite Hhead, Hm. fold (advance (_len s) p).
    rewrite (IH n rest _ (c + 1) fuel Htail Hnz)
      by (cbn [length] in Hf; lia).
    f_equal. cbn [length]. lia.
Qed.

(** X3.  When the unread bytes of a stream start with a message of
    non-zero bytes and its terminating zero, [count] returns the length
    of that message. *)
Theorem count_is_length_of_next_message (s : t) (msg rest : list byte)
    (fuel : nat) :
  contents s = msg ++ x00 :: rest ->
  Forall (fun b => nonzero b = true) msg ->
  (length msg < fuel)%nat ->
  count fuel s = Some (Z.of_nat (length msg)).
Proof.
  intros Hc Hnz Hf. unfold count.
  now rewrite (count_loop_span s msg _ rest _ 0 fuel Hc Hnz Hf).
Qed.

Lemma count_is_length_of_next_message_witness :
  let s := snd (RingStream.write_all ["A"; "B"; x00; "C"; "D"]%byte
                  (RingStream 8 (replicate 8 "x"%byte))) in
  contents s = ["A"; "B"]%byte ++ x00 :: ["C"; "D"]%byte /\
  Forall (fun b => nonzero b = true) ["A"; "B"]%byte /\
  count 3 s = Some 2.
Proof.
  assert (Hnz : Forall (fun b => nonzero b = true) ["A"; "B"]%byte)
    by (repeat constructor).
  split; [reflexivity|]. split; [exact Hnz|].
  apply (count_is_length_of_next_message
           (snd (RingStream.write_all ["A"; "B"; x00; "C"; "D"]%byte
                   (RingStream 8 (replicate 8 "x"%byte))))
           ["A"; "B"]%byte ["C"; "D"]%byte 3);
    [reflexivity|exact Hnz|simpl; lia].
Defined.

End RingStreamQueue.

(* ===================================================================== *)
(** * More on the row buffer *)
(* ===================================================================== *)

Module RowBufferMore.

Import Display RowBufferFacts.

Section Rows.

Context (cfg : config) (Hcfg : config_ok cfg).

(** ** Blanking every row *)

Lemma clear_rows_lookup (n : nat) : forall (start : Z) (rows : list (list byte))
    (i : nat),
  0 <= start ->
  clear_rows n start rows !! i =
  if decide (Z.to_nat start <= i < Z.to_nat start + n)%nat
  then (fun row : list byte => <[0%nat := x00]> row) <$> rows !! i
  else rows !! i.
Proof.
  induction n as [|n IH]; intros start rows i Hs.
  - cbn [clear_rows]. case_decide; [lia|reflexivity].
  - cbn [clear_rows]. rewrite IH by lia. unfold cell_store, store_index.
    rewrite list_lookup_insert. cbn [Z.to_nat].
    destruct (decide (i = Z.to_nat start)) as [->|Hne].
    + repeat case_decide; try lia.
      * rewrite (list_lookup_lookup_total_lt rows) by lia. reflexivity.
      * rewrite lookup_ge_None_2 by lia. reflexivity.
    + repeat case_decide; try lia; reflexivity.
Qed.

Lemma clear_rows_length (n : nat) : forall (start : Z) (rows : list (list byte)),
  length (clear_rows n start rows) = length rows.
Proof.
  induction n as [|n IH]; intros start rows; [reflexivity|].
  cbn [clear_rows]. now rewrite IH, cell_store_length.
Qed.

Lemma cleared_rows_blank (d : t) (rows : list (list byte)) :
  rowBuffer d =
    clear_rows (Z.to_nat (MAX_CHARACTER_ROWS cfg)) 0 rows ->
  all_rows_blank cfg d = true.
Proof.
  intros Hrows. unfold all_rows_blank. apply forallb_forall. intros row Hin.
  apply list_elem_of_In, elem_of_seqZ in Hin.
  apply negb_true_iff. unfold row_nonblank, cell, at_index.
  rewrite Hrows, (list_lookup_total_alt (clear_rows _ _ _)).
  rewrite clear_rows_lookup by lia.
  case_decide; [|lia].
  destruct (rows !! Z.to_nat row) as [[|c r]|]; reflexivity.
Qed.

Lemma cleared_rows_shape (d : t) :
  shape cfg d ->
  shape cfg
    (set_rowBuffer
       (clear_rows (Z.to_nat (MAX_CHARACTER_ROWS cfg)) 0 (rowBuffer d)) d).
Proof.
  intros (Hl & Hf & Hb). unfold shape. cbn [rowBuffer buffer set_rowBuffer].
  rewrite clear_rows_length. split; [exact Hl|]. split; [|exact Hb].
  apply Forall_lookup. intros i row Hi.
  rewrite clear_rows_lookup in Hi by lia.
  rewrite Forall_lookup in Hf.
  case_decide; [|now apply (Hf i)].
  destruct (rowBuffer d !! i) as [row0|] eqn:Hrow; [|discriminate].
  inversion Hi; subst. rewrite length_insert. now apply (Hf i).
Qed.

(** ** Writes at and beyond the bounds *)

Lemma rejected_not_one : rejected cfg <> 1.
Proof.
  unfold rejected. destruct Hcfg as (_ & _ & _ & HS).
  assert (Hpow : 2 ^ 8 <= 2 ^ size_t_bits cfg)
    by (apply Z.pow_le_mono_r; lia).
  change (2 ^ 8) with 256 in Hpow.
  rewrite <- (Z.mod_unique (-1) (2 ^ size_t_bits cfg) (-1)
                (2 ^ size_t_bits cfg - 1)); lia.
Qed.

Lemma write_rejected (b : byte) (d : t) :
  MAX_CHARACTER_ROWS cfg <= hotRow d \/ MAX_CHARACTER_COLS cfg <= hotCol d ->
  _write cfg b d = Done (rejected cfg, d).
Proof.
  intros H. unfold _write. rewrite !Z.geb_leb.
  destruct (Z.leb_spec (MAX_CHARACTER_ROWS cfg) (hotRow d));
    destruct (Z.leb_spec (MAX_CHARACTER_COLS cfg) (hotCol d));
    try reflexivity; lia.
Qed.

Lemma write_accepted (b : byte) (d : t) :
  0 <= hotRow d < MAX_CHARACTER_ROWS cfg ->
  0 <= hotCol d < MAX_CHARACTER_COLS cfg ->
  _write cfg b d =
  Done (1, set_rowBuffer
             (cell_store (cell_store (rowBuffer d) (hotRow d) (hotCol d) b)
                         (hotRow d) (hotCol d + 1) x00)
             (set_hotCol (hotCol d + 1) d)).
Proof.
  intros Hr Hc. destruct Hcfg as (HR & HC & _). unfold _write.
  replace (hotRow d >=? MAX_CHARACTER_ROWS cfg) with false
    by (symmetry; rewrite Z.geb_leb; apply Z.leb_gt; lia).
  replace (hotCol d >=? MAX_CHARACTER_COLS cfg) with false
    by (symmetry; rewrite Z.geb_leb; apply Z.leb_gt; lia).
  cbn [orb]. rewrite rowBuffer_store_inside by lia.
  cbn [mbind outcome_bind hotRow hotCol rowBuffer set_rowBuffer set_hotCol].
  unfold wrap8. rewrite Z.mod_small by lia.
  rewrite rowBuffer_store_inside
    by (cbn [hotRow hotCol set_rowBuffer set_hotCol]; lia).
  reflexivity.
Qed.

Lemma cell_store_other (rows : list (list byte)) (row col : Z) (v : byte)
    (i : nat) :
  i <> Z.to_nat row -> cell_store rows row col v !! i = rows !! i.
Proof.
  intros H. unfold cell_store. apply list_lookup_insert_ne. congruence.
Qed.

Lemma write_all_app (bs1 bs2 : list byte) : forall d : t,
  write_all cfg (bs1 ++ bs2) d =
  r1 ← write_all cfg bs1 d;
  r2 ← write_all cfg bs2 (snd r1);
  Done (fst r1 ++ fst r2, snd r2).
Proof.
  induction bs1 as [|b bs1 IH]; intros d.
  - cbn [app write_all mbind outcome_bind fst snd].
    now destruct (write_all cfg bs2 d) as [[rs d2]|].
  - cbn [app write_all]. destruct (_write cfg b d) as [[r d1]|]; [|reflexivity].
    cbn [mbind outcome_bind fst snd]. rewrite IH.
    destruct (write_all cfg bs1 d1) as [[rs1 d2]|]; [|reflexivity].
    cbn [mbind outcome_bind fst snd].
    now destruct (write_all cfg bs2 d2) as [[rs2 d3]|].
Qed.

Lemma write_all_rejected (bs : list byte) (d : t) :
  MAX_CHARACTER_ROWS cfg <= hotRow d \/ MAX_CHARACTER_COLS cfg <= hotCol d ->
  write_all cfg bs d = Done (replicate (length bs) (rejected cfg), d).
Proof.
  intros H. induction bs as [|b bs IH]; [reflexivity|].
  cbn [write_all]. rewrite (write_rejected b d H).
  cbn [mbind outcome_bind fst snd]. now rewrite IH.
Qed.

Lemma write_all_other_rows (bs : list byte) :
  forall (d : t) (rs : list Z) (d' : t),
  write_all cfg bs d = Done (rs, d') ->
  0 <= hotRow d ->
  0 <= hotCol d ->
  forall i, i <> Z.to_nat (hotRow d) -> rowBuffer d' !! i = rowBuffer d !! i.
Proof.
  induction bs as [|b bs IH]; intros d rs d' Hw Hr Hc i Hi.
  - cbn [write_all] in Hw. now inversion Hw.
  - cbn [write_all] in Hw.
    destruct (_write cfg b d) as [[rv dx]|] eqn:Hb; [|discriminate].
    cbn [mbind outcome_bind fst snd] in Hw.
    destruct (write_all cfg bs dx) as [[rs' dy]|] eqn:Hl; [|discriminate].
    cbn [mbind outcome_bind fst snd] in Hw. inversion Hw; subst dy.
    assert (Hx : rowBuffer dx !! i = rowBuffer d !! i /\
                 hotRow dx = hotRow d /\ 0 <= hotCol dx).
    { destruct (Z.lt_ge_cases (hotRow d) (MAX_CHARACTER_ROWS cfg));
        [destruct (Z.lt_ge_cases (hotCol d) (MAX_CHARACTER_COLS cfg))|].
      - rewrite (write_accepted b d) in Hb by lia. inversion Hb; subst dx.
        cbn [rowBuffer set_rowBuffer set_hotCol hotRow hotCol].
        rewrite !cell_store_other by exact Hi. repeat split; lia.
      - rewrite (write_rejected b d) in Hb by lia.
        inversion Hb; subst dx. repeat split; lia.
      - rewrite (write_rejected b d) in Hb by lia.
        inversion Hb; subst dx. repeat split; lia. }
    destruct Hx as (Hxi & Hxr & Hxc).
    rewrite <- Hxi. apply (IH dx rs' d' Hl); rewrite ?Hxr; assumption.
Qed.

Lemma setRow_in_range (r : Z) (d : t) :
  shape cfg d ->
  0 <= r < MAX_CHARACTER_ROWS cfg ->
  exists d1,
    _setRow cfg r d = Done d1 /\
    shape cfg d1 /\
    hotRow d1 = r /\
    hotCol d1 = 0 /\
    take 1 (rowBuffer d1 !!! Z.to_nat r) = [x00] /\
    forall i, i <> Z.to_nat r -> rowBuffer d1 !! i = rowBuffer d !! i.
Proof.
  intros Hs Hr. destruct Hcfg as (HR & HC & _).
  exists (set_rowBuffer (cell_store (rowBuffer d) r 0 x00)
            (set_hotCol 0 (set_hotRow r d))).
  split.
  { unfold _setRow. cbn [hotRow set_hotCol set_hotRow].
    now rewrite rowBuffer_store_inside by lia. }
  split.
  { apply (shape_set_rowBuffer cfg (set_hotCol 0 (set_hotRow r d))). exact Hs. }
  split; [reflexivity|]. split; [reflexivity|].
  cbn [rowBuffer set_rowBuffer set_hotCol set_hotRow]. split.
  - destruct Hs as (Hl & Hf & _).
    rewrite cell_store_row by lia. unfold store_index.
    assert (Hrow : length (rowBuffer d !!! Z.to_nat r) =
                   Z.to_nat (MAX_CHARACTER_COLS cfg + 1)).
    { rewrite Forall_lookup in Hf. apply (Hf (Z.to_nat r)).
      apply list_lookup_lookup_total_lt. lia. }
    destruct (rowBuffer d !!! Z.to_nat r) as [|c row];
      [simpl in Hrow; lia|reflexivity].
  - intros i Hi. now apply cell_store_other.
Qed.

Lemma text_of_terminated (text rest : list byte) :
  Forall (fun b => nonzero b = true) text ->
  text_of (text ++ x00 :: rest) = text.
Proof.
  induction text as [|b text IH]; intros H; [reflexivity|].
  apply Forall_cons in H. destruct H as [Hb H].
  cbn [app text_of]. now rewrite Hb, IH.
Qed.

End Rows.



(** X5.  [_write] never stores outside [rowBuffer], whatever row and
    column are hot: it returns 1 exactly when the hot row and column are
    inside the bounds, and otherwise returns [(size_t)-1] and leaves the
    display as it is.  In both cases every row but the hot one is
    unchanged. *)
Theorem write_is_confined_to_the_hot_row (cfg : config) (b : byte) (d : t) :
  config_ok cfg ->
  0 <= hotRow d ->
  0 <= hotCol d ->
  exists r d',
    _write cfg b d = Done (r, d') /\
    (r = 1 <->
     hotRow d < MAX_CHARACTER_ROWS cfg /\ hotCol d < MAX_CHARACTER_COLS cfg) /\
    (r <> 1 -> r = rejected cfg /\ d' = d) /\
    hotRow d' = hotRow d /\
    length (rowBuffer d') = length (rowBuffer d) /\
    forall i, i <> Z.to_nat (hotRow d) -> rowBuffer d' !! i = rowBuffer d !! i.
Proof.
  intros Hcfg Hr Hc.
  destruct (Z.lt_ge_cases (hotRow d) (MAX_CHARACTER_ROWS cfg)) as [Hr'|Hr'];
    [destruct (Z.lt_ge_cases (hotCol d) (MAX_CHARACTER_COLS cfg)) as [Hc'|Hc']|].
  - eexists _, _. split; [apply (write_accepted cfg Hcfg); lia|].
    split; [tauto|]. split; [congruence|]. split; [reflexivity|].
    cbn [rowBuffer set_rowBuffer set_hotCol]. split.
    + now rewrite !cell_store_length.
    + intros i Hi. now rewrite !cell_store_other.
  - exists (rejected cfg), d.
    split; [apply write_rejected; lia|].
    pose proof (rejected_not_one cfg Hcfg). split; [split; [congruence|lia]|].
    repeat split.
  - exists (rejected cfg), d.
    split; [apply write_rejected; lia|].
    pose proof (rejected_not_one cfg Hcfg). split; [split; [congruence|lia]|].
    repeat split.
Qed.

Lemma write_is_confined_to_the_hot_row_witness :
  exists r d',
    _write Examples.cfg_row "x"%byte
      (set_hotCol 20 (set_hotRow 3 Examples.five_rows)) = Done (r, d') /\
    r = 65535 /\
    d' = set_hotCol 20 (set_hotRow 3 Examples.five_rows).
Proof.
  destruct (write_is_confined_to_the_hot_row Examples.cfg_row "x"%byte
              (set_hotCol 20 (set_hotRow 3 Examples.five_rows))
              config_ok_cfg_row ltac:(simpl; lia) ltac:(simpl; lia))
    as (r & d' & Hw & Hone & Hrej & _).
  exists r, d'. split; [exact Hw|].
  apply Hrej. intros ->. apply proj1 in Hone.
  specialize (Hone eq_refl). simpl in Hone. lia.
Defined.

(** X6.  After [_setRow(r)] for a valid row, [_write] of any number of
    bytes never fails on a store: the first [MAX_CHARACTER_COLS] bytes
    are accepted and followed by a zero in the row, every further byte is
    rejected and dropped.  When none of the bytes is zero, the text of
    the row is the text written, cut to [MAX_CHARACTER_COLS]
    characters. *)
Theorem long_text_is_cut (cfg : config) (d : t) (r : Z) (bs : list byte) :
  config_ok cfg ->
  shape cfg d ->
  0 <= r < MAX_CHARACTER_ROWS cfg ->
  let cols := Z.to_nat (MAX_CHARACTER_COLS cfg) in
  exists d1 d2,
    _setRow cfg r d = Done d1 /\
    write_all cfg bs d1 =
      Done (replicate (Nat.min (length bs) cols) 1 ++
            replicate (length bs - cols) (rejected cfg), d2) /\
    take (S (Nat.min (length bs) cols)) (rowBuffer d2 !!! Z.to_nat r) =
      take cols bs ++ [x00] /\
    (Forall (fun b => nonzero b = true) bs ->
     text_of (rowBuffer d2 !!! Z.to_nat r) = take cols bs) /\
    forall i, i <> Z.to_nat r -> rowBuffer d2 !! i = rowBuffer d !! i.
Proof.
  intros Hcfg Hs Hr cols.
  assert (HC : 1 <= MAX_CHARACTER_COLS cfg <= 254) by apply Hcfg.
  destruct (setRow_in_range cfg Hcfg r d Hs Hr)
    as (d1 & Hset & Hs1 & Hr1 & Hc1 & Ht1 & Hother1).
  destruct (write_all_in_bounds cfg (take cols bs) d1 [] Hcfg Hs1)
    as (d2 & Hw & Hs2 & Hr2 & Hc2 & Ht2);
    rewrite ?Hr1, ?Hc1; try assumption; try reflexivity.
  { cbn [length Nat.add]. rewrite length_take. unfold cols. lia. }
  exists d1, d2. cbn [length Nat.add app] in Hc2, Ht2.
  rewrite length_take, (Nat.min_comm cols) in Hw, Hc2, Ht2.
  rewrite Hr1 in Ht2.
  split; [exact Hset|].
  assert (Hrest : write_all cfg (drop cols bs) d2 =
                  Done (replicate (length bs - cols) (rejected cfg), d2)).
  { destruct (Nat.le_gt_cases (length bs) cols) as [Hle|Hgt].
    - rewrite drop_ge by exact Hle.
      replace (length bs - cols)%nat with 0%nat by lia. reflexivity.
    - rewrite (write_all_rejected cfg (drop cols bs) d2), length_drop;
        [reflexivity|].
      right. rewrite Hc2. unfold cols. lia. }
  split.
  { rewrite <- (take_drop cols bs) at 1. rewrite write_all_app, Hw.
    cbn [mbind outcome_bind fst snd]. rewrite Hrest. reflexivity. }
  split; [exact Ht2|]. split.
  - intros Hnz.
    rewrite <- (take_drop (S (Nat.min (length bs) cols))
                  (rowBuffer d2 !!! Z.to_nat r)).
    rewrite Ht2, <- app_assoc. cbn [app].
    apply text_of_terminated. now apply Forall_take.
  - intros i Hi. rewrite <- (Hother1 i Hi).
    apply (write_all_other_rows cfg Hcfg (take cols bs) d1 _ d2 Hw);
      rewrite ?Hr1, ?Hc1; try lia; exact Hi.
Qed.

Lemma long_text_is_cut_witness :
  config_ok Examples.cfg_row /\
  shape Examples.cfg_row Examples.blank16x2 /\
  exists d1 d2,
    _setRow Examples.cfg_row 2 Examples.blank16x2 = Done d1 /\
    write_all Examples.cfg_row (replicate 22 "z"%byte) d1 =
      Done (replicate 20 1 ++ replicate 2 65535, d2) /\
    take 21 (rowBuffer d2 !!! 2%nat) = replicate 20 "z"%byte ++ [x00] /\
    (Forall (fun b => nonzero b = true) (replicate 22 "z"%byte) ->
     text_of (rowBuffer d2 !!! 2%nat) = replicate 20 "z"%byte) /\
    forall i, i <> 2%nat ->
      rowBuffer d2 !! i = rowBuffer Examples.blank16x2 !! i.
Proof.
  assert (Hs : shape Examples.cfg_row Examples.blank16x2).
  { unfold shape. split; [reflexivity|]. split; [|reflexivity].
    vm_compute. repeat constructor. }
  split; [exact config_ok_cfg_row|]. split; [exact Hs|].
  apply (long_text_is_cut Examples.cfg_row Examples.blank16x2 2
           (replicate 22 "z"%byte) config_ok_cfg_row Hs).
  simpl. lia.
Defined.

End RowBufferMore.

(* ===================================================================== *)
(** * More on rendering *)
(* ===================================================================== *)

Module RenderMore.

Import Display SearchFacts RenderFacts.

Section Passes.

Context (cfg : config).

Lemma untouched_refl (d : t) : untouched d d.
Proof. repeat split. Qed.

Lemma untouched_trans (d1 d2 d3 : t) :
  untouched d1 d2 -> untouched d2 d3 -> untouched d1 d3.
Proof.
  unfold untouched. intros (A1 & A2 & A3 & A4 & A5 & A6)
                           (B1 & B2 & B3 & B4 & B5 & B6).
  repeat split; congruence.
Qed.

(** The state after the last character of a slot. *)
Lemma slot_done_frame (p : Z) (d : t) :
  bufferPointer d = Some p ->
  slot_done p d =
  set_slot (wrap8 (slot d + 1))
    (set_bufferPointer None (set_charIndex (wrap8 (charIndex d + 1)) d)).
Proof. intros H. unfold slot_done. now rewrite (after_char_frame p d H). Qed.

(** One iteration of the body: what it leaves alone, the one request it
    sends, and the state it leaves through [return] with. *)
Lemma body_facts (fuel : nat) (now : Z) (d d1 : t) (out : list op)
    (fin : bool) :
  loop2_body cfg fuel now d = Some (d1, out, fin) ->
  untouched d d1 /\
  length out = 1%nat /\
  (fin = true -> between_passes cfg d1 /\ lastScrollTime d1 = now).
Proof.
  destruct (bufferPointer d) as [p|] eqn:Hp.
  - rewrite (body_char cfg fuel now d p Hp). cbv zeta.
    rewrite (slot_done_frame p d Hp).
    destruct (_ >=? MAX_CHARACTER_COLS cfg).
    + destruct (_ >=? numCharacterRows d).
      * destruct ((SCROLLMODE cfg =? 2) && negb (noMoreRowsToDisplay d)).
        -- destruct (findNextNonBlankRow cfg fuel _) as [[found dx]|] eqn:Hfind;
             [|discriminate].
           apply find_frame in Hfind. destruct Hfind as (rn & nm & ->).
           intros H. inversion H. split; [|split; [|intros _]]; repeat split.
        -- intros H. inversion H. split; [|split; [|intros _]]; repeat split.
      * intros H. inversion H. split; [|split; [|discriminate]]; repeat split.
    + rewrite (after_char_frame p d Hp). intros H. inversion H.
      split; [|split; [|discriminate]]; repeat split.
  - rewrite (body_stage cfg fuel now d Hp).
    destruct (findNextNonBlankRow cfg fuel (anchored cfg d))
      as [[found dx]|] eqn:Hfind; [|discriminate].
    apply find_frame in Hfind. destruct Hfind as (rn & nm & ->).
    destruct (anchored_frame cfg d) as (rf & ->).
    destruct (staged_frame cfg found
                (set_noMoreRowsToDisplay nm (set_rowNext rn (set_rowFirst rf d))))
      as (buf & ->).
    intros H. inversion H. split; [|split; [|discriminate]]; repeat split.
Qed.

Lemma loop2_do_facts (fuel : nat) (now : Z) (n : nat) :
  forall (d d' : t) (out : list op),
  loop2_do cfg fuel n now d = Some (d', out) ->
  untouched d d' /\
  between_passes cfg d' /\
  lastScrollTime d' = now /\
  (throttled cfg now d = false ->
   loop2_calls cfg fuel (replicate (length out) now) d = Some (d', out)).
Proof.
  induction n as [|n IH]; intros d d' out H; [discriminate|].
  cbn [loop2_do] in H.
  destruct (loop2_body cfg fuel now d) as [[[d1 o1] fin]|] eqn:Hbody;
    [|discriminate].
  destruct (body_facts fuel now d d1 o1 fin Hbody) as (Hu & Hlen & Hfin).
  destruct fin.
  - inversion H; subst. destruct (Hfin eq_refl) as [Hb Ht].
    split; [exact Hu|]. split; [exact Hb|]. split; [exact Ht|].
    intros Hth. rewrite Hlen. cbn [replicate loop2_calls]. unfold loop2.
    now rewrite Hth, Hbody, app_nil_r.
  - destruct (loop2_do cfg fuel n now d1) as [[d2 o2]|] eqn:Hrest;
      [|discriminate].
    inversion H; subst.
    destruct (IH d1 d' o2 Hrest) as (Hu2 & Hb & Ht & Hcalls).
    split; [exact (untouched_trans _ _ _ Hu Hu2)|].
    split; [exact Hb|]. split; [exact Ht|].
    intros Hth. rewrite length_app, Hlen.
    cbn [Nat.add replicate loop2_calls]. unfold loop2 at 1.
    rewrite Hth, Hbody, Hcalls; [reflexivity|].
    rewrite (throttled_time cfg now d1 d); [exact Hth|].
    exact (body_keeps_time cfg fuel now d d1 o1 Hbody).
Qed.

(** The body at another clock value: the time of the last pass apart, it
    does the same. *)
Lemma body_at_clock (fuel : nat) (now later : Z) (d d1 : t) (out : list op)
    (fin : bool) :
  loop2_body cfg fuel now d = Some (d1, out, fin) ->
  loop2_body cfg fuel later d =
  Some (if fin then set_lastScrollTime later d1 else d1, out, fin).
Proof.
  intros Hbody.
  pose proof (body_time cfg fuel now later (lastScrollTime d) d) as H.
  replace (set_lastScrollTime (lastScrollTime d) d) with d in H
    by now destruct d.
  rewrite Hbody in H. rewrite H. destruct fin; [reflexivity|].
  rewrite <- (body_keeps_time cfg fuel now d d1 out Hbody).
  now destruct d1.
Qed.

Lemma loop2_do_sends (fuel : nat) (now : Z) (n : nat) (d d' : t)
    (out : list op) :
  loop2_do cfg fuel n now d = Some (d', out) -> out <> [].
Proof.
  destruct n as [|n]; [discriminate|]. cbn [loop2_do].
  destruct (loop2_body cfg fuel now d) as [[[d1 o1] fin]|] eqn:Hbody;
    [|discriminate].
  destruct (body_facts fuel now d d1 o1 fin Hbody) as (_ & Hlen & _).
  destruct o1 as [|x o1]; [discriminate|].
  destruct fin; [intros H; inversion H; discriminate|].
  destruct (loop2_do cfg fuel n now d1) as [[d2 o2]|]; [|discriminate].
  intros H. inversion H. discriminate.
Qed.

(** The iterations of a forced call, as unforced calls at any clock
    values that are not throttled. *)
Lemma loop2_do_calls (fuel : nat) (now : Z) (n : nat) :
  forall (d d' : t) (out : list op) (nows : list Z),
  loop2_do cfg fuel n now d = Some (d', out) ->
  length nows = length out ->
  Forall (fun later => throttled cfg later d = false) nows ->
  loop2_calls cfg fuel nows d =
  Some (set_lastScrollTime (List.last nows now) d', out).
Proof.
  induction n as [|n IH]; intros d d' out nows H Hlen Hth; [discriminate|].
  cbn [loop2_do] in H.
  destruct (loop2_body cfg fuel now d) as [[[d1 o1] fin]|] eqn:Hbody;
    [|discriminate].
  destruct (body_facts fuel now d d1 o1 fin Hbody) as (_ & Hlen1 & _).
  destruct fin.
  - inversion H; subst. clear H.
    destruct nows as [|later [|]]; cbn [length] in Hlen; try lia.
    apply Forall_cons in Hth. destruct Hth as [Hlater _].
    cbn [loop2_calls List.last]. unfold loop2.
    rewrite Hlater, (body_at_clock fuel now later d d' out true Hbody).
    now rewrite app_nil_r.
  - destruct (loop2_do cfg fuel n now d1) as [[d2 o2]|] eqn:Hrest;
      [|discriminate].
    inversion H; subst. clear H.
    pose proof (loop2_do_sends fuel now n d1 d' o2 Hrest) as Hsent.
    rewrite length_app, Hlen1 in Hlen.
    destruct nows as [|later nows']; cbn [length] in Hlen; [lia|].
    apply Forall_cons in Hth. destruct Hth as [Hlater Hth].
    assert (Hth1 : Forall (fun x => throttled cfg x d1 = false) nows').
    { eapply Forall_impl; [exact Hth|]. intros x Hx. simpl in Hx.
      rewrite (throttled_time cfg x d1 d); [exact Hx|].
      exact (body_keeps_time cfg fuel now d d1 o1 Hbody). }
    cbn [loop2_calls]. unfold loop2 at 1.
    rewrite Hlater, (body_at_clock fuel now later d d1 o1 false Hbody).
    rewrite (IH d1 d' o2 nows' Hrest ltac:(lia) Hth1).
    destruct nows' as [|x nows'']; [|reflexivity].
    destruct o2; [contradiction|discriminate].
Qed.

Lemma force_reset_untouched (d : t) : untouched d (force_reset cfg d).
Proof. repeat split. Qed.

End Passes.

(** X7.  A call of [loop2], forced or not, changes neither the rows nor
    the hot row and column of their writer, nor [topRow] and the
    dimensions taken from the device. *)
Theorem loop2_leaves_the_rows_alone (cfg : config) (fuel : nat) (force : bool)
    (now : Z) (d d' : t) (out : list op) :
  loop2 cfg fuel force now d = Some (d', out) ->
  untouched d d'.
Proof.
  unfold loop2. destruct force.
  - intros H. apply (loop2_do_facts cfg fuel now fuel) in H.
    exact (untouched_trans _ _ _ (force_reset_untouched cfg d) (proj1 H)).
  - destruct (throttled cfg now d).
    + intros H. inversion H. apply untouched_refl.
    + destruct (loop2_body cfg fuel now d) as [[[d1 o1] fin]|] eqn:Hbody;
        [|discriminate].
      intros H. inversion H; subst.
      exact (proj1 (body_facts cfg fuel now d d' out fin Hbody)).
Qed.

Lemma loop2_leaves_the_rows_alone_witness :
  exists d' out,
    loop2 Examples.cfg_row 100 true 0 Examples.five_rows = Some (d', out) /\
    untouched Examples.five_rows d'.
Proof.
  exists (Examples.after_forced_pass Examples.five_rows),
         (Examples.shows ["A"%byte] ["B"%byte]).
  assert (H : loop2 Examples.cfg_row 100 true 0 Examples.five_rows =
              Some (Examples.after_forced_pass Examples.five_rows,
                    Examples.shows ["A"%byte] ["B"%byte]))
    by (vm_compute; reflexivity).
  split; [exact H|].
  exact (loop2_leaves_the_rows_alone Examples.cfg_row 100 true 0
           Examples.five_rows _ _ H).
Defined.

(** X8.  A forced call that returns leaves the display between two
    passes, with the clock value of the call as the time of the last
    pass.  Until [DISPLAY_SCROLL_TIME] has passed on the 32-bit clock,
    unforced calls send nothing and change nothing; the first call after
    that positions slot 0. *)
Theorem after_a_forced_call_the_scroll_time_is_waited (cfg : config)
    (fuel : nat) (now : Z) (d d' : t) (out : list op) :
  loop2 cfg fuel true now d = Some (d', out) ->
  between_passes cfg d' /\
  lastScrollTime d' = now /\
  (forall later,
     (later - now) mod 2 ^ 32 < DISPLAY_SCROLL_TIME cfg ->
     loop2 cfg fuel false later d' = Some (d', [])) /\
  (forall later,
     config_ok cfg ->
     searchable cfg d = true ->
     (Z.to_nat (MAX_CHARACTER_ROWS cfg) < fuel)%nat ->
     DISPLAY_SCROLL_TIME cfg <= (later - now) mod 2 ^ 32 ->
     exists d'', loop2 cfg fuel false later d' = Some (d'', [setRowNative 0])).
Proof.
  intros H. unfold loop2 in H. apply (loop2_do_facts cfg fuel now fuel) in H.
  destruct H as (Hu & Hb & Ht & _).
  apply (untouched_trans _ _ _ (force_reset_untouched cfg d)) in Hu.
  split; [exact Hb|]. split; [exact Ht|]. split.
  - intros later Hl. unfold loop2, throttled. rewrite Ht.
    now replace ((later - now) mod 2 ^ 32 <? DISPLAY_SCROLL_TIME cfg)
      with true by (symmetry; apply Z.ltb_lt; exact Hl).
  - intros later Hcfg Hs Hf Hl.
    assert (Hth : throttled cfg later d' = false).
    { unfold throttled. rewrite Ht. apply Z.ltb_ge. exact Hl. }
    destruct (unforced_returns cfg fuel later d' Hcfg) as [[d'' o] Hrun];
      [|exact Hf|].
    { rewrite <- Hs. apply searchable_rows. apply Hu. }
    exists d''. rewrite Hrun.
    destruct (unforced_requests cfg fuel later d' d'' o Hrun)
      as [(Hth' & _)|[(_ & _ & ->)|(_ & p & Hp & _)]].
    + congruence.
    + destruct Hb as (_ & -> & _). reflexivity.
    + destruct Hb as (Hp' & _). congruence.
Qed.

Lemma after_a_forced_call_the_scroll_time_is_waited_witness :
  loop2 Examples.cfg_row 100 false 2999
    (Examples.after_forced_pass Examples.five_rows) =
    Some (Examples.after_forced_pass Examples.five_rows, []) /\
  exists d'',
    loop2 Examples.cfg_row 100 false 3000
      (Examples.after_forced_pass Examples.five_rows) =
    Some (d'', [setRowNative 0]).
Proof.
  assert (H : loop2 Examples.cfg_row 100 true 0 Examples.five_rows =
              Some (Examples.after_forced_pass Examples.five_rows,
                    Examples.shows ["A"%byte] ["B"%byte]))
    by (vm_compute; reflexivity).
  destruct (after_a_forced_call_the_scroll_time_is_waited
              Examples.cfg_row 100 0 Examples.five_rows _ _ H)
    as (_ & _ & Hwait & Hgo).
  split.
  - apply Hwait. vm_compute. reflexivity.
  - apply Hgo.
    + exact RowBufferFacts.config_ok_cfg_row.
    + vm_compute. reflexivity.
    + simpl. lia.
    + vm_compute. discriminate.
Defined.

(** X9.  A forced call sends what unforced calls send, one request per
    call: started from the state the forced call starts its pass in, as
    many unforced calls as the forced call has sent requests, at
    whatever clock values that are not throttled, send the same requests.
    They end in the state the forced call ends in but for the time of the
    last pass: the forced call leaves its own clock value there, the
    unforced calls the clock value of the last of them. *)
Theorem forced_call_is_a_run_of_unforced_calls (cfg : config) (fuel : nat)
    (now : Z) (d d' : t) (out : list op) (nows : list Z) :
  loop2 cfg fuel true now d = Some (d', out) ->
  length nows = length out ->
  Forall (fun later => throttled cfg later d = false) nows ->
  d' = set_lastScrollTime now d' /\
  loop2_calls cfg fuel nows (force_reset cfg d) =
  Some (set_lastScrollTime (List.last nows now) d', out).
Proof.
  intros H Hlen Hth. unfold loop2 in H. split.
  - apply (loop2_do_facts cfg fuel now fuel) in H.
    destruct H as (_ & _ & Ht & _). destruct d'. simpl in Ht. now subst.
  - apply (loop2_do_calls cfg fuel now fuel); [exact H|exact Hlen|exact Hth].
Qed.

Lemma forced_call_is_a_run_of_unforced_calls_witness :
  loop2 Examples.cfg_row 100 true 5000 Examples.five_rows =
    Some (set_lastScrollTime 5000
            (Examples.after_forced_pass Examples.five_rows),
          Examples.shows ["A"%byte] ["B"%byte]) /\
  loop2_calls Examples.cfg_row 100 (seqZ 6000 42)
    (force_reset Examples.cfg_row Examples.five_rows) =
    Some (set_lastScrollTime 6041
            (Examples.after_forced_pass Examples.five_rows),
          Examples.shows ["A"%byte] ["B"%byte]).
Proof.
  assert (H : loop2 Examples.cfg_row 100 true 5000 Examples.five_rows =
              Some (set_lastScrollTime 5000
                      (Examples.after_forced_pass Examples.five_rows),
                    Examples.shows ["A"%byte] ["B"%byte]))
    by (vm_compute; reflexivity).
  split; [exact H|].
  destruct (forced_call_is_a_run_of_unforced_calls Examples.cfg_row 100 5000
              Examples.five_rows _ _ (seqZ 6000 42) H)
    as [_ Hcalls].
  - vm_compute. reflexivity.
  - assert (Ht : lastScrollTime Examples.five_rows = 0)
      by (vm_compute; reflexivity).
    apply Forall_forall. intros x Hx. apply elem_of_seqZ in Hx.
    unfold throttled. rewrite Ht, Z.sub_0_r.
    change (DISPLAY_SCROLL_TIME Examples.cfg_row) with 3000.
    change (2 ^ 32) with 4294967296.
    rewrite Z.mod_small by lia. apply Z.ltb_ge. lia.
  - rewrite Hcalls. vm_compute. reflexivity.
Defined.

End RenderMore.

(* ===================================================================== *)
(** * What a forced pass shows *)
(* ===================================================================== *)

Module ShownRows.

Import Display RowBufferFacts SearchFacts RenderFacts RowBufferMore RenderMore.

(** ** Texts of rows *)

Lemma text_of_nil (row : list byte) :
  text_of row = [] <-> nonzero (at_index row 0) = false.
Proof.
  destruct row as [|b row]; [split; reflexivity|].
  change (at_index (b :: row) 0) with b. cbn [text_of].
  destruct (nonzero b); split; intros H; first [discriminate H|reflexivity].
Qed.

Lemma nonblank_texts_cons (row : list byte) (rows : list (list byte)) :
  nonblank_texts (row :: rows) =
  if nonzero (at_index row 0) then text_of row :: nonblank_texts rows
  else nonblank_texts rows.
Proof.
  unfold nonblank_texts. cbn [map]. rewrite filter_cons.
  pose proof (text_of_nil row) as H.
  destruct (nonzero (at_index row 0)); case_decide; try reflexivity.
  - exfalso. assert (true = false) by tauto. discriminate.
  - exfalso. tauto.
Qed.

Section Texts.

Context (d : t).

Lemma drop_row (c : nat) :
  (c < length (rowBuffer d))%nat ->
  drop c (rowBuffer d) = rowBuffer d !!! c :: drop (S c) (rowBuffer d).
Proof.
  intros H. apply drop_S. now apply list_lookup_lookup_total_lt.
Qed.

Lemma blank_at_row (c : nat) :
  blank_at d (Z.of_nat c) <-> nonzero (at_index (rowBuffer d !!! c) 0) = false.
Proof. unfold blank_at, cell. now rewrite Nat2Z.id. Qed.

(** From a row on, either every row is blank or there is a first
    non-blank one. *)
Lemma blank_or_first_text (k : nat) : forall c : nat,
  (c + k = length (rowBuffer d))%nat ->
  (forall i, Z.of_nat c <= i < Z.of_nat (length (rowBuffer d)) -> blank_at d i) \/
  exists j : nat,
    (c <= j < length (rowBuffer d))%nat /\
    (forall i, Z.of_nat c <= i < Z.of_nat j -> blank_at d i) /\
    ~ blank_at d (Z.of_nat j).
Proof.
  induction k as [|k IH]; intros c Hk.
  - left. intros i Hi. lia.
  - destruct (nonzero (cell (rowBuffer d) (Z.of_nat c) 0)) eqn:Hc.
    + right. exists c. split; [lia|]. split; [intros i Hi; lia|].
      unfold blank_at. congruence.
    + destruct (IH (S c) ltac:(lia)) as [Hall|(j & Hj & Hbelow & Hnb)].
      * left. intros i Hi. destruct (Z.eq_dec i (Z.of_nat c)) as [->|Hne];
          [exact Hc|apply Hall; lia].
      * right. exists j. split; [lia|]. split; [|exact Hnb].
        intros i Hi. destruct (Z.eq_dec i (Z.of_nat c)) as [->|Hne];
          [exact Hc|apply Hbelow; lia].
Qed.

Lemma texts_of_blank_rows (k : nat) : forall c : nat,
  (c + k = length (rowBuffer d))%nat ->
  (forall i, Z.of_nat c <= i < Z.of_nat (length (rowBuffer d)) -> blank_at d i) ->
  nonblank_texts (drop c (rowBuffer d)) = [].
Proof.
  induction k as [|k IH]; intros c Hk Hall.
  - now rewrite drop_ge by lia.
  - rewrite drop_row, nonblank_texts_cons by lia.
    rewrite (proj1 (blank_at_row c)) by (apply Hall; lia).
    apply IH; [lia|]. intros i Hi. apply Hall. lia.
Qed.

Lemma texts_from_first_text (k : nat) : forall c j : nat,
  (c + k = j)%nat ->
  (j < length (rowBuffer d))%nat ->
  (forall i, Z.of_nat c <= i < Z.of_nat j -> blank_at d i) ->
  ~ blank_at d (Z.of_nat j) ->
  nonblank_texts (drop c (rowBuffer d)) =
  text_of (rowBuffer d !!! j) :: nonblank_texts (drop (S j) (rowBuffer d)).
Proof.
  induction k as [|k IH]; intros c j Hk Hj Hbelow Hnb.
  - assert (c = j) as -> by lia.
    rewrite drop_row, nonblank_texts_cons by lia.
    rewrite blank_at_row in Hnb.
    now destruct (nonzero (at_index (rowBuffer d !!! j) 0)).
  - rewrite drop_row, nonblank_texts_cons by lia.
    rewrite (proj1 (blank_at_row c)) by (apply Hbelow; lia).
    apply (IH (S c) j); try assumption; [lia|].
    intros i Hi. apply Hbelow. lia.
Qed.

End Texts.

Lemma text_of_blank_line (buf : list byte) :
  text_of (store_index buf 0 x00) = [].
Proof. destruct buf; reflexivity. Qed.

Lemma first_lines_step (m : nat) (text : list byte) (l : list (list byte)) :
  first_lines (S m) (text :: l) = text :: first_lines m l.
Proof. reflexivity. Qed.

Lemma first_lines_blank (m : nat) :
  first_lines (S m) [] = [] :: first_lines m [].
Proof. reflexivity. Qed.

(** ** The copy of a row into the line buffer *)

Lemma copy_loop_lookup (row : list byte) (n : nat) :
  forall (i : Z) (buf : list byte) (k : nat),
  0 <= i ->
  copy_loop n i row buf !! k =
  if decide ((Z.to_nat i <= k < Z.to_nat i + n)%nat /\ (k < length buf)%nat)
  then Some (row !!! k) else buf !! k.
Proof.
  induction n as [|n IH]; intros i buf k Hi.
  - cbn [copy_loop]. case_decide; [lia|reflexivity].
  - cbn [copy_loop]. rewrite IH by lia. unfold store_index, at_index.
    rewrite length_insert.
    replace (Z.to_nat (i + 1)) with (S (Z.to_nat i)) by lia.
    destruct (decide (Z.to_nat i = k)) as [<-|Hne].
    + repeat case_decide; try lia; try reflexivity.
      * now apply list_lookup_insert_eq.
      * rewrite !lookup_ge_None_2 by (rewrite ?length_insert; lia).
        reflexivity.
    + rewrite list_lookup_insert_ne by exact Hne.
      repeat case_decide; try lia; reflexivity.
Qed.

Lemma copy_row_eq (cfg : config) (row buf : list byte) :
  length row = Z.to_nat (MAX_CHARACTER_COLS cfg + 1) ->
  length buf = Z.to_nat (MAX_CHARACTER_COLS cfg + 1) ->
  copy_row cfg row buf = row.
Proof.
  intros Hr Hb. unfold copy_row. apply list_eq. intros k.
  rewrite copy_loop_lookup by lia. case_decide as Hk.
  - symmetry. apply list_lookup_lookup_total_lt. lia.
  - rewrite !lookup_ge_None_2 by lia. reflexivity.
Qed.

(** ** The row search, exactly *)

Section Exact.

Context (cfg : config) (Hcfg : config_ok cfg).

Lemma find_done (fuel : nat) (d : t) :
  noMoreRowsToDisplay d = true ->
  findNextNonBlankRow cfg (S fuel) d = Some (false, d).
Proof. intros H. now rewrite find_unfold, H. Qed.

(** The search stops at the first non-blank row after [rowNext] when it
    does not come by [rowFirst] before. *)
Lemma find_hit (m : nat) : forall (fuel : nat) (d : t) (v : Z),
  noMoreRowsToDisplay d = false ->
  step_row cfg (rowNext d) = v ->
  0 <= v ->
  v + Z.of_nat m < MAX_CHARACTER_ROWS cfg ->
  (forall i, v <= i < v + Z.of_nat m -> blank_at d i) ->
  ~ blank_at d (v + Z.of_nat m) ->
  (SCROLLMODE cfg <> 1 ->
   forall i, v <= i <= v + Z.of_nat m -> i <> rowFirst d) ->
  (m < fuel)%nat ->
  findNextNonBlankRow cfg fuel d =
  Some (true, set_rowNext (v + Z.of_nat m) d).
Proof.
  induction m as [|m IH]; intros fuel d v Hnm Hv H0 HR Hblank Hnb Hrf Hfuel;
    (destruct fuel as [|fuel]; [lia|]);
    rewrite find_unfold, Hnm; cbv zeta.
  - replace (v + Z.of_nat 0) with v in * by lia.
    assert (Hcell : nonzero (cell (rowBuffer d) v 0) = true).
    { unfold blank_at in Hnb. now destruct (nonzero _). }
    destruct (Z.eqb_spec (SCROLLMODE cfg) 1) as [Hmode|Hmode].
    + rewrite Hv.
      replace (v >=? MAX_CHARACTER_ROWS cfg) with false
        by (symmetry; rewrite Z.geb_leb; apply Z.leb_gt; lia).
      now rewrite Hcell.
    + assert (Hw : wrap_row cfg (rowNext d) = v).
      { unfold wrap_row. rewrite Hv.
        replace (v >=? MAX_CHARACTER_ROWS cfg) with false
          by (symmetry; rewrite Z.geb_leb; apply Z.leb_gt; lia).
        reflexivity. }
      rewrite Hw.
      destruct (Z.eqb_spec v (rowFirst d)) as [He|_];
        [exfalso; apply (Hrf Hmode v); [lia|exact He]|].
      now rewrite Hcell.
  - assert (Hcell : nonzero (cell (rowBuffer d) v 0) = false).
    { apply Hblank. lia. }
    assert (Hnext :
      findNextNonBlankRow cfg fuel (set_rowNext v d) =
      Some (true, set_rowNext (v + Z.of_nat (S m)) d)).
    { replace (v + Z.of_nat (S m)) with (v + 1 + Z.of_nat m) in * by lia.
      apply (IH fuel (set_rowNext v d) (v + 1)); try assumption; try lia.
      - cbn [rowNext set_rowNext]. apply (step_row_valid cfg Hcfg). lia.
      - intros i Hi. apply (Hblank i). lia.
      - intros Hmode i Hi. apply (Hrf Hmode i). lia. }
    destruct (Z.eqb_spec (SCROLLMODE cfg) 1) as [Hmode|Hmode].
    + rewrite Hv.
      replace (v >=? MAX_CHARACTER_ROWS cfg) with false
        by (symmetry; rewrite Z.geb_leb; apply Z.leb_gt; lia).
      now rewrite Hcell.
    + assert (Hw : wrap_row cfg (rowNext d) = v).
      { unfold wrap_row. rewrite Hv.
        replace (v >=? MAX_CHARACTER_ROWS cfg) with false
          by (symmetry; rewrite Z.geb_leb; apply Z.leb_gt; lia).
        reflexivity. }
      rewrite Hw.
      destruct (Z.eqb_spec v (rowFirst d)) as [He|_];
        [exfalso; apply (Hrf Hmode v); [lia|exact He]|].
      now rewrite Hcell.
Qed.

(** Under the page policy the search gives up behind the last row. *)
Lemma find_miss_page (k : nat) : forall (fuel : nat) (d : t) (v : Z),
  SCROLLMODE cfg = 1 ->
  noMoreRowsToDisplay d = false ->
  step_row cfg (rowNext d) = v ->
  0 <= v ->
  v + Z.of_nat k = MAX_CHARACTER_ROWS cfg ->
  (forall i, v <= i < MAX_CHARACTER_ROWS cfg -> blank_at d i) ->
  (k < fuel)%nat ->
  findNextNonBlankRow cfg fuel d =
  Some (false, set_noMoreRowsToDisplay true (set_rowNext (ROW_INITIAL cfg) d)).
Proof.
  induction k as [|k IH]; intros fuel d v Hmode Hnm Hv H0 HR Hblank Hfuel;
    (destruct fuel as [|fuel]; [lia|]);
    rewrite find_unfold, Hnm, Hmode; cbv zeta; rewrite Hv;
    change (1 =? 1) with true; cbv iota.
  - replace (v >=? MAX_CHARACTER_ROWS cfg) with true
      by (symmetry; rewrite Z.geb_leb; apply Z.leb_le; lia).
    reflexivity.
  - replace (v >=? MAX_CHARACTER_ROWS cfg) with false
      by (symmetry; rewrite Z.geb_leb; apply Z.leb_gt; lia).
    rewrite (Hblank v) by lia.
    apply (IH fuel (set_rowNext v d) (v + 1)); try assumption; try lia.
    + cbn [rowNext set_rowNext]. apply (step_row_valid cfg Hcfg). lia.
    + intros i Hi. apply (Hblank i). lia.
Qed.

(** Under the other policies it gives up when it comes by [rowFirst]. *)
Lemma find_miss_wrap (m : nat) : forall (fuel : nat) (d : t) (v : Z),
  SCROLLMODE cfg <> 1 ->
  noMoreRowsToDisplay d = false ->
  wrap_row cfg (rowNext d) = v ->
  0 <= v < MAX_CHARACTER_ROWS cfg ->
  (forall i, 0 <= i < Z.of_nat m ->
     blank_at d ((v + i) mod MAX_CHARACTER_ROWS cfg) /\
     (v + i) mod MAX_CHARACTER_ROWS cfg <> rowFirst d) ->
  (v + Z.of_nat m) mod MAX_CHARACTER_ROWS cfg = rowFirst d ->
  (m < fuel)%nat ->
  findNextNonBlankRow cfg fuel d =
  Some (false, set_noMoreRowsToDisplay true (set_rowNext (rowFirst d) d)).
Proof.
  induction m as [|m IH]; intros fuel d v Hmode Hnm Hv HR Hblank Hend Hfuel;
    (destruct fuel as [|fuel]; [lia|]);
    rewrite find_unfold, Hnm; cbv zeta; rewrite Hv;
    (destruct (Z.eqb_spec (SCROLLMODE cfg) 1) as [|_]; [contradiction|]).
  - rewrite Z.add_0_r, Z.mod_small in Hend by lia.
    rewrite <- Hend, Z.eqb_refl. reflexivity.
  - destruct (Hblank 0 ltac:(lia)) as [Hb Hne].
    rewrite Z.add_0_r, Z.mod_small in Hb, Hne by lia.
    destruct (Z.eqb_spec v (rowFirst d)) as [|_]; [contradiction|].
    rewrite Hb.
    apply (IH fuel (set_rowNext v d)
             ((v + 1) mod MAX_CHARACTER_ROWS cfg)); try assumption; try lia.
    + cbn [rowNext set_rowNext]. now apply (wrap_row_valid cfg Hcfg).
    + apply Z.mod_pos_bound. lia.
    + intros i Hi. rewrite Zplus_mod_idemp_l.
      replace (v + 1 + i) with (v + (i + 1)) by lia.
      apply (Hblank (i + 1)). lia.
    + cbn [rowFirst set_rowNext]. rewrite Zplus_mod_idemp_l, <- Hend.
      f_equal. lia.
Qed.

End Exact.

(** ** The row search within a forced pass *)

Section Slots.

Context (cfg : config) (Hcfg : config_ok cfg).

Lemma anchored_first (d : t) :
  anchored cfg d =
  set_rowFirst
    (if rowFirst d =? ROW_INITIAL cfg then rowNext d else rowFirst d) d.
Proof.
  unfold anchored. destruct (rowFirst d =? ROW_INITIAL cfg); [reflexivity|].
  now destruct d.
Qed.

Lemma step_cursor (c : nat) :
  Z.of_nat c <= MAX_CHARACTER_ROWS cfg ->
  step_row cfg (cursor_row cfg c) = Z.of_nat c.
Proof.
  intros Hc. destruct c as [|c]; cbn [cursor_row].
  - unfold step_row. now rewrite Z.eqb_refl.
  - rewrite (step_row_valid cfg Hcfg) by lia. lia.
Qed.

Lemma mod_second_round (a R : Z) : R <= a < 2 * R -> a mod R = a - R.
Proof.
  intros H. replace a with (a - R + 1 * R) at 1 by lia.
  rewrite Z_mod_plus_full. apply Z.mod_small. lia.
Qed.

Lemma blank_rows_not_searchable (d : t) :
  SCROLLMODE cfg <> 1 ->
  (forall i, 0 <= i < MAX_CHARACTER_ROWS cfg -> blank_at d i) ->
  searchable cfg d = false.
Proof.
  intros Hmode Hall. unfold searchable.
  destruct (Z.eqb_spec (SCROLLMODE cfg) 1) as [|_]; [contradiction|].
  cbn [orb]. unfold some_row_nonblank.
  destruct (existsb _ _) eqn:E; [|reflexivity].
  apply existsb_exists in E. destruct E as (i & Hin & Hi).
  apply list_elem_of_In, elem_of_seqZ in Hin.
  unfold row_nonblank in Hi. rewrite (Hall i) in Hi by lia. discriminate.
Qed.

Lemma search_state_ext (d1 d2 : t) (c : nat) :
  same_search d1 d2 -> search_state cfg d1 c -> search_state cfg d2 c.
Proof.
  intros (Hrb & Hrn & Hrf & Hnm). unfold search_state, blank_at.
  now rewrite Hrb, Hrn, Hrf, Hnm.
Qed.

Lemma staged_same_search (found : bool) (d : t) :
  same_search d (staged cfg found d).
Proof. unfold same_search, staged. destruct found; repeat split. Qed.

(** The search at the head of a slot: what it finds is the next text of
    the non-blank rows, or a blank line when they are used up. *)
Lemma search_step (fuel : nat) (d : t) (c : nat) :
  shape cfg d ->
  searchable cfg d = true ->
  (Z.to_nat (MAX_CHARACTER_ROWS cfg) < fuel)%nat ->
  search_state cfg d c ->
  exists (found : bool) (df : t) (c' : nat),
    findNextNonBlankRow cfg fuel (anchored cfg d) = Some (found, df) /\
    (forall m,
       first_lines (S m) (nonblank_texts (drop c (rowBuffer d))) =
       text_of (buffer (staged cfg found df)) ::
       first_lines m (nonblank_texts (drop c' (rowBuffer d)))) /\
    search_state cfg df c' /\
    rowBuffer df = rowBuffer d /\
    length (buffer (staged cfg found df)) =
      Z.to_nat (MAX_CHARACTER_COLS cfg + 1).
Proof.
  intros (Hrows & Hrow & Hbuf) Hs Hfuel Hstate.
  assert (HR : 1 <= MAX_CHARACTER_ROWS cfg <= 255) by apply Hcfg.
  assert (HI : MAX_CHARACTER_ROWS cfg <= ROW_INITIAL cfg <= 255)
    by apply Hcfg.
  rewrite anchored_first.
  set (rf := if rowFirst d =? ROW_INITIAL cfg then rowNext d else rowFirst d).
  destruct Hstate as [(Hnm & Hrest)|(Hnm & Hc & Hrn & Hanchor)].
  - (* the search has given up *)
    destruct fuel as [|fuel]; [lia|].
    exists false, (set_rowFirst rf d), c.
    split; [now apply find_done|].
    split.
    { intros m. rewrite Hrest. unfold staged.
      cbn [buffer set_buffer set_charIndex set_bufferPointer set_rowFirst].
      now rewrite text_of_blank_line. }
    split; [left; split; [exact Hnm|exact Hrest]|].
    split; [reflexivity|].
    unfold staged, store_index.
    cbn [buffer set_buffer set_charIndex set_bufferPointer set_rowFirst].
    now rewrite length_insert.
  - destruct (blank_or_first_text d (length (rowBuffer d) - c) c)
      as [Hall|(j & Hj & Hbelow & Hnb)]; [lia| |].
    + (* no text from the row [c] on *)
      assert (Hnone : nonblank_texts (drop c (rowBuffer d)) = []).
      { apply (texts_of_blank_rows d (length (rowBuffer d) - c));
          [lia|exact Hall]. }
      destruct (Z.eq_dec (SCROLLMODE cfg) 1) as [Hmode|Hmode].
      * exists false,
          (set_noMoreRowsToDisplay true
             (set_rowNext (ROW_INITIAL cfg) (set_rowFirst rf d))), c.
        split.
        { apply (find_miss_page cfg Hcfg (length (rowBuffer d) - c) fuel
                   (set_rowFirst rf d) (Z.of_nat c)); try assumption;
            try lia.
          - cbn [rowNext set_rowFirst]. rewrite Hrn. apply step_cursor. lia.
          - intros i Hi. apply Hall. lia. }
        split.
        { intros m. rewrite Hnone. unfold staged.
          cbn [buffer set_buffer set_charIndex set_bufferPointer set_rowFirst
               set_rowNext set_noMoreRowsToDisplay].
          now rewrite text_of_blank_line. }
        split; [left; split; [reflexivity|exact Hnone]|].
        split; [reflexivity|].
        unfold staged, store_index.
        cbn [buffer set_buffer set_charIndex set_bufferPointer set_rowFirst
             set_rowNext set_noMoreRowsToDisplay].
        now rewrite length_insert.
      * destruct (Hanchor Hmode) as [(-> & Hrf)|(r0 & Hr0 & Hlow & Hrf)].
        { exfalso. rewrite (blank_rows_not_searchable d Hmode) in Hs;
            [discriminate|].
          intros i Hi. apply Hall. lia. }
        assert (Hrf' : rf = r0).
        { unfold rf. destruct Hrf as [Hrf|(Hrf & Hrn')].
          - rewrite Hrf. destruct (Z.eqb_spec r0 (ROW_INITIAL cfg)); [lia|].
            reflexivity.
          - rewrite Hrf, Z.eqb_refl. exact Hrn'. }
        rewrite Hrf'.
        assert (Hc1 : cursor_row cfg c = Z.of_nat c - 1).
        { destruct c as [|c']; [lia|]. cbn [cursor_row]. lia. }
        exists false,
          (set_noMoreRowsToDisplay true
             (set_rowNext r0 (set_rowFirst r0 d))), c.
        split.
        { apply (find_miss_wrap cfg Hcfg
                   (Z.to_nat (MAX_CHARACTER_ROWS cfg - Z.of_nat c + r0)) fuel
                   (set_rowFirst r0 d)
                   (Z.of_nat c mod MAX_CHARACTER_ROWS cfg));
            try assumption; try lia.
          - cbn [rowNext set_rowFirst]. rewrite Hrn, Hc1.
            rewrite (wrap_row_valid cfg Hcfg) by lia. f_equal. lia.
          - apply Z.mod_pos_bound. lia.
          - intros i Hi. cbn [rowFirst set_rowFirst]. rewrite Zplus_mod_idemp_l.
            destruct (Z_lt_le_dec (Z.of_nat c + i) (MAX_CHARACTER_ROWS cfg)).
            + rewrite Z.mod_small by lia. split; [apply Hall; lia|lia].
            + rewrite mod_second_round by lia. split; [apply Hlow; lia|lia].
          - cbn [rowFirst set_rowFirst]. rewrite Zplus_mod_idemp_l.
            rewrite mod_second_round by lia. lia. }
        split.
        { intros m. rewrite Hnone. unfold staged.
          cbn [buffer set_buffer set_charIndex set_bufferPointer set_rowFirst
               set_rowNext set_noMoreRowsToDisplay].
          now rewrite text_of_blank_line. }
        split; [left; split; [reflexivity|exact Hnone]|].
        split; [reflexivity|].
        unfold staged, store_index.
        cbn [buffer set_buffer set_charIndex set_bufferPointer set_rowFirst
             set_rowNext set_noMoreRowsToDisplay].
        now rewrite length_insert.
    + (* the row [j] is the first one with a text *)
      exists true, (set_rowNext (Z.of_nat j) (set_rowFirst rf d)), (S j).
      assert (Hcopy :
        buffer (staged cfg true
                  (set_rowNext (Z.of_nat j) (set_rowFirst rf d))) =
        rowBuffer d !!! j).
      { unfold staged.
        cbn [buffer set_buffer set_charIndex set_bufferPointer set_rowFirst
             set_rowNext rowBuffer rowNext].
        rewrite Nat2Z.id. apply copy_row_eq; [|exact Hbuf].
        rewrite Forall_forall in Hrow. apply Hrow.
        apply list_elem_of_lookup_total_2. lia. }
      split.
      { replace (Z.of_nat j) with (Z.of_nat c + Z.of_nat (j - c)) by lia.
        apply (find_hit cfg Hcfg (j - c) fuel (set_rowFirst rf d)
                 (Z.of_nat c)); try assumption; try lia.
        - cbn [rowNext set_rowFirst]. rewrite Hrn. apply step_cursor. lia.
        - intros i Hi. apply Hbelow. lia.
        - replace (Z.of_nat c + Z.of_nat (j - c)) with (Z.of_nat j) by lia.
          exact Hnb.
        - intros Hmode i Hi. cbn [rowFirst set_rowFirst]. unfold rf.
          destruct (Hanchor Hmode) as [(-> & Hrf)|(r0 & Hr0 & Hlow & Hrf)].
          + rewrite Hrf, Z.eqb_refl, Hrn. cbn [cursor_row]. lia.
          + destruct Hrf as [Hrf|(Hrf & Hrn')].
            * rewrite Hrf.
              destruct (Z.eqb_spec r0 (ROW_INITIAL cfg)); lia.
            * rewrite Hrf, Z.eqb_refl, Hrn'. lia. }
      split.
      { intros m. rewrite Hcopy.
        rewrite (texts_from_first_text d (j - c) c j); try assumption;
          try lia.
        reflexivity. }
      split.
      { right. cbn [noMoreRowsToDisplay rowBuffer rowNext rowFirst
                    set_rowNext set_rowFirst cursor_row].
        split; [exact Hnm|]. split; [lia|]. split; [reflexivity|].
        intros Hmode. right.
        destruct (Hanchor Hmode) as [(-> & Hrf)|(r0 & Hr0 & Hlow & Hrf)].
        - exists (Z.of_nat j). split; [lia|].
          split; [intros i Hi; apply Hbelow; lia|].
          right. split; [|reflexivity].
          unfold rf. now rewrite Hrf, Z.eqb_refl, Hrn.
        - exists r0. split; [lia|]. split; [exact Hlow|]. left.
          unfold rf. destruct Hrf as [Hrf|(Hrf & Hrn')].
          + rewrite Hrf. destruct (Z.eqb_spec r0 (ROW_INITIAL cfg)); [lia|].
            reflexivity.
          + rewrite Hrf, Z.eqb_refl. exact Hrn'. }
      split; [reflexivity|].
      rewrite Hcopy. rewrite Forall_forall in Hrow. apply Hrow.
      apply list_elem_of_lookup_total_2. lia.
Qed.

End Slots.

(** ** The slots of a forced pass *)

Section Pass.

Context (cfg : config) (Hcfg : config_ok cfg).

(** One slot of a forced pass whose search is known: the requests, and
    either the end of the pass or the state at the next slot. *)
Lemma slot_exact (fuel : nat) (now : Z) (d : t) (n : nat) (found : bool)
    (df : t) :
  searchable cfg d = true ->
  (Z.to_nat (MAX_CHARACTER_ROWS cfg) < fuel)%nat ->
  bufferPointer d = None ->
  findNextNonBlankRow cfg fuel (anchored cfg d) = Some (found, df) ->
  let line := slot_requests (slot d)
                (pad (Z.to_nat (MAX_CHARACTER_COLS cfg))
                     (text_of (buffer (staged cfg found df)))) in
  if wrap8 (slot d + 1) >=? numCharacterRows d then
    exists d2,
      loop2_do cfg fuel (S (Z.to_nat (MAX_CHARACTER_COLS cfg)) + n) now d =
      Some (d2, line)
  else
    exists d2,
      same_search df d2 /\
      buffer d2 = buffer (staged cfg found df) /\
      bufferPointer d2 = None /\
      numCharacterRows d2 = numCharacterRows d /\
      slot d2 = wrap8 (slot d + 1) /\
      loop2_do cfg fuel (S (Z.to_nat (MAX_CHARACTER_COLS cfg)) + n) now d =
      match loop2_do cfg fuel n now d2 with
      | Some (d3, out) => Some (d3, line ++ out)
      | None => None
      end.
Proof.
  intros Hs Hf Hp Hfind.
  assert (HC : 1 <= MAX_CHARACTER_COLS cfg <= 254) by apply Hcfg.
  set (k := Z.to_nat (MAX_CHARACTER_COLS cfg - 1)).
  destruct (slot_front cfg fuel now (replicate k now) d Hcfg Hs Hf Hp)
    as (d1 & buf & Hd1 & Hrb & Hnr & Hsl & Hti & Hbody & Hsteps).
  { rewrite length_replicate. lia. }
  rewrite length_replicate in Hsteps.
  assert (Hst : staged cfg found df = d1).
  { rewrite (body_stage cfg fuel now d Hp), Hfind in Hbody.
    now injection Hbody. }
  assert (Hbp1 : bufferPointer d1 = Some 0) by now rewrite Hd1.
  assert (Hci1 : charIndex d1 = 0) by now rewrite Hd1.
  assert (Hbuf1 : buffer d1 = buf) by now rewrite Hd1.
  set (d1a := after_chars k 0 d1) in *.
  set (pk := pointer_after k buf 0).
  assert (Hframe : d1a = set_charIndex (Z.of_nat k)
                           (set_bufferPointer (Some pk) d1)).
  { unfold d1a, pk. rewrite (after_chars_frame k 0 d1 Hbp1)
      by (rewrite Hci1; lia).
    now rewrite Hci1, Hbuf1. }
  assert (Hp1a : bufferPointer d1a = Some pk) by now rewrite Hframe.
  assert (Hci1a : charIndex d1a = MAX_CHARACTER_COLS cfg - 1).
  { rewrite Hframe. cbn [charIndex set_charIndex]. lia. }
  assert (Hslot1a : slot d1a = slot d) by now rewrite Hframe.
  assert (Hnr1a : numCharacterRows d1a = numCharacterRows d)
    by now rewrite Hframe.
  assert (Hfront : steps cfg fuel (replicate (S k) now) d =
            Some (d1a, setRowNative (slot d) ::
                       map writeNative (line_image k buf 0))).
  { cbn [replicate steps]. now rewrite Hbody, Hsteps. }
  assert (Hline : forall c,
            (setRowNative (slot d) :: map writeNative (line_image k buf 0)) ++
            [writeNative (shown (at_index (buffer d1a) pk))] ++ c =
            slot_requests (slot d)
              (pad (Z.to_nat (MAX_CHARACTER_COLS cfg)) (text_of buf)) ++ c).
  { intros c. unfold slot_requests, pk.
    replace (buffer d1a) with buf by now rewrite Hframe.
    replace (Z.to_nat (MAX_CHARACTER_COLS cfg)) with (S k) by (unfold k; lia).
    rewrite <- (line_image_text (S k) buf), line_image_snoc, map_app.
    cbn [map app]. now rewrite <- app_assoc. }
  cbv zeta. rewrite Hst, Hbuf1.
  replace (S (Z.to_nat (MAX_CHARACTER_COLS cfg)) + n)%nat
    with (S k + S n)%nat by (unfold k; lia).
  rewrite (loop2_do_steps cfg fuel now (S k) d d1a _ (S n) Hfront).
  cbn [loop2_do].
  destruct (wrap8 (slot d + 1) >=? numCharacterRows d) eqn:Hflag.
  - destruct (body_last cfg fuel now d1a pk Hcfg)
      as (d2 & Hlast & _); try assumption.
    { rewrite <- Hs. apply searchable_rows. now rewrite Hframe. }
    rewrite Hslot1a, Hnr1a, Hflag in Hlast. rewrite Hlast.
    exists d2. rewrite <- (app_nil_r (slot_requests _ _)), <- Hline.
    reflexivity.
  - assert (Hlast : loop2_body cfg fuel now d1a =
              Some (slot_done pk d1a,
                    [writeNative (shown (at_index (buffer d1a) pk))], false)).
    { rewrite (body_char cfg fuel now d1a pk Hp1a). cbv zeta.
      rewrite Hci1a, Hslot1a, Hnr1a, Hflag. unfold wrap8 at 1.
      replace (MAX_CHARACTER_COLS cfg - 1 + 1) with (MAX_CHARACTER_COLS cfg)
        by lia.
      rewrite Z.mod_small by lia.
      replace (MAX_CHARACTER_COLS cfg >=? MAX_CHARACTER_COLS cfg) with true
        by (symmetry; rewrite Z.geb_leb; apply Z.leb_refl).
      reflexivity. }
    rewrite Hlast. exists (slot_done pk d1a).
    rewrite (slot_done_frame pk d1a Hp1a), Hslot1a.
    split.
    { rewrite Hframe, <- Hst. unfold same_search, staged.
      destruct found; repeat split. }
    split; [rewrite Hframe, <- Hbuf1; reflexivity|].
    split; [reflexivity|].
    split; [rewrite Hframe; exact Hnr|].
    split; [reflexivity|].
    match goal with
    | |- context [loop2_do cfg fuel n now ?x] =>
        destruct (loop2_do cfg fuel n now x) as [[d3 o3]|]
    end; [|reflexivity].
    now rewrite <- Hline.
Qed.

(** The slots from the current one to the last one of the device show
    the texts of the non-blank rows that the search has not come to yet,
    in the order of the rows, then blank lines. *)
Lemma pass_shown (fuel : nat) (now : Z) (m : nat) :
  forall (d : t) (c n : nat),
  shape cfg d ->
  searchable cfg d = true ->
  (Z.to_nat (MAX_CHARACTER_ROWS cfg) < fuel)%nat ->
  bufferPointer d = None ->
  0 <= slot d ->
  slot d + Z.of_nat (S m) = numCharacterRows d ->
  numCharacterRows d <= 255 ->
  (S m * S (Z.to_nat (MAX_CHARACTER_COLS cfg)) <= n)%nat ->
  search_state cfg d c ->
  exists d',
    loop2_do cfg fuel n now d =
    Some (d', pass_requests (Z.to_nat (MAX_CHARACTER_COLS cfg)) (slot d)
                (first_lines (S m) (nonblank_texts (drop c (rowBuffer d))))).
Proof.
  induction m as [|m IH]; intros d c n Hsh Hs Hf Hp H0 Hm HV Hn Hstate;
    destruct (search_step cfg Hcfg fuel d c Hsh Hs Hf Hstate)
      as (found & df & c' & Hfind & Htexts & Hstate' & Hrb & Hlen);
    set (n' := (n - S (Z.to_nat (MAX_CHARACTER_COLS cfg)))%nat);
    pose proof (slot_exact fuel now d n' found df Hs Hf Hp Hfind) as Hrun;
    cbv zeta in Hrun; unfold wrap8 in Hrun;
    rewrite Z.mod_small in Hrun by lia;
    replace (S (Z.to_nat (MAX_CHARACTER_COLS cfg)) + n')%nat with n in Hrun
      by (unfold n'; lia);
    rewrite Htexts.
  - replace (slot d + 1 >=? numCharacterRows d) with true in Hrun
      by (symmetry; rewrite Z.geb_leb; apply Z.leb_le; lia).
    destruct Hrun as (d2 & Hrun). exists d2.
    cbn [pass_requests first_lines]. now rewrite app_nil_r.
  - replace (slot d + 1 >=? numCharacterRows d) with false in Hrun
      by (symmetry; rewrite Z.geb_leb; apply Z.leb_gt; lia).
    destruct Hrun as (d2 & Hsame & Hbuf2 & Hp2 & Hnr2 & Hslot2 & Hrun).
    assert (Hrb2 : rowBuffer d2 = rowBuffer d).
    { destruct Hsame as (-> & _). exact Hrb. }
    assert (Hn' : (S m * S (Z.to_nat (MAX_CHARACTER_COLS cfg)) <= n')%nat).
    { unfold n'. rewrite (Nat.mul_succ_l (S m)) in Hn. lia. }
    destruct (IH d2 c' n') as (d' & Hrest);
      rewrite ?Hslot2, ?Hnr2; try assumption; try lia.
    { destruct Hsh as (Hrows & Hrow & _). unfold shape.
      rewrite Hrb2, Hbuf2. repeat split; assumption. }
    { rewrite <- Hs. now apply searchable_rows. }
    { now apply (search_state_ext cfg df). }
    exists d'. rewrite Hrun, Hrest, Hslot2, Hrb2.
    cbn [pass_requests]. reflexivity.
Qed.

End Pass.

(** X10.  On a display with its arrays at their declared sizes whose row
    search has an end, a forced call returns after it has shown, slot by
    slot from slot 0, the texts of the non-blank rows in the order of the
    rows, each cut or filled with spaces to [MAX_CHARACTER_COLS]
    characters, and blank lines in the slots that are left when the device
    has more rows than there are texts. *)
Theorem forced_call_shows_the_nonblank_rows (cfg : config) (fuel : nat)
    (now : Z) (d : t) :
  config_ok cfg ->
  shape cfg d ->
  searchable cfg d = true ->
  1 <= numCharacterRows d <= 255 ->
  (Z.to_nat (MAX_CHARACTER_ROWS cfg) < fuel)%nat ->
  (Z.to_nat (numCharacterRows d) * S (Z.to_nat (MAX_CHARACTER_COLS cfg))
   <= fuel)%nat ->
  exists d',
    loop2 cfg fuel true now d =
    Some (d', pass_requests (Z.to_nat (MAX_CHARACTER_COLS cfg)) 0
                (first_lines (Z.to_nat (numCharacterRows d))
                   (nonblank_texts (rowBuffer d)))).
Proof.
  intros Hcfg Hsh Hs HV Hf Hn. unfold loop2.
  destruct (pass_shown cfg Hcfg fuel now (Z.to_nat (numCharacterRows d) - 1)
              (force_reset cfg d) O fuel)
    as (d' & Hrun);
    cbn [force_reset bufferPointer slot numCharacterRows set_slot
         set_noMoreRowsToDisplay set_bufferPointer set_rowNext set_rowFirst];
    try reflexivity; try assumption; try lia.
  - replace (S (Z.to_nat (numCharacterRows d) - 1))
      with (Z.to_nat (numCharacterRows d)) by lia.
    exact Hn.
  - right. cbn [noMoreRowsToDisplay rowBuffer rowNext rowFirst cursor_row].
    split; [reflexivity|]. split; [lia|]. split; [reflexivity|].
    intros _. left. split; reflexivity.
  - exists d'. cbn [force_reset slot set_slot rowBuffer set_noMoreRowsToDisplay
                    set_bufferPointer set_rowNext set_rowFirst drop] in Hrun.
    replace (S (Z.to_nat (numCharacterRows d) - 1))
      with (Z.to_nat (numCharacterRows d)) in Hrun by lia.
    exact Hrun.
Qed.

Lemma forced_call_shows_the_nonblank_rows_witness :
  exists d',
    loop2 Examples.cfg_row 100 true 0 Examples.row3_only =
    Some (d', Examples.shows ["D"%byte] []).
Proof.
  destruct (forced_call_shows_the_nonblank_rows Examples.cfg_row 100 0
              Examples.row3_only RowBufferFacts.config_ok_cfg_row)
    as (d' & H).
  - vm_compute. repeat split. repeat constructor.
  - vm_compute. reflexivity.
  - vm_compute. split; congruence.
  - vm_compute. lia.
  - vm_compute. lia.
  - exists d'. rewrite H. vm_compute. reflexivity.
Defined.

Lemma first_lines_nil (n : nat) : first_lines n [] = replicate n [].
Proof. induction n as [|n IH]; [reflexivity|]. cbn. now rewrite IH. Qed.

Lemma blank_rows_blank_at (cfg : config) (d : t) :
  all_rows_blank cfg d = true ->
  forall i, 0 <= i < MAX_CHARACTER_ROWS cfg -> blank_at d i.
Proof.
  intros Hall i Hi. unfold all_rows_blank in Hall.
  rewrite forallb_forall in Hall.
  assert (Hin : In i (seqZ 0 (MAX_CHARACTER_ROWS cfg))).
  { apply list_elem_of_In, elem_of_seqZ. lia. }
  apply Hall in Hin. apply negb_true_iff in Hin. exact Hin.
Qed.

(** X11.  Under the page policy, [_refresh] after [_clear] returns and
    has shown a line of spaces in every slot of the device, whatever the
    rows held before the [_clear]. *)
Theorem refresh_after_clear_shows_blank_lines (cfg : config) (fuel : nat)
    (now : Z) (d : t) :
  config_ok cfg ->
  SCROLLMODE cfg = 1 ->
  shape cfg d ->
  1 <= numCharacterRows d <= 255 ->
  (Z.to_nat (MAX_CHARACTER_ROWS cfg) < fuel)%nat ->
  (Z.to_nat (numCharacterRows d) * S (Z.to_nat (MAX_CHARACTER_COLS cfg))
   <= fuel)%nat ->
  exists d',
    _refresh cfg fuel now (snd (_clear cfg d)) =
    Some (d', pass_requests (Z.to_nat (MAX_CHARACTER_COLS cfg)) 0
                (replicate (Z.to_nat (numCharacterRows d)) [])).
Proof.
  intros Hcfg Hmode Hsh HV Hf Hn.
  set (dc := snd (_clear cfg d)).
  assert (Hshc : shape cfg dc) by now apply (cleared_rows_shape cfg d).
  assert (Hblank : all_rows_blank cfg dc = true)
    by now apply (cleared_rows_blank cfg _ (rowBuffer d)).
  assert (Hnr : numCharacterRows dc = numCharacterRows d) by reflexivity.
  assert (Hnone : nonblank_texts (rowBuffer dc) = []).
  { apply (texts_of_blank_rows dc (length (rowBuffer dc)) 0); [lia|].
    intros i Hi. apply (blank_rows_blank_at cfg dc Hblank).
    destruct Hshc as (Hlen & _). lia. }
  unfold _refresh, loop2. fold dc. clearbody dc.
  destruct (pass_shown cfg Hcfg fuel now (Z.to_nat (numCharacterRows d) - 1)
              (force_reset cfg dc) O fuel)
    as (d' & Hrun);
    cbn [force_reset bufferPointer slot numCharacterRows set_slot
         set_noMoreRowsToDisplay set_bufferPointer set_rowNext set_rowFirst];
    rewrite ?Hnr; try reflexivity; try assumption; try lia.
  - unfold searchable. now rewrite Hmode.
  - replace (S (Z.to_nat (numCharacterRows d) - 1))
      with (Z.to_nat (numCharacterRows d)) by lia.
    exact Hn.
  - right. cbn [noMoreRowsToDisplay rowBuffer rowNext rowFirst cursor_row].
    split; [reflexivity|]. split; [lia|]. split; [reflexivity|].
    intros _. left. split; reflexivity.
  - exists d'. cbn [force_reset slot set_slot rowBuffer set_noMoreRowsToDisplay
                    set_bufferPointer set_rowNext set_rowFirst drop] in Hrun.
    replace (S (Z.to_nat (numCharacterRows d) - 1))
      with (Z.to_nat (numCharacterRows d)) in Hrun by lia.
    rewrite <- first_lines_nil, <- Hnone. exact Hrun.
Qed.

Lemma refresh_after_clear_shows_blank_lines_witness :
  exists d',
    _refresh Examples.cfg_page 100 0
      (snd (_clear Examples.cfg_page Examples.five_rows)) =
    Some (d', Examples.shows [] []).
Proof.
  destruct (refresh_after_clear_shows_blank_lines Examples.cfg_page 100 0
              Examples.five_rows)
    as (d' & H).
  - vm_compute. repeat split; congruence.
  - reflexivity.
  - vm_compute. repeat split. repeat constructor.
  - vm_compute. split; congruence.
  - vm_compute. lia.
  - vm_compute. lia.
  - exists d'. rewrite H. vm_compute. reflexivity.
Defined.

End ShownRows.
